(** * Auto_quote: the spreadsheet-backed store and the quotation renderer

    A shallow embedding of [services/excelService.ts], [services/pdfService.ts],
    [stores/companyStore.ts] and [stores/productStore.ts], and the properties
    of the specification that were checked against it.

    Layout of the file:
    - [JS]: the JavaScript values that live in sheet cells, and the
      built-in coercions the services apply to them;
    - [XLSX], [JSONLib]: workbooks, and SheetJS's writer and reader and
      the JSON codec as interfaces with the laws assumed of them;
    - [Eff]: a state-and-exception monad for the asynchronous service
      code (one task runs at a time, so [await] is sequencing);
    - [ExcelService], [CompanyStore], [ProductStore], [PDFService]: the
      embedded code, function by function;
    - [Reference]: an implementation of the two interfaces, to run the
      code on concrete stores;
    - [Spec]: the vocabulary of the statements and the sample data;
    - [Facts]: the lemmas and the theorems. *)

From Stdlib Require Import ZArith Ascii String List Lia.
From stdpp Require Import gmap strings list pretty.

Local Open Scope string_scope.
Local Open Scope Z_scope.

(** ** JavaScript values *)

Module JS.

(** Numbers. A finite non-zero double is written [Finite s d e] for
    [(-1)^s * d * 10^e] (every double is a finite decimal); rounding and
    the sign of zero are not modelled. *)
Inductive number : Type :=
  | NaN
  | Infinity (negative : bool)
  | Zero
  | Finite (negative : bool) (digits : positive) (exponent : Z).

(** What a sheet cell, or an untyped record field, can hold. *)
Inductive value : Type :=
  | VUndefined
  | VBoolean (b : bool)
  | VNumber (n : number)
  | VString (s : string).

#[global] Instance number_eq_dec : EqDecision number.
Proof. solve_decision. Defined.

#[global] Instance value_eq_dec : EqDecision value.
Proof. solve_decision. Defined.

Definition number_to_sum (n : number) : unit + bool + unit + bool * positive * Z :=
  match n with
  | NaN => inl (inl (inl tt))
  | Infinity s => inl (inl (inr s))
  | Zero => inl (inr tt)
  | Finite s d e => inr (s, d, e)
  end.

Definition number_of_sum (x : unit + bool + unit + bool * positive * Z) : number :=
  match x with
  | inl (inl (inl _)) => NaN
  | inl (inl (inr s)) => Infinity s
  | inl (inr _) => Zero
  | inr (s, d, e) => Finite s d e
  end.

#[global] Instance number_countable : Countable number.
Proof.
  apply (inj_countable' number_to_sum number_of_sum).
  intros []; reflexivity.
Defined.

Definition value_to_sum (v : value) : unit + bool + number + string :=
  match v with
  | VUndefined => inl (inl (inl tt))
  | VBoolean b => inl (inl (inr b))
  | VNumber n => inl (inr n)
  | VString s => inr s
  end.

Definition value_of_sum (x : unit + bool + number + string) : value :=
  match x with
  | inl (inl (inl _)) => VUndefined
  | inl (inl (inr b)) => VBoolean b
  | inl (inr n) => VNumber n
  | inr s => VString s
  end.

#[global] Instance value_countable : Countable value.
Proof.
  apply (inj_countable' value_to_sum value_of_sum).
  intros []; reflexivity.
Defined.

(** *** Numbers: normal form, equality, printing *)

(** Trailing decimal zeros move from the digits to the exponent. *)
Fixpoint strip_zeros (fuel : nat) (d : positive) (e : Z) : positive * Z :=
  match fuel with
  | O => (d, e)
  | S fuel' =>
      if (Z.pos d mod 10 =? 0)
      then match Z.pos d / 10 with
           | Z.pos d' => strip_zeros fuel' d' (e + 1)
           | _ => (d, e)
           end
      else (d, e)
  end.

Definition normalize (n : number) : number :=
  match n with
  | Finite s d e =>
      let '(d', e') := strip_zeros (Pos.size_nat d) d e in Finite s d' e'
  | _ => n
  end.

(** [x === y] on numbers: [NaN] differs from everything, itself included. *)
Definition number_eqb (x y : number) : bool :=
  match x, y with
  | NaN, _ | _, NaN => false
  | _, _ => bool_decide (normalize x = normalize y)
  end.

Definition repeat_string (n : nat) (s : string) : string :=
  String.concat EmptyString (repeat s n).

Definition string_take (n : nat) (s : string) : string := String.substring 0 n s.
Definition string_drop (n : nat) (s : string) : string :=
  String.substring n (String.length s - n) s.

(** Number::toString(x) in radix 10 (ECMA-262, 6.1.6.1.20). *)
Definition numberToString (x : number) : string :=
  match normalize x with
  | NaN => "NaN"
  | Infinity false => "Infinity"
  | Infinity true => "-Infinity"
  | Zero => "0"
  | Finite s d e =>
      let ds := pretty (N.pos d) in
      let k := Z.of_nat (String.length ds) in
      let n := k + e in
      let body :=
        if (k <=? n) && (n <=? 21) then
          ds +:+ repeat_string (Z.to_nat (n - k)) "0"
        else if (0 <? n) && (n <=? 21) then
          string_take (Z.to_nat n) ds +:+ "." +:+ string_drop (Z.to_nat n) ds
        else if (-6 <? n) && (n <=? 0) then
          "0." +:+ repeat_string (Z.to_nat (- n)) "0" +:+ ds
        else
          let ex := n - 1 in
          let sg := if ex <? 0 then "-" else "+" in
          let mant :=
            if k =? 1 then ds
            else string_take 1 ds +:+ "." +:+ string_drop 1 ds in
          mant +:+ "e" +:+ sg +:+ pretty (Z.abs_N ex)
      in
      if s then "-" +:+ body else body
  end.

(** *** Reading numbers from text *)

Definition is_white (c : ascii) : bool :=
  let n := nat_of_ascii c in
  bool_decide (n = 32 \/ n = 9 \/ n = 10 \/ n = 11 \/ n = 12 \/ n = 13)%nat.

Definition digit_of (c : ascii) : option N :=
  let n := N_of_ascii c in
  if (48 <=? n)%N && (n <=? 57)%N then Some (n - 48)%N else None.

Fixpoint skip_white (l : list ascii) : list ascii :=
  match l with
  | c :: l' => if is_white c then skip_white l' else l
  | [] => []
  end.

(** The longest run of decimal digits at the head of [l]: their number,
    their value (after the accumulator), and the rest of the text. *)
Fixpoint read_digits (l : list ascii) (count : nat) (acc : N) : nat * N * list ascii :=
  match l with
  | c :: l' =>
      match digit_of c with
      | Some v => read_digits l' (S count) (10 * acc + v)%N
      | None => (count, acc, l)
      end
  | [] => (count, acc, [])
  end.

Definition read_sign (l : list ascii) : bool * list ascii :=
  match l with
  | "-"%char :: l' => (true, l')
  | "+"%char :: l' => (false, l')
  | _ => (false, l)
  end.

Definition make_number (negative : bool) (digits : N) (exponent : Z) : number :=
  match digits with
  | N0 => Zero
  | N.pos d => normalize (Finite negative d exponent)
  end.

(** ExponentPart, when one follows; otherwise nothing is consumed. *)
Definition read_exponent (l : list ascii) : Z * list ascii :=
  match l with
  | c :: l' =>
      if bool_decide (c = "e"%char \/ c = "E"%char) then
        let '(neg, l1) := read_sign l' in
        let '(cnt, v, rest) := read_digits l1 0 0%N in
        match cnt with
        | O => (0, l)
        | _ => (if neg then - Z.of_N v else Z.of_N v, rest)
        end
      else (0, l)
  | [] => (0, l)
  end.

(** The longest prefix of [l] that is a StrDecimalLiteral, as a number,
    with the text left over; [None] when no prefix is one. *)
Definition read_decimal (l : list ascii) : option (number * list ascii) :=
  let '(neg, l0) := read_sign l in
  if String.prefix "Infinity" (string_of_list_ascii l0) then
    Some (Infinity neg, skipn 8 l0)
  else
    let '(c1, v1, l1) := read_digits l0 0 0%N in
    let '(c2, v2, l2) :=
      match l1 with
      | "."%char :: l1' =>
          let '(c2, v2, l2) := read_digits l1' 0 v1 in
          match c1, c2 with
          | O, O => (O, v1, l1)
          | _, _ => (c2, v2, l2)
          end
      | _ => (O, v1, l1)
      end in
    match c1, c2 with
    | O, O => None
    | _, _ =>
        let '(ex, l3) := read_exponent l2 in
        Some (make_number neg v2 (ex - Z.of_nat c2), l3)
    end.

(** [parseFloat(s)] on a string (ECMA-262, 19.2.4): leading white space
    is skipped and trailing text ignored. *)
Definition parseFloat_string (s : string) : number :=
  match read_decimal (skip_white (list_ascii_of_string s)) with
  | Some (n, _) => n
  | None => NaN
  end.

Definition hex_digit_of (c : ascii) : option N :=
  let n := N_of_ascii c in
  if (48 <=? n)%N && (n <=? 57)%N then Some (n - 48)%N
  else if (97 <=? n)%N && (n <=? 102)%N then Some (n - 87)%N
  else if (65 <=? n)%N && (n <=? 70)%N then Some (n - 55)%N
  else None.

(** A non-empty run of digits in base [base] that is the whole of [l]. *)
Fixpoint read_radix (base : N) (l : list ascii) (acc : N) : option N :=
  match l with
  | [] => Some acc
  | c :: l' =>
      match hex_digit_of c with
      | Some v => if (v <? base)%N then read_radix base l' (base * acc + v)%N else None
      | None => None
      end
  end.

Definition trim (l : list ascii) : list ascii :=
  rev (skip_white (rev (skip_white l))).

(** StringToNumber (ECMA-262, 7.1.4.1.1): the whole trimmed text has
    to be a numeric literal; the empty text is 0. *)
Definition stringToNumber (s : string) : number :=
  match trim (list_ascii_of_string s) with
  | [] => Zero
  | ("0"%char :: p :: _ :: _) as l =>
      let radix :=
        if bool_decide (p = "x"%char \/ p = "X"%char) then Some 16%N
        else if bool_decide (p = "o"%char \/ p = "O"%char) then Some 8%N
        else if bool_decide (p = "b"%char \/ p = "B"%char) then Some 2%N
        else None in
      match radix with
      | Some b =>
          match read_radix b (skipn 2 l) 0%N with
          | Some v => make_number false v 0
          | None => NaN
          end
      | None =>
          match read_decimal l with
          | Some (n, []) => n
          | _ => NaN
          end
      end
  | l =>
      match read_decimal l with
      | Some (n, []) => n
      | _ => NaN
      end
  end.

(** *** Coercions and operators *)

(** ToBoolean: what [!x], [x || y] and [x ? a : b] test. *)
Definition truthy (v : value) : bool :=
  match v with
  | VUndefined => false
  | VBoolean b => b
  | VNumber NaN | VNumber Zero => false
  | VNumber _ => true
  | VString s => negb (bool_decide (s = EmptyString))
  end.

(** [x || y] *)
Definition or (x y : value) : value := if truthy x then x else y.

(** [x === y] *)
Definition strict_eq (x y : value) : bool :=
  match x, y with
  | VUndefined, VUndefined => true
  | VBoolean a, VBoolean b => bool_decide (a = b)
  | VNumber a, VNumber b => number_eqb a b
  | VString a, VString b => bool_decide (a = b)
  | _, _ => false
  end.

(** [String(x)] *)
Definition ToString (v : value) : string :=
  match v with
  | VUndefined => "undefined"
  | VBoolean true => "true"
  | VBoolean false => "false"
  | VNumber n => numberToString n
  | VString s => s
  end.

(** [Number(x)] *)
Definition ToNumber (v : value) : number :=
  match v with
  | VUndefined => NaN
  | VBoolean true => Finite false 1 0
  | VBoolean false => Zero
  | VNumber n => n
  | VString s => stringToNumber s
  end.

(** [parseFloat(x)]: the argument goes through ToString first. For a
    number that text reads back as the number itself, which is taken as
    the definition on numbers. *)
Definition parseFloat (v : value) : number :=
  match v with
  | VNumber n => n
  | _ => parseFloat_string (ToString v)
  end.

(** [xs.indexOf(x)]: position of the first element [=== x], or -1. *)
Fixpoint indexOf_from (i : Z) (xs : list value) (x : value) : Z :=
  match xs with
  | [] => -1
  | y :: ys => if strict_eq y x then i else indexOf_from (i + 1) ys x
  end.

Definition indexOf (xs : list value) (x : value) : Z := indexOf_from 0 xs x.

(** [xs[i]]: [undefined] outside the array (and for the index -1 that
    [indexOf] gives for a missing header). *)
Definition at_ (xs : list value) (i : Z) : value :=
  if i <? 0 then VUndefined else nth (Z.to_nat i) xs VUndefined.

(** [xs.includes(s)] on an array of strings. *)
Definition includes (xs : list string) (s : string) : bool :=
  bool_decide (s ∈ xs).

(** [s.startsWith(p)] *)
Definition startsWith (p s : string) : bool := String.prefix p s.

End JS.

(** ** Workbooks and the SheetJS interface *)

Module XLSX.

(** A worksheet is kept as the array of arrays that [aoa_to_sheet] takes
    and [sheet_to_json(ws, {header: 1})] gives back: rows of cells, and
    a read outside a row is [undefined] ([JS.at_]). *)
Abbreviation WorkSheet := (list (list JS.value)).

Record WorkBook : Type := {
  SheetNames : list string;
  Sheets : gmap string WorkSheet;
}.

#[global] Instance WorkBook_eq_dec : EqDecision WorkBook.
Proof.
  intros [n1 s1] [n2 s2].
  destruct (decide (n1 = n2)); [| right; congruence].
  destruct (decide (s1 = s2)); [left; congruence | right; congruence].
Defined.

#[global] Instance WorkBook_countable : Countable WorkBook.
Proof.
  apply (inj_countable' (fun wb => (SheetNames wb, Sheets wb))
                        (fun p => {| SheetNames := p.1; Sheets := p.2 |})).
  intros []; reflexivity.
Defined.

Definition aoa_to_sheet (data : WorkSheet) : WorkSheet := data.
Definition sheet_to_json (ws : WorkSheet) : WorkSheet := ws.

Definition book_new : WorkBook := {| SheetNames := []; Sheets := ∅ |}.

Definition book_append_sheet (wb : WorkBook) (ws : WorkSheet) (name : string) : WorkBook :=
  {| SheetNames := (SheetNames wb ++ [name])%list; Sheets := <[name := ws]> (Sheets wb) |}.

(** [workbook.Sheets[name] = ws]: the list of sheet names is not touched. *)
Definition assign_sheet (wb : WorkBook) (name : string) (ws : WorkSheet) : WorkBook :=
  {| SheetNames := SheetNames wb; Sheets := <[name := ws]> (Sheets wb) |}.

(** [XLSX.write(wb, {bookType: 'xlsx', type: 'base64'})] and
    [XLSX.read(text, {type: 'base64'})]; [read] is [None] when the
    library throws. *)
Class Codec : Type := {
  write : WorkBook -> string;
  read : string -> option WorkBook;
}.

(** The writer goes through [SheetNames]: a workbook is written whole
    when its sheets are exactly the listed ones. *)
Definition listed (wb : WorkBook) : Prop :=
  NoDup (SheetNames wb) /\ dom (Sheets wb) = list_to_set (SheetNames wb).

#[global] Instance listed_dec wb : Decision (listed wb).
Proof. unfold listed. apply _. Defined.

(** What is assumed of SheetJS: a listed workbook reads back as
    written, and base64 text is neither empty nor a [blob:] URL. *)
Class CodecLaws (C : Codec) : Prop := {
  read_write : forall wb, listed wb -> read (write wb) = Some wb;
  write_nonempty : forall wb, write wb <> EmptyString;
  write_not_blob : forall wb, JS.startsWith "blob:" (write wb) = false;
}.

(** The sheets the writer sees: those whose name is in [SheetNames]. *)
Definition listed_part (wb : WorkBook) : WorkBook :=
  {| SheetNames := SheetNames wb;
     Sheets := filter (fun entry => entry.1 ∈ SheetNames wb) (Sheets wb) |}.

(** What is assumed besides of the writer of SheetJS: it loops over
    [wb.SheetNames] and writes [wb.Sheets[name]] for each, so a sheet
    that was assigned to [Sheets] under a name that is not listed is
    not written. *)
Class WritesListed (C : Codec) : Prop := {
  write_listed : forall wb, write wb = write (listed_part wb);
}.

End XLSX.

(** ** JSON *)

(** [JSON.parse] and [JSON.stringify] over the structured values kept in
    text cells; [JSON_parse] is [None] when it throws. *)
Class JSONLib : Type := {
  json : Type;
  JSON_parse : string -> option json;
  JSON_stringify : json -> string;
  (** a JS array of strings, [[]] when the list is empty *)
  json_strings : list string -> json;
  (** the object literal [{}] *)
  json_empty_object : json;
  json_truthy : json -> bool;
}.

Class JSONLaws (J : JSONLib) : Prop := {
  parse_stringify_strings :
    forall l, JSON_parse (JSON_stringify (json_strings l)) = Some (json_strings l);
  parse_empty_array : JSON_parse "[]" = Some (json_strings []);
  stringify_nonempty : forall v, JSON_stringify v <> EmptyString;
  strings_truthy : forall l, json_truthy (json_strings l) = true;
}.

(** ** Effects *)

Module Eff.

(** What a [catch] clause can see, and [Diverge] for a call that does
    not return, which no handler sees. *)
Inductive exn : Type :=
  | Error (message : string)
  | TypeError (message : string)
  | Diverge.

Inductive outcome (A : Type) : Type :=
  | Return (a : A)
  | Throw (e : exn).
Arguments Return {A} a.
Arguments Throw {A} e.

Definition M (S A : Type) : Type := S -> outcome A * S.

Definition ret {S A} (a : A) : M S A := fun s => (Return a, s).
Definition throw {S A} (e : exn) : M S A := fun s => (Throw e, s).

Definition bind {S A B} (m : M S A) (k : A -> M S B) : M S B :=
  fun s =>
    match m s with
    | (Return a, s') => k a s'
    | (Throw e, s') => (Throw e, s')
    end.

Definition get {S} : M S S := fun s => (Return s, s).
Definition modify {S} (f : S -> S) : M S unit := fun s => (Return tt, f s).

(** [try { m } catch (e) { h e }] *)
Definition try_catch {S A} (m : M S A) (h : exn -> M S A) : M S A :=
  fun s =>
    match m s with
    | (Throw Diverge, s') => (Throw Diverge, s')
    | (Throw e, s') => h e s'
    | r => r
    end.

(** [for (const x of xs) { await f x }] *)
Fixpoint for_of {S A} (xs : list A) (f : A -> M S unit) : M S unit :=
  match xs with
  | [] => ret tt
  | x :: xs' => bind (f x) (fun _ => for_of xs' f)
  end.

(** Run a computation on one component of a larger state. *)
Definition zoom {S T A} (proj : T -> S) (upd : S -> T -> T) (m : M S A) : M T A :=
  fun t => let '(r, s') := m (proj t) in (r, upd s' t).

Declare Scope eff_scope.
Delimit Scope eff_scope with eff.
Notation "x <~ m ;; k" := (bind m (fun x => k))
  (at level 100, m at next level, right associativity) : eff_scope.
Notation "m ;;; k" := (bind m (fun _ => k))
  (at level 100, right associativity) : eff_scope.

End Eff.

(** ** The browser's localStorage *)

Module LocalStorage.

(** The stored items, and the [setItem] calls made so far, oldest
    first. *)
Record t : Type := {
  data : gmap string string;
  writes : list (string * string);
}.

Definition getItem (key : string) : Eff.M t (option string) :=
  fun s => (Eff.Return (data s !! key), s).

Definition setItem (key text : string) : Eff.M t unit :=
  fun s => (Eff.Return tt,
            {| data := <[key := text]> (data s);
               writes := (writes s ++ [(key, text)])%list |}).

End LocalStorage.

(** ** The record types of [excelService.ts] *)

(** [getCompanies] hands cells over as they are, so these fields hold
    whatever the cell held; the fields that a reader coerces with
    [String(...)], [Number(...)] or [parseFloat(...)] have that type. *)
Module Company.
Record t : Type := {
  id : JS.value;
  name : JS.value;
  nameEn : JS.value;
  address : JS.value;
  addressEn : JS.value;
  phone : JS.value;
  email : JS.value;
  website : JS.value;
  taxNumber : JS.value;
  bankName : JS.value;
  bankAccount : JS.value;
  swiftCode : JS.value;
  intermediaryBank : JS.value;
  logo : JS.value;
  isDefault : bool;
}.

(** [{...company, isDefault: b}] *)
Definition with_isDefault (b : bool) (c : t) : t :=
  {| id := id c; name := name c; nameEn := nameEn c; address := address c;
     addressEn := addressEn c; phone := phone c; email := email c;
     website := website c; taxNumber := taxNumber c; bankName := bankName c;
     bankAccount := bankAccount c; swiftCode := swiftCode c;
     intermediaryBank := intermediaryBank c; logo := logo c; isDefault := b |}.
End Company.

Module Product.
Record t {json : Type} : Type := {
  id : JS.value;
  name : JS.value;
  nameEn : JS.value;
  description : JS.value;
  descriptionEn : JS.value;
  category : JS.value;
  unit : JS.value;
  minPrice : JS.number;
  maxPrice : JS.number;
  currency : JS.value;
  specifications : json;
  isActive : bool;
  images : option json;
}.
Arguments t : clear implicits.

(** [product.images = v] *)
Definition with_images {json} (v : json) (p : t json) : t json :=
  {| id := id p; name := name p; nameEn := nameEn p; description := description p;
     descriptionEn := descriptionEn p; category := category p; unit := unit p;
     minPrice := minPrice p; maxPrice := maxPrice p; currency := currency p;
     specifications := specifications p; isActive := isActive p;
     images := Some v |}.
End Product.

Module Customer.
Record t : Type := {
  id : string;
  name : string;
  contactPerson : string;
  email : string;
  phone : string;
  address : string;
  country : string;
  companyName : string;
  taxNumber : string;
  notes : string;
}.
End Customer.

Module QuotationItem.
Record t : Type := {
  id : string;
  productId : string;
  productName : string;
  description : string;
  quantity : JS.number;
  unit : string;
  unitPrice : JS.number;
  discountRate : JS.number;
  discountAmount : JS.number;
  totalPrice : JS.number;
}.
End QuotationItem.

Module Quotation.
Record t : Type := {
  id : string;
  quotationNumber : string;
  companyId : string;
  customerId : string;
  quotationDate : string;
  expiryDate : string;
  currency : string;
  paymentTerms : string;
  deliveryTerms : string;
  pickupLocation : string;
  tradeTerms : string;
  subtotal : JS.number;
  taxRate : JS.number;
  taxAmount : JS.number;
  totalAmount : JS.number;
  status : string;
  notes : string;
  items : list QuotationItem.t;
}.
End Quotation.

(** ** [services/excelService.ts] *)

Module ExcelService.
Import JS XLSX Eff.
Local Open Scope eff_scope.

Section Service.

Context {codec : XLSX.Codec} {J : JSONLib}.

(** How many times [readFromLocalStorage] may call itself before the
    call counts as not returning. *)
Variable fuel : nat.

(** [fetch(url)], [arrayBuffer()] and [XLSX.read(buffer, {type: 'array'})]
    on a legacy [blob:] URL; [None] when one of them throws. *)
Variable fetchWorkbook : string -> option WorkBook.

Abbreviation IO := (M LocalStorage.t).

(** [x || d] on a string that may be [null]. *)
Definition or_text (x : option string) (d : string) : string :=
  match x with
  | Some s => if truthy (VString s) then s else d
  | None => d
  end.

Definition getUserKey : IO string :=
  uid <~ LocalStorage.getItem "qs_current_user";;
  ret ("quotation_system_data:" +:+ or_text uid "default").

Definition getCompanyHeaders : list string :=
  [ "ID"; "公司名称"; "英文名称"; "地址"; "英文地址"; "电话"; "邮箱"; "网址";
    "税号"; "银行名称"; "银行账号"; "SWIFT代码"; "中转银行"; "Logo"; "是否默认" ].

Definition getProductHeaders : list string :=
  [ "ID"; "产品名称"; "英文名称"; "产品描述"; "英文描述"; "分类"; "单位";
    "最低价格"; "最高价格"; "货币"; "规格参数"; "是否启用"; "图片" ].

Definition getCustomerHeaders : list string :=
  [ "ID"; "客户名称"; "联系人"; "邮箱"; "电话"; "地址"; "国家"; "公司名称"; "税号"; "备注" ].

Definition getQuotationHeaders : list string :=
  [ "ID"; "报价单号"; "公司ID"; "客户ID"; "报价日期"; "有效期"; "货币";
    "付款条款"; "交货条款"; "提货地点"; "贸易术语"; "小计"; "税率"; "税额";
    "总金额"; "状态"; "备注" ].

Definition getQuotationItemHeaders : list string :=
  [ "ID"; "报价单ID"; "产品ID"; "产品名称"; "描述"; "数量"; "单位";
    "单价"; "折扣率"; "折扣金额"; "总价" ].

Definition getTemplateHeaders : list string :=
  [ "ID"; "模板名称"; "模板类型"; "内容"; "是否默认" ].

(** A header array as the row of cells it becomes in a sheet. *)
Definition header_row (headers : list string) : list value := map VString headers.

(** The workbook [initializeExcelFile] builds: six sheets, one header
    row each. *)
Definition initial_sheets : list (string * list string) :=
  [ ("公司信息", getCompanyHeaders);
    ("产品库", getProductHeaders);
    ("客户信息", getCustomerHeaders);
    ("报价单", getQuotationHeaders);
    ("报价单项", getQuotationItemHeaders);
    ("条款模板", getTemplateHeaders) ].

Definition initial_workbook : WorkBook :=
  fold_left
    (fun workbook sheet =>
       book_append_sheet workbook (aoa_to_sheet [header_row sheet.2]) sheet.1)
    initial_sheets book_new.

Definition initializeExcelFile : IO unit :=
  let base64 := write initial_workbook in
  key <~ getUserKey;;
  LocalStorage.setItem key base64.

(** [XLSX.read(text, {type: 'base64'})], throwing when the library does. *)
Definition XLSX_read (text : string) : IO (option WorkBook) :=
  match read text with
  | Some workbook => ret (Some workbook)
  | None => throw (Error "XLSX.read")
  end.

Fixpoint readFromLocalStorage_ (n : nat) : IO (option WorkBook) :=
  match n with
  | O => throw Diverge
  | S n' =>
      try_catch
        (key <~ getUserKey;;
         stored <~ LocalStorage.getItem key;;
         match stored with
         | Some text =>
             if negb (truthy (VString text)) then
               initializeExcelFile;;; readFromLocalStorage_ n'
             else if startsWith "blob:" text then
               try_catch
                 (match fetchWorkbook text with
                  | Some workbook => ret (Some workbook)
                  | None => throw (Error "fetch")
                  end)
                 (fun _ =>
                    initializeExcelFile;;;
                    key' <~ getUserKey;;
                    base64 <~ LocalStorage.getItem key';;
                    XLSX_read (or_text base64 EmptyString))
             else XLSX_read text
         | None => initializeExcelFile;;; readFromLocalStorage_ n'
         end)
        (fun error => ret None)
  end.

Definition readFromLocalStorage : IO (option WorkBook) := readFromLocalStorage_ fuel.

Definition saveToLocalStorage (workbook : WorkBook) : IO unit :=
  let base64 := write workbook in
  key <~ getUserKey;;
  legacy <~ LocalStorage.getItem key;;
  LocalStorage.setItem key base64.

(** [row[headers.indexOf(name)]] *)
Definition cell (headers row : list value) (name : string) : value :=
  at_ row (indexOf headers (VString name)).

(** The loop [for (i = 1; i < data.length; i++) if (data[i][0] === id)
    { existingIndex = i; break; }], started at row [i]. *)
Fixpoint find_existing (i : Z) (rows : WorkSheet) (id : value) : Z :=
  match rows with
  | [] => -1
  | row :: rows' => if strict_eq (at_ row 0) id then i else find_existing (i + 1) rows' id
  end.

(** [if (existingIndex >= 0) data[existingIndex] = row; else data.push(row)] *)
Definition upsert (data : WorkSheet) (id : value) (row : list value) : WorkSheet :=
  let existingIndex := find_existing 1 (tl data) id in
  if 0 <=? existingIndex then <[Z.to_nat existingIndex := row]> data
  else (data ++ [row])%list.

Definition yes_no (b : bool) : value := VString (if b then "是" else "否").

(** *** Companies *)

Definition company_of_row (headers row : list value) : Company.t :=
  {| Company.id := or (cell headers row "ID") (VString EmptyString);
     Company.name := or (cell headers row "公司名称") (VString EmptyString);
     Company.nameEn := or (cell headers row "英文名称") (VString EmptyString);
     Company.address := or (cell headers row "地址") (VString EmptyString);
     Company.addressEn := or (cell headers row "英文地址") (VString EmptyString);
     Company.phone := or (cell headers row "电话") (VString EmptyString);
     Company.email := or (cell headers row "邮箱") (VString EmptyString);
     Company.website := or (cell headers row "网址") (VString EmptyString);
     Company.taxNumber := or (cell headers row "税号") (VString EmptyString);
     Company.bankName := or (cell headers row "银行名称") (VString EmptyString);
     Company.bankAccount := or (cell headers row "银行账号") (VString EmptyString);
     Company.swiftCode := or (cell headers row "SWIFT代码") (VString EmptyString);
     Company.intermediaryBank := or (cell headers row "中转银行") (VString EmptyString);
     Company.logo := or (cell headers row "Logo") (VString EmptyString);
     Company.isDefault := strict_eq (cell headers row "是否默认") (VString "是") |}.

Definition getCompanies : IO (list Company.t) :=
  workbook <~ readFromLocalStorage;;
  match workbook with
  | None => ret []
  | Some workbook =>
      match Sheets workbook !! "公司信息" with
      | None => ret []
      | Some worksheet =>
          let data := sheet_to_json worksheet in
          if (length data <=? 1)%nat then ret []
          else
            let headers := hd [] data in
            ret (map (company_of_row headers) (tl data))
      end
  end.

Definition company_row (company : Company.t) : list value :=
  [ Company.id company;
    Company.name company;
    Company.nameEn company;
    Company.address company;
    Company.addressEn company;
    Company.phone company;
    Company.email company;
    Company.website company;
    Company.taxNumber company;
    Company.bankName company;
    Company.bankAccount company;
    Company.swiftCode company;
    or (Company.intermediaryBank company) (VString EmptyString);
    or (Company.logo company) (VString EmptyString);
    yes_no (Company.isDefault company) ].

Definition saveCompany (company : Company.t) : IO unit :=
  workbook <~ readFromLocalStorage;;
  match workbook with
  | None => throw (Error "无法读取Excel文件")
  | Some workbook =>
      let worksheet :=
        match Sheets workbook !! "公司信息" with
        | Some worksheet => worksheet
        | None => aoa_to_sheet [header_row getCompanyHeaders]
        end in
      let data := sheet_to_json worksheet in
      let data := upsert data (Company.id company) (company_row company) in
      let newWorksheet := aoa_to_sheet data in
      saveToLocalStorage (assign_sheet workbook "公司信息" newWorksheet)
  end.

(** *** Products *)

Definition product_of_row (headers row : list value) : Product.t json :=
  let product :=
    {| Product.id := or (cell headers row "ID") (VString EmptyString);
       Product.name := or (cell headers row "产品名称") (VString EmptyString);
       Product.nameEn := or (cell headers row "英文名称") (VString EmptyString);
       Product.description := or (cell headers row "产品描述") (VString EmptyString);
       Product.descriptionEn := or (cell headers row "英文描述") (VString EmptyString);
       Product.category := or (cell headers row "分类") (VString EmptyString);
       Product.unit := or (cell headers row "单位") (VString EmptyString);
       Product.minPrice := parseFloat (or (cell headers row "最低价格") (VString "0"));
       Product.maxPrice := parseFloat (or (cell headers row "最高价格") (VString "0"));
       Product.currency := or (cell headers row "货币") (VString "USD");
       Product.specifications := json_empty_object;
       Product.isActive := strict_eq (cell headers row "是否启用") (VString "是");
       Product.images := None |} in
  let imagesCell := indexOf headers (VString "图片") in
  if 0 <=? imagesCell then
    Product.with_images
      (match JSON_parse (ToString (or (at_ row imagesCell) (VString "[]"))) with
       | Some parsed => parsed
       | None => json_strings []
       end)
      product
  else product.

Definition getProducts : IO (list (Product.t json)) :=
  workbook <~ readFromLocalStorage;;
  match workbook with
  | None => ret []
  | Some workbook =>
      match Sheets workbook !! "产品库" with
      | None => ret []
      | Some worksheet =>
          let data := sheet_to_json worksheet in
          if (length data <=? 1)%nat then ret []
          else
            let headers := hd [] data in
            ret (map (product_of_row headers) (tl data))
      end
  end.

(** [product.images || []] *)
Definition images_or_empty (images : option json) : json :=
  match images with
  | Some v => if json_truthy v then v else json_strings []
  | None => json_strings []
  end.

Definition product_row (product : Product.t json) : list value :=
  [ Product.id product;
    Product.name product;
    Product.nameEn product;
    Product.description product;
    Product.descriptionEn product;
    Product.category product;
    Product.unit product;
    VNumber (Product.minPrice product);
    VNumber (Product.maxPrice product);
    Product.currency product;
    VString (JSON_stringify (Product.specifications product));
    yes_no (Product.isActive product);
    VString (JSON_stringify (images_or_empty (Product.images product))) ].

Definition saveProduct (product : Product.t json) : IO unit :=
  workbook <~ readFromLocalStorage;;
  match workbook with
  | None => throw (Error "无法读取Excel文件")
  | Some workbook =>
      let worksheet :=
        match Sheets workbook !! "产品库" with
        | Some worksheet => worksheet
        | None => aoa_to_sheet [header_row getProductHeaders]
        end in
      let data := sheet_to_json worksheet in
      let data := upsert data (Product.id product) (product_row product) in
      let newWorksheet := aoa_to_sheet data in
      saveToLocalStorage (assign_sheet workbook "产品库" newWorksheet)
  end.

(** *** Import *)

(** An uploaded file, by what [FileReader] and [XLSX.read(data, {type:
    'array'})] make of it. *)
Inductive File : Type :=
  | Unreadable
  | Unparseable
  | Uploaded (workbook : WorkBook).

Definition requiredSheets : list string := [ "公司信息"; "产品库"; "客户信息" ].

Definition missingSheets (workbook : WorkBook) : list string :=
  let availableSheets := SheetNames workbook in
  List.filter (fun sheet => negb (includes availableSheets sheet)) requiredSheets.

Definition importExcel (file : File) : IO unit :=
  match file with
  | Unreadable => throw (Error "文件读取失败")
  | Unparseable => throw (Error "XLSX.read")
  | Uploaded workbook =>
      let missingSheets := missingSheets workbook in
      if (0 <? length missingSheets)%nat then
        throw (Error ("缺少必要的工作表: " +:+ String.concat ", " missingSheets))
      else saveToLocalStorage workbook
  end.

(** *** Quotations and their items *)

Definition quotation_item_of_row (headers row : list value) : QuotationItem.t :=
  {| QuotationItem.id := ToString (or (cell headers row "ID") (VString EmptyString));
     QuotationItem.productId := ToString (or (cell headers row "产品ID") (VString EmptyString));
     QuotationItem.productName := ToString (or (cell headers row "产品名称") (VString EmptyString));
     QuotationItem.description := ToString (or (cell headers row "描述") (VString EmptyString));
     QuotationItem.quantity := ToNumber (or (cell headers row "数量") (VNumber Zero));
     QuotationItem.unit := ToString (or (cell headers row "单位") (VString EmptyString));
     QuotationItem.unitPrice := ToNumber (or (cell headers row "单价") (VNumber Zero));
     QuotationItem.discountRate := ToNumber (or (cell headers row "折扣率") (VNumber Zero));
     QuotationItem.discountAmount := ToNumber (or (cell headers row "折扣金额") (VNumber Zero));
     QuotationItem.totalPrice := ToNumber (or (cell headers row "总价") (VNumber Zero)) |}.

(** [String(row[idxQuotationId]) !== quotationId] *)
Definition other_quotation (idxQuotationId : Z) (quotationId : string) (row : list value) : bool :=
  negb (bool_decide (ToString (at_ row idxQuotationId) = quotationId)).

Definition getQuotationItemsByQuotationId (quotationId : string) : IO (list QuotationItem.t) :=
  workbook <~ readFromLocalStorage;;
  match workbook with
  | None => ret []
  | Some workbook =>
      match Sheets workbook !! "报价单项" with
      | None => ret []
      | Some worksheet =>
          let data := sheet_to_json worksheet in
          if (length data <=? 1)%nat then ret []
          else
            let headers := hd [] data in
            let idxQuotationId := indexOf headers (VString "报价单ID") in
            ret (map (quotation_item_of_row headers)
                     (List.filter
                        (fun row => negb (other_quotation idxQuotationId quotationId row))
                        (tl data)))
      end
  end.

Definition quotation_of_row (headers row : list value) : Quotation.t :=
  {| Quotation.id := ToString (or (cell headers row "ID") (VString EmptyString));
     Quotation.quotationNumber := ToString (or (cell headers row "报价单号") (VString EmptyString));
     Quotation.companyId := ToString (or (cell headers row "公司ID") (VString EmptyString));
     Quotation.customerId := ToString (or (cell headers row "客户ID") (VString EmptyString));
     Quotation.quotationDate := ToString (or (cell headers row "报价日期") (VString EmptyString));
     Quotation.expiryDate := ToString (or (cell headers row "有效期") (VString EmptyString));
     Quotation.currency := ToString (or (cell headers row "货币") (VString "USD"));
     Quotation.paymentTerms := ToString (or (cell headers row "付款条款") (VString EmptyString));
     Quotation.deliveryTerms := ToString (or (cell headers row "交货条款") (VString EmptyString));
     Quotation.pickupLocation := ToString (or (cell headers row "提货地点") (VString EmptyString));
     Quotation.tradeTerms := ToString (or (cell headers row "贸易术语") (VString EmptyString));
     Quotation.subtotal := ToNumber (or (cell headers row "小计") (VNumber Zero));
     Quotation.taxRate := ToNumber (or (cell headers row "税率") (VNumber Zero));
     Quotation.taxAmount := ToNumber (or (cell headers row "税额") (VNumber Zero));
     Quotation.totalAmount := ToNumber (or (cell headers row "总金额") (VNumber Zero));
     Quotation.status := ToString (or (cell headers row "状态") (VString "draft"));
     Quotation.notes := ToString (or (cell headers row "备注") (VString EmptyString));
     Quotation.items := [] |}.

Definition getQuotations : IO (list Quotation.t) :=
  workbook <~ readFromLocalStorage;;
  match workbook with
  | None => ret []
  | Some workbook =>
      match Sheets workbook !! "报价单" with
      | None => ret []
      | Some worksheet =>
          let data := sheet_to_json worksheet in
          if (length data <=? 1)%nat then ret []
          else
            let headers := hd [] data in
            ret (map (quotation_of_row headers) (tl data))
      end
  end.

Definition quotation_row (quotation : Quotation.t) : list value :=
  [ VString (Quotation.id quotation);
    VString (Quotation.quotationNumber quotation);
    VString (Quotation.companyId quotation);
    VString (Quotation.customerId quotation);
    VString (Quotation.quotationDate quotation);
    VString (Quotation.expiryDate quotation);
    VString (Quotation.currency quotation);
    VString (Quotation.paymentTerms quotation);
    VString (Quotation.deliveryTerms quotation);
    VString (Quotation.pickupLocation quotation);
    VString (Quotation.tradeTerms quotation);
    VNumber (Quotation.subtotal quotation);
    VNumber (Quotation.taxRate quotation);
    VNumber (Quotation.taxAmount quotation);
    VNumber (Quotation.totalAmount quotation);
    VString (Quotation.status quotation);
    VString (Quotation.notes quotation) ].

Definition quotation_item_row (quotationId : string) (item : QuotationItem.t) : list value :=
  [ VString (QuotationItem.id item);
    VString quotationId;
    VString (QuotationItem.productId item);
    VString (QuotationItem.productName item);
    VString (QuotationItem.description item);
    VNumber (QuotationItem.quantity item);
    VString (QuotationItem.unit item);
    VNumber (QuotationItem.unitPrice item);
    VNumber (QuotationItem.discountRate item);
    VNumber (QuotationItem.discountAmount item);
    VNumber (QuotationItem.totalPrice item) ].

(** [let sheet = workbook.Sheets[name]; if (!sheet) { sheet =
    aoa_to_sheet([headers]); workbook.Sheets[name] = sheet; }] *)
Definition sheet_or_new (workbook : WorkBook) (name : string) (headers : list string)
  : WorkBook * WorkSheet :=
  match Sheets workbook !! name with
  | Some sheet => (workbook, sheet)
  | None =>
      let sheet := aoa_to_sheet [header_row headers] in
      (assign_sheet workbook name sheet, sheet)
  end.

Definition saveQuotation (quotation : Quotation.t) : IO unit :=
  workbook <~ readFromLocalStorage;;
  match workbook with
  | None => throw (Error "无法读取Excel文件")
  | Some workbook =>
      let '(workbook, sheetQ) := sheet_or_new workbook "报价单" getQuotationHeaders in
      let dataQ := sheet_to_json sheetQ in
      let dataQ := upsert dataQ (VString (Quotation.id quotation)) (quotation_row quotation) in
      let workbook := assign_sheet workbook "报价单" (aoa_to_sheet dataQ) in
      let '(workbook, sheetItems) :=
        sheet_or_new workbook "报价单项" getQuotationItemHeaders in
      let dataItems := sheet_to_json sheetItems in
      match dataItems with
      | [] =>
          (* [dataItems[0]] is [undefined]: [headersItems.indexOf] throws *)
          throw (TypeError "Cannot read properties of undefined (reading 'indexOf')")
      | headersItems :: rows =>
          let idxQuotationId := indexOf headersItems (VString "报价单ID") in
          let kept :=
            ([headersItems]
             ++ List.filter (other_quotation idxQuotationId (Quotation.id quotation)) rows)%list in
          let kept :=
            (kept ++ map (quotation_item_row (Quotation.id quotation))
                         (Quotation.items quotation))%list in
          let workbook := assign_sheet workbook "报价单项" (aoa_to_sheet kept) in
          saveToLocalStorage workbook
      end
  end.

(** *** Customers *)

Definition customer_of_row (headers row : list value) : Customer.t :=
  {| Customer.id := ToString (or (cell headers row "ID") (VString EmptyString));
     Customer.name := ToString (or (cell headers row "客户名称") (VString EmptyString));
     Customer.contactPerson := ToString (or (cell headers row "联系人") (VString EmptyString));
     Customer.email := ToString (or (cell headers row "邮箱") (VString EmptyString));
     Customer.phone := ToString (or (cell headers row "电话") (VString EmptyString));
     Customer.address := ToString (or (cell headers row "地址") (VString EmptyString));
     Customer.country := ToString (or (cell headers row "国家") (VString EmptyString));
     Customer.companyName := ToString (or (cell headers row "公司名称") (VString EmptyString));
     Customer.taxNumber := ToString (or (cell headers row "税号") (VString EmptyString));
     Customer.notes := ToString (or (cell headers row "备注") (VString EmptyString)) |}.

Fixpoint find_customer (headers : list value) (rows : WorkSheet) (customerId : string)
  : option Customer.t :=
  match rows with
  | [] => None
  | row :: rows' =>
      if strict_eq (cell headers row "ID") (VString customerId)
      then Some (customer_of_row headers row)
      else find_customer headers rows' customerId
  end.

Definition getCustomerById (customerId : string) : IO (option Customer.t) :=
  workbook <~ readFromLocalStorage;;
  match workbook with
  | None => ret None
  | Some workbook =>
      match Sheets workbook !! "客户信息" with
      | None => ret None
      | Some sheet =>
          let data := sheet_to_json sheet in
          if (length data <=? 1)%nat then ret None
          else
            let headers := hd [] data in
            ret (find_customer headers (tl data) customerId)
      end
  end.

Definition customer_row (customer : Customer.t) : list value :=
  [ VString (Customer.id customer);
    VString (Customer.name customer);
    VString (Customer.contactPerson customer);
    VString (Customer.email customer);
    VString (Customer.phone customer);
    VString (Customer.address customer);
    VString (Customer.country customer);
    VString (Customer.companyName customer);
    VString (Customer.taxNumber customer);
    VString (Customer.notes customer) ].

Definition saveCustomer (customer : Customer.t) : IO unit :=
  workbook <~ readFromLocalStorage;;
  match workbook with
  | None => throw (Error "无法读取Excel文件")
  | Some workbook =>
      let '(workbook, sheet) := sheet_or_new workbook "客户信息" getCustomerHeaders in
      let data := sheet_to_json sheet in
      let data := upsert data (VString (Customer.id customer)) (customer_row customer) in
      saveToLocalStorage (assign_sheet workbook "客户信息" (aoa_to_sheet data))
  end.

End Service.
End ExcelService.

(** ** [stores/companyStore.ts] *)

Module CompanyStore.
Import JS XLSX Eff.
Local Open Scope eff_scope.

Record CompanyState : Type := {
  companies : list Company.t;
  currentCompany : option Company.t;
  loading : bool;
  error : option string;
}.

(** The store next to the localStorage it works on. (The [persist]
    middleware keeps [currentCompany] under the key [company-store];
    no workbook is read from that key, and it is left out.) *)
Abbreviation App := (CompanyState * LocalStorage.t)%type.

Definition set (f : CompanyState -> CompanyState) : M App unit :=
  modify (fun a : App => (f a.1, a.2)).

(** A call into [excelService]. *)
Definition service {A} (m : M LocalStorage.t A) : M App A :=
  zoom (fun a : App => a.2) (fun s (a : App) => (a.1, s)) m.

(** [error instanceof Error ? error.message : fallback] *)
Definition message_of (e : exn) (fallback : string) : string :=
  match e with
  | Error message | TypeError message => message
  | Diverge => fallback
  end.

Definition start (s : CompanyState) : CompanyState :=
  {| companies := companies s; currentCompany := currentCompany s;
     loading := true; error := None |}.

Definition finish (s : CompanyState) : CompanyState :=
  {| companies := companies s; currentCompany := currentCompany s;
     loading := false; error := error s |}.

Definition failed (message : string) (s : CompanyState) : CompanyState :=
  {| companies := companies s; currentCompany := currentCompany s;
     loading := false; error := Some message |}.

Section Store.

Context {codec : XLSX.Codec}.
Variable fuel : nat.
Variable fetchWorkbook : string -> option WorkBook.

Definition loadCompanies : M App unit :=
  set start;;;
  try_catch
    (companies <~ service (ExcelService.getCompanies fuel fetchWorkbook);;
     set (fun s => {| companies := companies; currentCompany := currentCompany s;
                      loading := false; error := error s |});;;
     a <~ get;;
     match currentCompany a.1, companies with
     | None, first :: _ =>
         let defaultCompany := default first (List.find Company.isDefault companies) in
         set (fun s => {| companies := CompanyStore.companies s;
                          currentCompany := Some defaultCompany;
                          loading := loading s; error := error s |})
     | _, _ => ret tt
     end)
    (fun error => set (failed (message_of error "加载公司信息失败"))).

Definition saveCompany (company : Company.t) : M App unit :=
  set start;;;
  try_catch
    (service (ExcelService.saveCompany fuel fetchWorkbook company);;;
     loadCompanies;;;
     set finish)
    (fun error =>
       set (failed (message_of error "保存公司信息失败"));;;
       throw error).

Definition deleteCompany (companyId : string) : M App unit :=
  set start;;;
  try_catch
    (a <~ get;;
     let companies := companies a.1 in
     let updatedCompanies :=
       List.filter (fun c => negb (strict_eq (Company.id c) (VString companyId)))
                   companies in
     for_of updatedCompanies
       (fun company => service (ExcelService.saveCompany fuel fetchWorkbook company));;;
     loadCompanies;;;
     set finish)
    (fun error =>
       set (failed (message_of error "删除公司信息失败"));;;
       throw error).

Definition getDefaultCompany (s : CompanyState) : option Company.t :=
  List.find Company.isDefault (companies s).

Definition setDefaultCompany (companyId : string) : M App unit :=
  set start;;;
  try_catch
    (a <~ get;;
     let companies := companies a.1 in
     let updatedCompanies :=
       map (fun company =>
              Company.with_isDefault
                (strict_eq (Company.id company) (VString companyId)) company)
           companies in
     for_of updatedCompanies
       (fun company => service (ExcelService.saveCompany fuel fetchWorkbook company));;;
     loadCompanies;;;
     set finish)
    (fun error =>
       set (failed (message_of error "设置默认公司失败"));;;
       throw error).

End Store.
(** [setCurrentCompany] *)
Definition setCurrentCompany (company : Company.t) : M App unit :=
  set (fun s => {| companies := companies s; currentCompany := Some company;
                   loading := loading s; error := error s |}).

End CompanyStore.

(** ** [stores/productStore.ts] *)

Module ProductStore.
Import JS XLSX Eff.
Local Open Scope eff_scope.

Record ProductState {json : Type} : Type := {
  products : list (Product.t json);
  categories : list value;
  loading : bool;
  error : option string;
}.
Arguments ProductState : clear implicits.

(** [Array.from(new Set(xs))]: first occurrences, in order. *)
Definition distinct (xs : list value) : list value :=
  fold_left (fun seen x => if bool_decide (x ∈ seen) then seen else (seen ++ [x])%list)
            xs [].

Section Store.

Context {codec : XLSX.Codec} {J : JSONLib}.
Variable fuel : nat.
Variable fetchWorkbook : string -> option WorkBook.

Abbreviation App := (ProductState json * LocalStorage.t)%type.

Definition set (f : ProductState json -> ProductState json) : M App unit :=
  modify (fun a : App => (f a.1, a.2)).

Definition service {A} (m : M LocalStorage.t A) : M App A :=
  zoom (fun a : App => a.2) (fun s (a : App) => (a.1, s)) m.

Definition start (s : ProductState json) : ProductState json :=
  {| products := products s; categories := categories s; loading := true; error := None |}.

Definition finish (s : ProductState json) : ProductState json :=
  {| products := products s; categories := categories s;
     loading := false; error := error s |}.

Definition failed (message : string) (s : ProductState json) : ProductState json :=
  {| products := products s; categories := categories s;
     loading := false; error := Some message |}.

Definition loadProducts : M App unit :=
  set start;;;
  try_catch
    (products <~ service (ExcelService.getProducts fuel fetchWorkbook);;
     let categories := distinct (List.filter truthy (map Product.category products)) in
     set (fun s => {| products := products; categories := categories;
                      loading := false; error := error s |}))
    (fun error => set (failed (CompanyStore.message_of error "加载产品信息失败"))).

Definition saveProduct (product : Product.t json) : M App unit :=
  set start;;;
  try_catch
    (service (ExcelService.saveProduct fuel fetchWorkbook product);;;
     loadProducts;;;
     set finish)
    (fun error =>
       set (failed (CompanyStore.message_of error "保存产品信息失败"));;;
       throw error).

Definition deleteProduct (productId : string) : M App unit :=
  set start;;;
  try_catch
    (a <~ get;;
     let products := products a.1 in
     let updatedProducts :=
       List.filter (fun p => negb (strict_eq (Product.id p) (VString productId)))
                   products in
     for_of updatedProducts
       (fun product => service (ExcelService.saveProduct fuel fetchWorkbook product));;;
     loadProducts;;;
     set finish)
    (fun error =>
       set (failed (CompanyStore.message_of error "删除产品信息失败"));;;
       throw error).

End Store.
(** *** The queries on the loaded products *)

(** [{ min, max, currency }] *)
Record PriceSuggestion : Type := {
  min : number;
  max : number;
  currency : value;
}.

(** [s.includes(t)] on strings: [t] occurs somewhere in [s]. *)
Fixpoint str_includes (s t : string) : bool :=
  String.prefix t s
  || match s with
     | String _ s' => str_includes s' t
     | EmptyString => false
     end.

(** [xs.filter(f)] with a callback that may throw: the first throw ends
    the call. *)
Fixpoint filter_outcome {A} (f : A -> outcome bool) (xs : list A) : outcome (list A) :=
  match xs with
  | [] => Return []
  | x :: xs' =>
      match f x with
      | Return b =>
          match filter_outcome f xs' with
          | Return ys => Return (if b then x :: ys else ys)
          | Throw e => Throw e
          end
      | Throw e => Throw e
      end
  end.

Section Queries.

Context {json : Type}.

(** [String.prototype.toLowerCase] *)
Variable toLowerCase : string -> string.

Definition getProductById (s : ProductState json) (productId : string)
  : option (Product.t json) :=
  List.find (fun p => strict_eq (Product.id p) (VString productId)) (products s).

Definition getProductsByCategory (s : ProductState json) (category : string)
  : list (Product.t json) :=
  List.filter
    (fun p => strict_eq (Product.category p) (VString category) && Product.isActive p)
    (products s).

(** [x.toLowerCase().includes(searchTerm)]: a [TypeError] when [x] is
    no string. *)
Definition lower_includes (searchTerm : string) (x : value) : outcome bool :=
  match x with
  | VString text => Return (str_includes (toLowerCase text) searchTerm)
  | VUndefined =>
      Throw (TypeError "Cannot read properties of undefined (reading 'toLowerCase')")
  | _ => Throw (TypeError "toLowerCase is not a function")
  end.

(** [a || b || ...] over the fields, left to right. *)
Fixpoint some_includes (searchTerm : string) (fields : list value) : outcome bool :=
  match fields with
  | [] => Return false
  | x :: fields' =>
      match lower_includes searchTerm x with
      | Return true => Return true
      | Return false => some_includes searchTerm fields'
      | Throw e => Throw e
      end
  end.

Definition search_matches (searchTerm : string) (product : Product.t json) : outcome bool :=
  if Product.isActive product then
    some_includes searchTerm
      [ Product.name product; Product.nameEn product; Product.description product;
        Product.descriptionEn product; Product.category product ]
  else Return false.

Definition searchProducts (s : ProductState json) (query : string)
  : outcome (list (Product.t json)) :=
  let searchTerm := toLowerCase query in
  filter_outcome (search_matches searchTerm) (products s).

Definition getPriceSuggestion (s : ProductState json) (productId : string)
  : option PriceSuggestion :=
  match getProductById s productId with
  | None => None
  | Some product =>
      Some {| min := Product.minPrice product;
              max := Product.maxPrice product;
              currency := Product.currency product |}
  end.

End Queries.

End ProductStore.

(** ** [services/pdfService.ts] *)

Module PDFService.
Import JS Eff.
Local Open Scope eff_scope.

Inductive PDFTemplate : Type := quotation | invoice | proforma.
Inductive Format : Type := A4 | Letter.
Inductive Orientation : Type := portrait | landscape.

Record Margin : Type := {
  top : number;
  right : number;
  bottom : number;
  left : number;
}.

Record PDFConfig : Type := {
  template : PDFTemplate;
  format : Format;
  orientation : Orientation;
  margin : Margin;
}.

(** [Partial<PDFConfig>] *)
Record PartialConfig : Type := {
  template_opt : option PDFTemplate;
  format_opt : option Format;
  orientation_opt : option Orientation;
  margin_opt : option Margin;
}.

Inductive LogoPosition : Type := LogoLeft | LogoCenter | LogoRight.

Record PDFOptions : Type := {
  logoPosition : option LogoPosition;
  showProductImages : option bool;
}.

Record CompanyInfo : Type := {
  name : string;
  nameEn : string;
  address : string;
  addressEn : string;
  phone : string;
  email : string;
  website : string;
  taxNumber : string;
  bankName : string;
  bankAccount : string;
  swiftCode : string;
  intermediaryBank : option string;
  logo : option string;
}.

Module CustomerInfo.
Record t : Type := {
  name : string;
  companyName : string;
  address : string;
  country : string;
  contactPerson : string;
  email : string;
  phone : string;
}.
End CustomerInfo.

(** The item interface of the PDF service, with the [images] that
    [(item as any).images] reads. *)
Module Item.
Record t : Type := {
  productName : string;
  description : string;
  quantity : number;
  unit : string;
  unitPrice : number;
  totalPrice : number;
  images : option (list string);
}.
End Item.

Record QuotationData : Type := {
  quotationNumber : string;
  quotationDate : string;
  expiryDate : string;
  currency : string;
  pickupLocation : string;
  tradeTerms : string;
  paymentTerms : string;
  deliveryTerms : string;
  items : list Item.t;
  subtotal : number;
  taxRate : number;
  taxAmount : number;
  totalAmount : number;
  notes : string;
}.

Definition defaultConfig : PDFConfig :=
  {| template := quotation; format := A4; orientation := portrait;
     margin := {| top := Finite false 2 1; right := Finite false 2 1;
                  bottom := Finite false 2 1; left := Finite false 2 1 |} |}.

(** [{ ...this.defaultConfig, ...config, template: t }] *)
Definition finalConfig (config : PartialConfig) (t : PDFTemplate) : PDFConfig :=
  {| template := t;
     format := default (format defaultConfig) (format_opt config);
     orientation := default (orientation defaultConfig) (orientation_opt config);
     margin := default (margin defaultConfig) (margin_opt config) |}.

(** The double quote character of the markup. *)
Definition dq : string := String (ascii_of_nat 34) EmptyString.

(** [x.toFixed(f)] for a number below 1e21: the nearest decimal with
    [f] fraction digits, ties away from zero. *)
Definition toFixed (f : nat) (x : number) : string :=
  match x with
  | NaN => "NaN"
  | Infinity false => "Infinity"
  | Infinity true => "-Infinity"
  | Zero | Finite _ _ _ =>
      let '(s, d, e) :=
        match x with Finite s d e => (s, Z.pos d, e) | _ => (false, 0, 0) end in
      let shift := e + Z.of_nat f in
      let n :=
        if 0 <=? shift then d * 10 ^ shift
        else (2 * d + 10 ^ (- shift)) / (2 * 10 ^ (- shift)) in
      let ds := pretty (Z.to_N n) in
      let ds := repeat_string (S f - String.length ds) "0" +:+ ds in
      let k := (String.length ds - f)%nat in
      let body :=
        match f with
        | O => ds
        | _ => string_take k ds +:+ "." +:+ string_drop k ds
        end in
      if s then "-" +:+ body else body
  end.

(** [x > 0] *)
Definition positive_number (x : number) : bool :=
  match x with
  | Infinity false | Finite false _ _ => true
  | _ => false
  end.

Definition truthy_text (x : option string) : bool :=
  match x with
  | Some s => truthy (VString s)
  | None => false
  end.

Section Html.

(** The literal text of the big template of [generateQuotationHTML],
    cut at its interpolations: [literal k] is the text between the
    k-th interpolation and the next one, numbered from 0 in source
    order ([literal 1] holds the whole style sheet). *)
Variable literal : nat -> string.

Definition logoHtml (company : CompanyInfo) : string :=
  if truthy_text (logo company) then
    "<img src=" +:+ dq +:+ default EmptyString (logo company) +:+ dq
    +:+ " alt=" +:+ dq +:+ "Company Logo" +:+ dq
    +:+ " class=" +:+ dq +:+ "logo" +:+ dq +:+ ">"
  else EmptyString.

Definition logoContainer (company : CompanyInfo) (options : PDFOptions) : string :=
  match logoPosition options with
  | Some LogoCenter =>
      "<div style=" +:+ dq +:+ "text-align:center; margin-bottom:10px;" +:+ dq +:+ ">"
      +:+ logoHtml company +:+ "</div>"
  | _ => EmptyString
  end.

(** [options.logoPosition === 'left' ? logoHtml
     : options.logoPosition === 'right' ? logoHtml : ''] *)
Definition headerLogo (company : CompanyInfo) (options : PDFOptions) : string :=
  match logoPosition options with
  | Some LogoLeft => logoHtml company
  | _ =>
      match logoPosition options with
      | Some LogoRight => logoHtml company
      | _ => EmptyString
      end
  end.

Definition imageTag (src : string) : string :=
  "<img src=" +:+ dq +:+ src +:+ dq +:+ " style=" +:+ dq
  +:+ "width:60px;height:60px;object-fit:contain;border:1px solid #eee;padding:2px;"
  +:+ dq +:+ " />".

Definition itemImages (options : PDFOptions) (item : Item.t) : string :=
  match showProductImages options, Item.images item with
  | Some true, Some ((_ :: _) as images) =>
      "<div style=" +:+ dq +:+ "margin-top:6px; display:flex; gap:6px; flex-wrap:wrap;"
      +:+ dq +:+ ">"
      +:+ String.concat EmptyString (map imageTag (take 3 images))
      +:+ "</div>"
  | _, _ => EmptyString
  end.

(** One row of the item table (the white space between its tags is not
    reproduced). *)
Definition itemRow (quotation : QuotationData) (options : PDFOptions)
    (index : nat) (item : Item.t) : string :=
  String.concat EmptyString
    [ "<tr><td class=" +:+ dq +:+ "number" +:+ dq +:+ ">";
      pretty (index + 1)%nat;
      "</td><td>"; Item.productName item;
      "</td><td class=" +:+ dq +:+ "description" +:+ dq +:+ ">";
      Item.description item; itemImages options item;
      "</td><td class=" +:+ dq +:+ "number" +:+ dq +:+ ">";
      numberToString (Item.quantity item);
      "</td><td>"; Item.unit item;
      "</td><td class=" +:+ dq +:+ "number" +:+ dq +:+ ">";
      currency quotation; " "; toFixed 2 (Item.unitPrice item);
      "</td><td class=" +:+ dq +:+ "number" +:+ dq +:+ ">";
      currency quotation; " "; toFixed 2 (Item.totalPrice item);
      "</td></tr>" ].

Definition taxRow (quotation : QuotationData) : string :=
  if positive_number (taxRate quotation) then
    String.concat EmptyString
      [ "<div class=" +:+ dq +:+ "total-row" +:+ dq +:+ "><span>Tax (";
        numberToString (taxRate quotation); "%):</span><span>";
        currency quotation; " "; toFixed 2 (taxAmount quotation);
        "</span></div>" ]
  else EmptyString.

Definition generateQuotationHTML (company : CompanyInfo) (customer : CustomerInfo.t)
    (quotation : QuotationData) (options : PDFOptions) : string :=
  String.concat EmptyString
    [ literal 0; quotationNumber quotation;
      literal 1; logoContainer company options;
      literal 2; name company;
      literal 3; nameEn company;
      literal 4; address company;
      literal 5; addressEn company;
      literal 6; phone company;
      literal 7; email company;
      literal 8; website company;
      literal 9; taxNumber company;
      literal 10; headerLogo company options;
      literal 11; CustomerInfo.name customer;
      literal 12; CustomerInfo.companyName customer;
      literal 13; CustomerInfo.address customer;
      literal 14; CustomerInfo.country customer;
      literal 15; CustomerInfo.contactPerson customer;
      literal 16; CustomerInfo.email customer;
      literal 17; CustomerInfo.phone customer;
      literal 18; quotationNumber quotation;
      literal 19; quotationDate quotation;
      literal 20; expiryDate quotation;
      literal 21; currency quotation;
      literal 22; pickupLocation quotation;
      literal 23; tradeTerms quotation;
      literal 24; String.concat EmptyString (imap (itemRow quotation options) (items quotation));
      literal 25; currency quotation; " "; toFixed 2 (subtotal quotation);
      literal 26; taxRow quotation;
      literal 27; currency quotation; " "; toFixed 2 (totalAmount quotation);
      literal 28; paymentTerms quotation;
      literal 29; deliveryTerms quotation;
      literal 30; expiryDate quotation;
      literal 31;
      (if truthy (VString (notes quotation)) then "4. NOTES: " +:+ notes quotation
       else EmptyString);
      literal 32; bankName company;
      literal 33; bankAccount company;
      literal 34; swiftCode company;
      literal 35;
      (if truthy_text (intermediaryBank company) then
         "<div><strong>Intermediary Bank:</strong> "
         +:+ default EmptyString (intermediaryBank company) +:+ "</div>"
       else EmptyString);
      literal 36; email company;
      literal 37 ].

End Html.

(** *** Rendering *)

(** The page the service runs in: the frames attached to
    [document.body], and how many elements were created. *)
Record Document : Type := {
  body : list nat;
  created : nat;
}.

Definition createElement : M Document nat :=
  fun d => (Return (created d), {| body := body d; created := S (created d) |}).

Definition appendChild (el : nat) : M Document unit :=
  modify (fun d => {| body := (body d ++ [el])%list; created := created d |}).

Definition removeChild (el : nat) : M Document unit :=
  modify (fun d => {| body := List.filter (fun x => negb (Nat.eqb x el)) (body d);
                      created := created d |}).

(** Which handler of the frame the browser calls, if any. *)
Inductive FrameEvent : Type := onload | onerror | no_event.

(** How a promise ends. *)
Inductive Settled (A : Type) : Type :=
  | Resolved (a : A)
  | Rejected (e : exn)
  | Pending.
Arguments Resolved {A} a.
Arguments Rejected {A} e.
Arguments Pending {A}.

Section Render.

Variable literal : nat -> string.
Variable Blob : Type.

(** What the browser does during one call: whether the new frame has a
    document, which event it fires, and what the body of the [try]
    block ([html2canvas], [jsPDF], [addImage], [output]) makes of the
    markup and the configuration: the blob, or the error it throws. *)
Record Browser : Type := {
  contentDocument : bool;
  frameEvent : FrameEvent;
  capture : string -> PDFConfig -> outcome Blob;
}.

Variable browser : Browser.

(** The promise that [generatePDF] returns, as it ends. (Writing the
    markup into the document of the frame changes nothing that is kept
    here.) *)
Definition generatePDF (htmlContent : string) (config : PDFConfig)
  : M Document (Settled Blob) :=
  iframe <~ createElement;;
  appendChild iframe;;;
  if negb (contentDocument browser) then
    ret (Rejected (Error "无法创建iframe文档"))
  else
    match frameEvent browser with
    | onload =>
        match capture browser htmlContent config with
        | Return pdfBlob =>
            removeChild iframe;;;
            ret (Resolved pdfBlob)
        | Throw error =>
            removeChild iframe;;;
            ret (Rejected error)
        end
    | onerror =>
        removeChild iframe;;;
        ret (Rejected (Error "iframe加载失败"))
    | no_event => ret Pending
    end.

Definition generateQuotationPDF (company : CompanyInfo) (customer : CustomerInfo.t)
    (quotation : QuotationData) (config : PartialConfig) (options : PDFOptions)
  : M Document (Settled Blob) :=
  let finalConfig := finalConfig config PDFService.quotation in
  let htmlContent := generateQuotationHTML literal company customer quotation options in
  generatePDF htmlContent finalConfig.

End Render.

Arguments contentDocument {Blob} _.
Arguments frameEvent {Blob} _.
Arguments capture {Blob} _ _ _.
Arguments generatePDF {Blob} browser htmlContent config _.
Arguments generateQuotationPDF literal {Blob} browser company customer quotation config options _.

(** *** Invoices, previews, numbers *)

(** [s.replace(pattern, replacement)] with a string pattern: the first
    occurrence only (the replacement has no [$] pattern). *)
Fixpoint replace_first (pattern replacement s : string) : string :=
  if String.prefix pattern s then
    replacement +:+ string_drop (String.length pattern) s
  else
    match s with
    | EmptyString => EmptyString
    | String c s' => String c (replace_first pattern replacement s')
    end.

(** The default [options = {}]. *)
Definition no_options : PDFOptions :=
  {| logoPosition := None; showProductImages := None |}.

Section Invoice.

Variable literal : nat -> string.

Definition generateInvoiceHTML (company : CompanyInfo) (customer : CustomerInfo.t)
    (invoice : QuotationData) : string :=
  replace_first
    ("<div class=" +:+ dq +:+ "title" +:+ dq +:+ ">QUOTATION</div>")
    ("<div class=" +:+ dq +:+ "title" +:+ dq +:+ ">COMMERCIAL INVOICE</div>")
    (generateQuotationHTML literal company customer invoice no_options).

Variable Blob : Type.
Variable browser : Browser Blob.

Definition generateInvoicePDF (company : CompanyInfo) (customer : CustomerInfo.t)
    (invoice : QuotationData) (config : PartialConfig) : M Document (Settled Blob) :=
  let finalConfig := finalConfig config PDFService.invoice in
  let htmlContent := generateInvoiceHTML company customer invoice in
  generatePDF browser htmlContent finalConfig.

(** [URL.createObjectURL] *)
Variable createObjectURL : Blob -> string.

Definition generatePDFPreview (company : CompanyInfo) (customer : CustomerInfo.t)
    (quotation : QuotationData) (config : PartialConfig) : M Document (Settled string) :=
  blob <~ generateQuotationPDF literal browser company customer quotation config no_options;;
  ret (match blob with
       | Resolved blob => Resolved (createObjectURL blob)
       | Rejected e => Rejected e
       | Pending => Pending
       end).

End Invoice.

Arguments generateInvoicePDF literal {Blob} browser company customer invoice config _.
Arguments generatePDFPreview literal {Blob} browser createObjectURL company customer
  quotation config _.

(** What [new Date()] and [Math.floor(Math.random() * 1000)] give
    during one call of [generateQuotationNumber]. *)
Record Draw : Type := {
  getFullYear : nat;
  getMonth : nat;
  getDate : nat;
  random : nat;
}.

(** [s.slice(-n)] *)
Definition slice_end (n : nat) (s : string) : string :=
  string_drop (String.length s - n) s.

(** [s.padStart(n, '0')] *)
Definition padStart (n : nat) (s : string) : string :=
  repeat_string (n - String.length s) "0" +:+ s.

Definition generateQuotationNumber (draw : Draw) (companyCode : string) : string :=
  let year := slice_end 2 (pretty (getFullYear draw)) in
  let month := padStart 2 (pretty (getMonth draw + 1)%nat) in
  let day := padStart 2 (pretty (getDate draw)) in
  let random := padStart 3 (pretty (random draw)) in
  companyCode +:+ "-" +:+ year +:+ month +:+ day +:+ "-" +:+ random.

Definition formatCurrency (amount : number) (currency : string) : string :=
  currency +:+ " " +:+ toFixed 2 amount.

End PDFService.

(** ** A reference implementation of the library interfaces

    Enough of SheetJS and of JSON to run the embedded code on concrete
    stores: text is produced from the position of a value in the
    enumeration of its (countable) type. *)

Module Reference.
Import JS XLSX.

Fixpoint text_of_positive (p : positive) : string :=
  match p with
  | xH => EmptyString
  | xO p' => String "A" (text_of_positive p')
  | xI p' => String "B" (text_of_positive p')
  end.

Fixpoint positive_of_text (s : string) : option positive :=
  match s with
  | EmptyString => Some xH
  | String c s' =>
      if bool_decide (c = "A"%char) then xO <$> positive_of_text s'
      else if bool_decide (c = "B"%char) then xI <$> positive_of_text s'
      else None
  end.

Definition to_text `{Countable A} (a : A) : string := text_of_positive (encode a).
Definition of_text `{Countable A} (s : string) : option A :=
  positive_of_text s ≫= decode.

(** Text that starts like the base64 of a zip archive. *)
Definition magic : string := "UEsDB".

#[global] Instance codec : Codec := {|
  write wb := magic +:+ to_text (listed_part wb);
  read text :=
    if String.prefix magic text
    then of_text (String.substring 5 (String.length text - 5) text)
    else None;
|}.

(** JSON documents: arrays of strings, flat objects of strings, [null]. *)
Inductive document : Type :=
  | Strings (l : list string)
  | Object (fields : list (string * string))
  | Null.

#[global] Instance document_eq_dec : EqDecision document.
Proof. solve_decision. Defined.

#[global] Instance document_countable : Countable document.
Proof.
  apply (inj_countable'
           (fun d => match d with
                     | Strings l => inl (inl l)
                     | Object f => inl (inr f)
                     | Null => inr tt
                     end)
           (fun x => match x with
                     | inl (inl l) => Strings l
                     | inl (inr f) => Object f
                     | inr _ => Null
                     end)).
  intros []; reflexivity.
Defined.

#[global] Instance JSON : JSONLib := {|
  json := document;
  JSON_stringify d :=
    match d with
    | Strings [] => "[]"
    | Object [] => "{}"
    | Null => "null"
    | _ => String "J" (to_text d)
    end;
  JSON_parse text :=
    if bool_decide (text = "[]") then Some (Strings [])
    else if bool_decide (text = "{}") then Some (Object [])
    else if bool_decide (text = "null") then Some Null
    else match text with
         | String c rest => if bool_decide (c = "J"%char) then of_text rest else None
         | EmptyString => None
         end;
  json_strings := Strings;
  json_empty_object := Object [];
  json_truthy d := match d with Null => false | _ => true end;
|}.

(** No legacy [blob:] URL can be fetched. *)
Definition no_fetch : string -> option WorkBook := fun _ => None.

(** A localStorage that holds [wb] for the default user. *)
Definition storage_of (wb : WorkBook) : LocalStorage.t :=
  {| LocalStorage.data := {[ "quotation_system_data:default" := write wb ]};
     LocalStorage.writes := [] |}.

Definition empty_storage : LocalStorage.t :=
  {| LocalStorage.data := ∅; LocalStorage.writes := [] |}.

(** A localStorage whose backing value is text that is no workbook: it
    starts like the base64 of a zip archive, which makes [XLSX.read]
    open it as one and throw on what follows. *)
Definition corrupt_storage : LocalStorage.t :=
  {| LocalStorage.data := {[ "quotation_system_data:default" := "UEsDBgarbage" ]};
     LocalStorage.writes := [] |}.

End Reference.

(** ** Vocabulary of the statements *)

Module Spec.
Import JS XLSX Eff.

Section Store.

Context {codec : XLSX.Codec}.

(** The key [getUserKey] computes in the store [s]. *)
Definition key_of (s : LocalStorage.t) : string :=
  "quotation_system_data:"
  +:+ ExcelService.or_text (LocalStorage.data s !! "qs_current_user") "default".

(** The backing value of the current user, [None] for [null]. *)
Definition backing (s : LocalStorage.t) : option string :=
  LocalStorage.data s !! key_of s.

(** The backing value is the text of the workbook [wb]. *)
Definition holds (s : LocalStorage.t) (wb : WorkBook) : Prop :=
  backing s = Some (write wb).

(** The store after one [setItem] of the text of [wb] under the user's key. *)
Definition persisted (wb : WorkBook) (s : LocalStorage.t) : LocalStorage.t :=
  {| LocalStorage.data := <[key_of s := write wb]> (LocalStorage.data s);
     LocalStorage.writes := (LocalStorage.writes s ++ [(key_of s, write wb)])%list |}.

End Store.

(** The canonical header rows. *)
Definition company_header : list value :=
  ExcelService.header_row ExcelService.getCompanyHeaders.
Definition product_header : list value :=
  ExcelService.header_row ExcelService.getProductHeaders.
Definition customer_header : list value :=
  ExcelService.header_row ExcelService.getCustomerHeaders.
Definition quotation_header : list value :=
  ExcelService.header_row ExcelService.getQuotationHeaders.
Definition item_header : list value :=
  ExcelService.header_row ExcelService.getQuotationItemHeaders.

(** What one [saveCompany] makes of the rows of the company sheet. *)
Definition save_row (data : WorkSheet) (c : Company.t) : WorkSheet :=
  ExcelService.upsert data (Company.id c) (ExcelService.company_row c).

(** [{...company, isDefault: company.id === companyId}] *)
Definition set_default (companyId : string) (c : Company.t) : Company.t :=
  Company.with_isDefault (strict_eq (Company.id c) (VString companyId)) c.

(** The companies that [getCompanies] reads from rows under the
    canonical header. *)
Definition companies_of (rows : WorkSheet) : list Company.t :=
  map (ExcelService.company_of_row company_header) rows.

(** The first column of a table, where [saveCompany] looks for ids. *)
Definition first_column (rows : WorkSheet) : list value :=
  map (fun row => at_ row 0) rows.

Definition is_string (v : value) : bool :=
  match v with VString _ => true | _ => false end.

Definition is_number (n : number) : bool :=
  match n with NaN => false | _ => true end.

Definition nonempty (s : string) : bool := truthy (VString s).

(** A numeric cell [c] read as [coerce(c || 0)]. *)
Definition reads_number (coerce : value -> number) (c : value) (n : number) : Prop :=
  n = if truthy c then coerce c else Zero.

(** A record whose fields have the types the interfaces declare: text
    where a [string] is declared, with the optional fields present. *)
Definition company_wf (c : Company.t) : bool :=
  forallb is_string
    [ Company.id c; Company.name c; Company.nameEn c; Company.address c;
      Company.addressEn c; Company.phone c; Company.email c; Company.website c;
      Company.taxNumber c; Company.bankName c; Company.bankAccount c;
      Company.swiftCode c; Company.intermediaryBank c; Company.logo c ].

(** Text fields, a currency that is not empty, prices that are numbers,
    and a list of image references. *)
Definition product_wf {J : JSONLib} (p : Product.t json) : Prop :=
  forallb is_string
    [ Product.id p; Product.name p; Product.nameEn p; Product.description p;
      Product.descriptionEn p; Product.category p; Product.unit p;
      Product.currency p ] = true
  /\ truthy (Product.currency p) = true
  /\ is_number (Product.minPrice p) = true
  /\ is_number (Product.maxPrice p) = true
  /\ exists l, Product.images p = Some (json_strings l).

Definition item_wf (item : QuotationItem.t) : bool :=
  forallb is_number
    [ QuotationItem.quantity item; QuotationItem.unitPrice item;
      QuotationItem.discountRate item; QuotationItem.discountAmount item;
      QuotationItem.totalPrice item ].

Definition quotation_wf (q : Quotation.t) : bool :=
  forallb is_number
    [ Quotation.subtotal q; Quotation.taxRate q; Quotation.taxAmount q;
      Quotation.totalAmount q ]
  && nonempty (Quotation.currency q) && nonempty (Quotation.status q).

(** [{...product, specifications: v}] *)
Definition with_specifications {json} (v : json) (p : Product.t json) : Product.t json :=
  {| Product.id := Product.id p; Product.name := Product.name p;
     Product.nameEn := Product.nameEn p; Product.description := Product.description p;
     Product.descriptionEn := Product.descriptionEn p;
     Product.category := Product.category p; Product.unit := Product.unit p;
     Product.minPrice := Product.minPrice p; Product.maxPrice := Product.maxPrice p;
     Product.currency := Product.currency p; Product.specifications := v;
     Product.isActive := Product.isActive p; Product.images := Product.images p |}.

(** [{...quotation, items: l}] *)
Definition with_items (l : list QuotationItem.t) (q : Quotation.t) : Quotation.t :=
  {| Quotation.id := Quotation.id q;
     Quotation.quotationNumber := Quotation.quotationNumber q;
     Quotation.companyId := Quotation.companyId q;
     Quotation.customerId := Quotation.customerId q;
     Quotation.quotationDate := Quotation.quotationDate q;
     Quotation.expiryDate := Quotation.expiryDate q;
     Quotation.currency := Quotation.currency q;
     Quotation.paymentTerms := Quotation.paymentTerms q;
     Quotation.deliveryTerms := Quotation.deliveryTerms q;
     Quotation.pickupLocation := Quotation.pickupLocation q;
     Quotation.tradeTerms := Quotation.tradeTerms q;
     Quotation.subtotal := Quotation.subtotal q;
     Quotation.taxRate := Quotation.taxRate q;
     Quotation.taxAmount := Quotation.taxAmount q;
     Quotation.totalAmount := Quotation.totalAmount q;
     Quotation.status := Quotation.status q;
     Quotation.notes := Quotation.notes q;
     Quotation.items := l |}.

(** A product row whose 最低价格 cell holds text that is no number. *)
Definition row_with_text_price : list value :=
  [ VString "p1"; VString "Widget"; VString "Widget"; VString EmptyString;
    VString EmptyString; VString "parts"; VString "pcs";
    VString "abc"; VNumber (Finite false 5 0); VString "USD";
    VString "{}"; VString "是"; VString "[]" ].

(** A company with a logo and an intermediary bank, and a product with
    two image references, over the reference JSON. *)
Definition sample_company : Company.t :=
  {| Company.id := VString "c1"; Company.name := VString "甲公司";
     Company.nameEn := VString "Alpha Ltd"; Company.address := VString "宁波";
     Company.addressEn := VString "Ningbo"; Company.phone := VString "123";
     Company.email := VString "a@alpha.example"; Company.website := VString EmptyString;
     Company.taxNumber := VString "T-1"; Company.bankName := VString "Bank";
     Company.bankAccount := VString "0001"; Company.swiftCode := VString "SWFT";
     Company.intermediaryBank := VString "Mid Bank"; Company.logo := VString "logo.png";
     Company.isDefault := true |}.

Definition sample_product : Product.t Reference.document :=
  {| Product.id := VString "p1"; Product.name := VString "Widget";
     Product.nameEn := VString "Widget"; Product.description := VString EmptyString;
     Product.descriptionEn := VString EmptyString; Product.category := VString "parts";
     Product.unit := VString "pcs"; Product.minPrice := Finite false 5 0;
     Product.maxPrice := Finite false 75 (-1); Product.currency := VString "USD";
     Product.specifications := Reference.Object [("color", "red")];
     Product.isActive := true;
     Product.images := Some (Reference.Strings ["a.png"; "b.png"]) |}.

Definition sample_customer : Customer.t :=
  {| Customer.id := "k1"; Customer.name := "Bo"; Customer.contactPerson := "Bo";
     Customer.email := EmptyString; Customer.phone := "555"; Customer.address := "1 Road";
     Customer.country := "NZ"; Customer.companyName := "Bo Ltd";
     Customer.taxNumber := EmptyString; Customer.notes := EmptyString |}.

(** The sample company without its optional fields. *)
Definition company_without_logo : Company.t :=
  {| Company.id := VString "c1"; Company.name := VString "甲公司";
     Company.nameEn := VString "Alpha Ltd"; Company.address := VString "宁波";
     Company.addressEn := VString "Ningbo"; Company.phone := VString "123";
     Company.email := VString "a@alpha.example"; Company.website := VString EmptyString;
     Company.taxNumber := VString "T-1"; Company.bankName := VString "Bank";
     Company.bankAccount := VString "0001"; Company.swiftCode := VString "SWFT";
     Company.intermediaryBank := VUndefined; Company.logo := VUndefined;
     Company.isDefault := true |}.

Definition other_company : Company.t :=
  {| Company.id := VString "c2"; Company.name := VString "乙公司";
     Company.nameEn := VString "Beta Ltd"; Company.address := VString "上海";
     Company.addressEn := VString "Shanghai"; Company.phone := VString "456";
     Company.email := VString "b@beta.example"; Company.website := VString EmptyString;
     Company.taxNumber := VString "T-2"; Company.bankName := VString "Bank";
     Company.bankAccount := VString "0002"; Company.swiftCode := VString "SWFT";
     Company.intermediaryBank := VString EmptyString; Company.logo := VString EmptyString;
     Company.isDefault := false |}.

(** The fresh workbook with two companies saved, the first the default. *)
Definition two_company_rows : WorkSheet :=
  [ ExcelService.company_row sample_company; ExcelService.company_row other_company ].

Definition two_companies : WorkBook :=
  assign_sheet ExcelService.initial_workbook "公司信息"
    (company_header :: two_company_rows).

(** A store that has loaded the companies of [rows]. *)
Definition loaded (rows : WorkSheet) : CompanyStore.CompanyState :=
  {| CompanyStore.companies := companies_of rows;
     CompanyStore.currentCompany := None;
     CompanyStore.loading := false;
     CompanyStore.error := None |}.

(** The fresh workbook with the sample product saved, and a product
    store that has loaded the products of [rows]. *)
Definition one_product_rows : WorkSheet :=
  [ ExcelService.product_row (J := Reference.JSON) sample_product ].

Definition one_product : WorkBook :=
  assign_sheet ExcelService.initial_workbook "产品库" (product_header :: one_product_rows).

Definition products_of (rows : WorkSheet) : list (Product.t Reference.document) :=
  map (ExcelService.product_of_row (J := Reference.JSON) product_header) rows.

Definition loaded_products (rows : WorkSheet) : ProductStore.ProductState Reference.document :=
  {| ProductStore.products := products_of rows;
     ProductStore.categories := [];
     ProductStore.loading := false;
     ProductStore.error := None |}.

(** An item, and a quotation that carries it. *)
Definition sample_item : QuotationItem.t :=
  {| QuotationItem.id := "i1"; QuotationItem.productId := "p1";
     QuotationItem.productName := "Widget"; QuotationItem.description := "blue";
     QuotationItem.quantity := Finite false 2 0; QuotationItem.unit := "pcs";
     QuotationItem.unitPrice := Finite false 1 1;
     QuotationItem.discountRate := Zero; QuotationItem.discountAmount := Zero;
     QuotationItem.totalPrice := Finite false 2 1 |}.

Definition sample_quotation : Quotation.t :=
  {| Quotation.id := "q1"; Quotation.quotationNumber := "Q-001";
     Quotation.companyId := "c1"; Quotation.customerId := "k1";
     Quotation.quotationDate := "2024-01-01"; Quotation.expiryDate := "2024-02-01";
     Quotation.currency := "USD"; Quotation.paymentTerms := "T/T";
     Quotation.deliveryTerms := "FOB"; Quotation.pickupLocation := "Ningbo";
     Quotation.tradeTerms := "FOB"; Quotation.subtotal := Finite false 2 1;
     Quotation.taxRate := Zero; Quotation.taxAmount := Zero;
     Quotation.totalAmount := Finite false 2 1; Quotation.status := "draft";
     Quotation.notes := EmptyString; Quotation.items := [sample_item] |}.

(** The fresh workbook with items stored earlier: one under the sample
    quotation's id, one under another id. *)
Definition older_item : QuotationItem.t :=
  {| QuotationItem.id := "i0"; QuotationItem.productId := "p0";
     QuotationItem.productName := "Gadget"; QuotationItem.description := EmptyString;
     QuotationItem.quantity := Finite false 1 0; QuotationItem.unit := "pcs";
     QuotationItem.unitPrice := Finite false 3 0;
     QuotationItem.discountRate := Zero; QuotationItem.discountAmount := Zero;
     QuotationItem.totalPrice := Finite false 3 0 |}.

Definition older_item_rows : WorkSheet :=
  [ ExcelService.quotation_item_row "q1" older_item;
    ExcelService.quotation_item_row "q2" older_item ].

Definition with_older_items : WorkBook :=
  assign_sheet ExcelService.initial_workbook "报价单项" (item_header :: older_item_rows).

(** Replaces each closed [indexOf] by its value. *)
Ltac locate_columns :=
  repeat match goal with
         | |- context [indexOf ?h ?x] =>
             let k := eval vm_compute in (indexOf h x) in
             change (indexOf h x) with k
         end.

(** Replaces each read [row[k]] of a row given cell by cell by the cell. *)
Ltac read_cells :=
  repeat match goal with
         | |- context [at_ ?r ?k] =>
             let v := eval cbv [at_ Z.ltb Z.leb Z.compare Z.to_nat Pos.to_nat
                                Pos.iter_op Init.Nat.add nth
                                ExcelService.company_row ExcelService.product_row
                                ExcelService.customer_row ExcelService.quotation_row
                                ExcelService.quotation_item_row] in (at_ r k) in
             change (at_ r k) with v
         end.

(** [{...options, logoPosition: position}] *)
Definition with_logo (position : PDFService.LogoPosition) (options : PDFService.PDFOptions)
  : PDFService.PDFOptions :=
  {| PDFService.logoPosition := Some position;
     PDFService.showProductImages := PDFService.showProductImages options |}.

(** A browser in which a new frame has no document. *)
Definition no_document {Blob : Type}
    (capture : string -> PDFService.PDFConfig -> outcome Blob) : PDFService.Browser Blob :=
  {| PDFService.contentDocument := false;
     PDFService.frameEvent := PDFService.onload;
     PDFService.capture := capture |}.

(** *** Vocabulary of the further properties *)

(** [xs] with its first element that satisfies [f] replaced by [y], or
    with [y] at the end when no element does. *)
Fixpoint replace_or_append {A} (f : A -> bool) (y : A) (xs : list A) : list A :=
  match xs with
  | [] => [y]
  | x :: xs' => if f x then y :: xs' else x :: replace_or_append f y xs'
  end.

(** The row carries [v] in its first cell. *)
Definition has_id (v : value) (row : list value) : bool := strict_eq (at_ row 0) v.

(** The ids in the first column are text. *)
Definition text_ids (rows : WorkSheet) : bool := forallb is_string (first_column rows).

(** [{...product, specifications: {}}] *)
Definition without_specifications {J : JSONLib} (p : Product.t json) : Product.t json :=
  with_specifications json_empty_object p.

(** [s'] differs from [s] at most under the key of the current user. *)
Definition same_elsewhere (s s' : LocalStorage.t) : Prop :=
  forall k, k <> key_of s -> LocalStorage.data s' !! k = LocalStorage.data s !! k.

(** A computation that writes under no key but that one. *)
Definition own_key_only {A} (m : M LocalStorage.t A) : Prop :=
  forall s, same_elsewhere s (m s).2.

(** [{...item, images}] *)
Definition item_with_images (images : option (list string)) (item : PDFService.Item.t)
  : PDFService.Item.t :=
  {| PDFService.Item.productName := PDFService.Item.productName item;
     PDFService.Item.description := PDFService.Item.description item;
     PDFService.Item.quantity := PDFService.Item.quantity item;
     PDFService.Item.unit := PDFService.Item.unit item;
     PDFService.Item.unitPrice := PDFService.Item.unitPrice item;
     PDFService.Item.totalPrice := PDFService.Item.totalPrice item;
     PDFService.Item.images := images |}.

(** The item with its first three images only. *)
Definition first_three (item : PDFService.Item.t) : PDFService.Item.t :=
  item_with_images (option_map (take 3) (PDFService.Item.images item)) item.

(** [{...quotation, items, taxAmount}] *)
Definition quotation_with (items : list PDFService.Item.t) (taxAmount : number)
    (q : PDFService.QuotationData) : PDFService.QuotationData :=
  {| PDFService.quotationNumber := PDFService.quotationNumber q;
     PDFService.quotationDate := PDFService.quotationDate q;
     PDFService.expiryDate := PDFService.expiryDate q;
     PDFService.currency := PDFService.currency q;
     PDFService.pickupLocation := PDFService.pickupLocation q;
     PDFService.tradeTerms := PDFService.tradeTerms q;
     PDFService.paymentTerms := PDFService.paymentTerms q;
     PDFService.deliveryTerms := PDFService.deliveryTerms q;
     PDFService.items := items;
     PDFService.subtotal := PDFService.subtotal q;
     PDFService.taxRate := PDFService.taxRate q;
     PDFService.taxAmount := taxAmount;
     PDFService.totalAmount := PDFService.totalAmount q;
     PDFService.notes := PDFService.notes q |}.

(** [{...company, logo}] *)
Definition company_with_logo (logo : option string) (c : PDFService.CompanyInfo)
  : PDFService.CompanyInfo :=
  {| PDFService.name := PDFService.name c;
     PDFService.nameEn := PDFService.nameEn c;
     PDFService.address := PDFService.address c;
     PDFService.addressEn := PDFService.addressEn c;
     PDFService.phone := PDFService.phone c;
     PDFService.email := PDFService.email c;
     PDFService.website := PDFService.website c;
     PDFService.taxNumber := PDFService.taxNumber c;
     PDFService.bankName := PDFService.bankName c;
     PDFService.bankAccount := PDFService.bankAccount c;
     PDFService.swiftCode := PDFService.swiftCode c;
     PDFService.intermediaryBank := PDFService.intermediaryBank c;
     PDFService.logo := logo |}.

(** Sample data of the PDF service. *)
Definition sample_company_info : PDFService.CompanyInfo :=
  {| PDFService.name := "甲公司"; PDFService.nameEn := "Alpha";
     PDFService.address := "1 Road"; PDFService.addressEn := "1 Road";
     PDFService.phone := "555"; PDFService.email := "a@alpha.test";
     PDFService.website := "alpha.test"; PDFService.taxNumber := "T1";
     PDFService.bankName := "Bank"; PDFService.bankAccount := "123";
     PDFService.swiftCode := "SW"; PDFService.intermediaryBank := None;
     PDFService.logo := Some "logo.png" |}.

Definition sample_customer_info : PDFService.CustomerInfo.t :=
  {| PDFService.CustomerInfo.name := "Bo"; PDFService.CustomerInfo.companyName := "Bo Ltd";
     PDFService.CustomerInfo.address := "2 Road"; PDFService.CustomerInfo.country := "NZ";
     PDFService.CustomerInfo.contactPerson := "Bo";
     PDFService.CustomerInfo.email := "bo@bo.test"; PDFService.CustomerInfo.phone := "556" |}.

Definition sample_pdf_item : PDFService.Item.t :=
  {| PDFService.Item.productName := "Widget"; PDFService.Item.description := "A widget";
     PDFService.Item.quantity := Finite false 2 0; PDFService.Item.unit := "pcs";
     PDFService.Item.unitPrice := Finite false 1 1;
     PDFService.Item.totalPrice := Finite false 2 1;
     PDFService.Item.images := Some ["a.png"; "b.png"; "c.png"; "d.png"] |}.

Definition sample_quotation_data : PDFService.QuotationData :=
  {| PDFService.quotationNumber := "Q-001"; PDFService.quotationDate := "2024-01-01";
     PDFService.expiryDate := "2024-02-01"; PDFService.currency := "USD";
     PDFService.pickupLocation := "Ningbo"; PDFService.tradeTerms := "FOB";
     PDFService.paymentTerms := "T/T"; PDFService.deliveryTerms := "30 days";
     PDFService.items := [sample_pdf_item];
     PDFService.subtotal := Finite false 2 1; PDFService.taxRate := Zero;
     PDFService.taxAmount := Finite false 5 0;
     PDFService.totalAmount := Finite false 2 1; PDFService.notes := EmptyString |}.

(** A template without literal text. *)
Definition no_literal : nat -> string := fun _ => EmptyString.

(** A browser that renders: the frame has a document, loads, and the
    capture returns the markup it was given. *)
Definition echo_browser : PDFService.Browser string :=
  {| PDFService.contentDocument := true;
     PDFService.frameEvent := PDFService.onload;
     PDFService.capture := fun html _ => Return html |}.

Definition empty_page : PDFService.Document :=
  {| PDFService.body := []; PDFService.created := 0 |}.

Definition no_config : PDFService.PartialConfig :=
  {| PDFService.template_opt := None; PDFService.format_opt := None;
     PDFService.orientation_opt := None; PDFService.margin_opt := None |}.

(** The fresh workbook with an item sheet that has no row at all. *)
Definition without_item_rows : WorkBook :=
  assign_sheet ExcelService.initial_workbook "报价单项" [].

(** [toLowerCase] on the letters A to Z. *)
Definition lower_ascii (c : ascii) : ascii :=
  let n := nat_of_ascii c in
  if ((65 <=? n) && (n <=? 90))%nat then ascii_of_nat (n + 32) else c.

Fixpoint ascii_lower (s : string) : string :=
  match s with
  | EmptyString => EmptyString
  | String c s' => String (lower_ascii c) (ascii_lower s')
  end.

(** A product that is not active, and one whose name cell held a number. *)
Definition retired_product : Product.t Reference.document :=
  {| Product.id := VString "p2"; Product.name := VString "Widget Mk1";
     Product.nameEn := VString "Widget Mk1"; Product.description := VString EmptyString;
     Product.descriptionEn := VString EmptyString; Product.category := VString "parts";
     Product.unit := VString "pcs"; Product.minPrice := Finite false 4 0;
     Product.maxPrice := Finite false 6 0; Product.currency := VString "USD";
     Product.specifications := Reference.Object [];
     Product.isActive := false;
     Product.images := None |}.

Definition numbered_product : Product.t Reference.document :=
  {| Product.id := VString "p3"; Product.name := VNumber (Finite false 747 0);
     Product.nameEn := VString "Jet"; Product.description := VString EmptyString;
     Product.descriptionEn := VString EmptyString; Product.category := VString "parts";
     Product.unit := VString "pcs"; Product.minPrice := Finite false 4 0;
     Product.maxPrice := Finite false 6 0; Product.currency := VString "USD";
     Product.specifications := Reference.Object [];
     Product.isActive := true;
     Product.images := None |}.

Definition shelf (ps : list (Product.t Reference.document))
  : ProductStore.ProductState Reference.document :=
  {| ProductStore.products := ps; ProductStore.categories := [];
     ProductStore.loading := false; ProductStore.error := None |}.

(** The fresh workbook with a customer whose id cell holds a number. *)
Definition numeric_customer_rows : WorkSheet :=
  [ [ VNumber (Finite false 1001 0); VString "Bo"; VString "Bo"; VString EmptyString;
      VString "555"; VString "1 Road"; VString "NZ"; VString "Bo Ltd";
      VString EmptyString; VString EmptyString ] ].

Definition numeric_customers : WorkBook :=
  assign_sheet ExcelService.initial_workbook "客户信息"
    (customer_header :: numeric_customer_rows).

(** The smallest workbook the import accepts: the three required
    sheets, one header row each. *)
Definition three_sheets : WorkBook :=
  fold_left
    (fun workbook sheet =>
       book_append_sheet workbook
         (aoa_to_sheet [ExcelService.header_row sheet.2]) sheet.1)
    [ ("公司信息", ExcelService.getCompanyHeaders);
      ("产品库", ExcelService.getProductHeaders);
      ("客户信息", ExcelService.getCustomerHeaders) ]
    book_new.

End Spec.

(** * Properties *)

Module Import Facts.
Import JS XLSX Eff Spec.
Local Open Scope eff_scope.

(** ** Import *)

Section ImportExcel.

Context {codec : XLSX.Codec}.

Lemma key_of_not_user s : key_of s <> "qs_current_user".
Proof. unfold key_of. simpl. discriminate. Qed.

Lemma getUserKey_run s : ExcelService.getUserKey s = (Return (key_of s), s).
Proof. reflexivity. Qed.

Lemma key_of_persisted wb s : key_of (persisted wb s) = key_of s.
Proof.
  unfold key_of at 1. simpl.
  rewrite lookup_insert_ne by apply key_of_not_user. reflexivity.
Qed.

Lemma saveToLocalStorage_run wb s :
  ExcelService.saveToLocalStorage wb s = (Return tt, persisted wb s).
Proof. reflexivity. Qed.

Lemma holds_persisted wb s : holds (persisted wb s) wb.
Proof.
  unfold holds, backing. rewrite key_of_persisted. simpl.
  apply lookup_insert_eq.
Qed.

Lemma missingSheets_spec wb name :
  In name (ExcelService.missingSheets wb) <->
  In name ExcelService.requiredSheets /\ ~ In name (SheetNames wb).
Proof.
  unfold ExcelService.missingSheets. rewrite filter_In.
  unfold includes. rewrite negb_true_iff, bool_decide_eq_false.
  rewrite list_elem_of_In. tauto.
Qed.

Lemma missingSheets_none wb :
  ExcelService.missingSheets wb = [] <->
  In "公司信息" (SheetNames wb) /\ In "产品库" (SheetNames wb)
  /\ In "客户信息" (SheetNames wb).
Proof.
  split.
  - intros Hnone.
    assert (forall name, In name ExcelService.requiredSheets -> In name (SheetNames wb))
      as Hall.
    { intros name Hreq.
      destruct (decide (name ∈ SheetNames wb)) as [Hin | Hout];
        [apply list_elem_of_In, Hin |].
      assert (In name (ExcelService.missingSheets wb)) as Hmiss.
      { apply missingSheets_spec. split; [exact Hreq |].
        intros Hin. apply Hout, list_elem_of_In, Hin. }
      rewrite Hnone in Hmiss. destruct Hmiss. }
    split; [| split]; apply Hall; simpl; tauto.
  - intros (Hcompany & Hproduct & Hcustomer).
    destruct (ExcelService.missingSheets wb) as [| name rest] eqn:Hmissing;
      [reflexivity |].
    assert (In name (ExcelService.missingSheets wb)) as Hname
        by (rewrite Hmissing; now left).
    apply missingSheets_spec in Hname as [Hreq Hout].
    simpl in Hreq.
    destruct Hreq as [<- | [<- | [<- | []]]]; contradiction.
Qed.

Lemma missingSheets_customer wb :
  In "公司信息" (SheetNames wb) -> In "产品库" (SheetNames wb) ->
  ~ In "客户信息" (SheetNames wb) ->
  ExcelService.missingSheets wb = ["客户信息"].
Proof.
  intros Hcompany Hproduct Hcustomer.
  unfold ExcelService.missingSheets, ExcelService.requiredSheets, includes.
  cbn [List.filter].
  rewrite !bool_decide_eq_true_2 by (apply list_elem_of_In; assumption).
  rewrite bool_decide_eq_false_2
    by (intros Hin; apply Hcustomer, list_elem_of_In, Hin).
  reflexivity.
Qed.

(** C7. An uploaded workbook is accepted exactly when the sheets
    公司信息 (Company), 产品库 (Product) and 客户信息 (Customer) are all
    among its sheet names; then its text replaces the backing value of
    the current user. Otherwise the call throws an error whose message
    lists the missing sheets, each of these three that the workbook
    lacks and no other, and the store is left as it was; a workbook
    that lacks only 客户信息 is rejected with that one name. *)
Theorem importExcel_accepts_or_names_missing (wb : WorkBook) (s : LocalStorage.t) :
  let missing := ExcelService.missingSheets wb in
  (forall name, In name missing <->
                In name ["公司信息"; "产品库"; "客户信息"] /\ ~ In name (SheetNames wb)) /\
  (In "公司信息" (SheetNames wb) /\ In "产品库" (SheetNames wb)
   /\ In "客户信息" (SheetNames wb) <->
   ExcelService.importExcel (ExcelService.Uploaded wb) s = (Return tt, persisted wb s)) /\
  (In "公司信息" (SheetNames wb) -> In "产品库" (SheetNames wb) ->
   ~ In "客户信息" (SheetNames wb) ->
   ExcelService.importExcel (ExcelService.Uploaded wb) s
   = (Throw (Error "缺少必要的工作表: 客户信息"), s)) /\
  match missing with
  | [] =>
      ExcelService.importExcel (ExcelService.Uploaded wb) s = (Return tt, persisted wb s)
      /\ backing (persisted wb s) = Some (write wb)
  | _ :: _ =>
      ExcelService.importExcel (ExcelService.Uploaded wb) s
      = (Throw (Error ("缺少必要的工作表: " +:+ String.concat ", " missing)), s)
  end.
Proof.
  intros missing. split; [apply missingSheets_spec |]. split; [| split].
  - rewrite <- missingSheets_none. unfold ExcelService.importExcel.
    destruct (ExcelService.missingSheets wb) as [| name rest]; simpl.
    + split; [intros _; apply saveToLocalStorage_run | reflexivity].
    + split; [discriminate |]. unfold throw. discriminate.
  - intros Hcompany Hproduct Hcustomer. unfold ExcelService.importExcel.
    rewrite (missingSheets_customer wb Hcompany Hproduct Hcustomer). reflexivity.
  - unfold ExcelService.importExcel. fold missing.
    destruct missing as [| name rest]; simpl.
    + split; [apply saveToLocalStorage_run | apply holds_persisted].
    + reflexivity.
Qed.

End ImportExcel.

(** ** The list of quotations *)

Section Quotations.

Context {codec : XLSX.Codec}.
Variable fuel : nat.
Variable fetchWorkbook : string -> option WorkBook.

(** [readFromLocalStorage] catches what it throws: only a call that
    does not return gets past its handler. *)
Lemma readFromLocalStorage_throws s e s' :
  ExcelService.readFromLocalStorage fuel fetchWorkbook s = (Throw e, s') -> e = Diverge.
Proof.
  unfold ExcelService.readFromLocalStorage. destruct fuel as [| n]; simpl.
  - unfold throw. intros [= <- _]. reflexivity.
  - unfold try_catch.
    match goal with
    | |- (match ?m with _ => _ end) = _ -> _ => destruct m as [[a | [msg | msg |]] s1]
    end; unfold ret; intros H; try discriminate H.
    injection H as <- _. reflexivity.
Qed.

Lemma quotation_of_row_items headers row :
  Quotation.items (ExcelService.quotation_of_row headers row) = [].
Proof. reflexivity. Qed.

(** C9. Whatever the store holds, every quotation that [getQuotations]
    returns has the empty list of items; and the row written for a
    quotation has one cell per column of the quotation header and none
    for its items. *)
Theorem getQuotations_items_empty (s : LocalStorage.t) :
  match (ExcelService.getQuotations fuel fetchWorkbook s).1 with
  | Return quotations => Forall (fun q => Quotation.items q = []) quotations
  | Throw e => e = Diverge
  end /\
  (forall q, length (ExcelService.quotation_row q)
             = length ExcelService.getQuotationHeaders) /\
  ~ In "items" ExcelService.getQuotationHeaders.
Proof.
  split; [| split].
  - unfold ExcelService.getQuotations, bind.
    destruct (ExcelService.readFromLocalStorage fuel fetchWorkbook s)
      as [[[workbook |] | e] s1] eqn:Hread.
    + destruct (Sheets workbook !! "报价单") as [worksheet |]; [| constructor].
      destruct (length (sheet_to_json worksheet) <=? 1)%nat; [constructor |].
      simpl. induction (tl (sheet_to_json worksheet)); constructor; auto.
    + constructor.
    + simpl. apply (readFromLocalStorage_throws s e s1 Hread).
  - reflexivity.
  - vm_compute. intuition discriminate.
Qed.

End Quotations.

(** ** The quotation document *)

Section Document.

Import PDFService.

Variable literal : nat -> string.

Lemma headerLogo_left_right company options :
  headerLogo company (with_logo LogoLeft options)
  = headerLogo company (with_logo LogoRight options).
Proof. reflexivity. Qed.

Lemma logoContainer_left_right company options :
  logoContainer company (with_logo LogoLeft options)
  = logoContainer company (with_logo LogoRight options).
Proof. reflexivity. Qed.

Lemma itemRow_logo quotation options p q index item :
  itemRow quotation (with_logo p options) index item
  = itemRow quotation (with_logo q options) index item.
Proof. reflexivity. Qed.

Lemma imap_pointwise {A B} (f g : nat -> A -> B) (l : list A) :
  (forall i x, f i x = g i x) -> imap f l = imap g l.
Proof.
  revert f g. induction l as [| x l IH]; intros f g H; simpl; [reflexivity |].
  rewrite H. f_equal. apply IH. intros i y. apply H.
Qed.

(** C10. With the same company, customer, quotation and image option,
    the markup generated for [logoPosition = 'left'] is the markup
    generated for [logoPosition = 'right'], and so is the result of the
    PDF pipeline run on it by the same browser. *)
Theorem logo_left_is_logo_right
    (company : CompanyInfo) (customer : CustomerInfo.t) (quotation : QuotationData)
    (options : PDFOptions) :
  generateQuotationHTML literal company customer quotation (with_logo LogoLeft options)
  = generateQuotationHTML literal company customer quotation (with_logo LogoRight options)
  /\ forall (Blob : Type) (browser : Browser Blob) (config : PartialConfig) (d : Document),
      generateQuotationPDF literal browser company customer quotation config
                           (with_logo LogoLeft options) d
      = generateQuotationPDF literal browser company customer quotation config
                             (with_logo LogoRight options) d.
Proof.
  assert (generateQuotationHTML literal company customer quotation
            (with_logo LogoLeft options)
          = generateQuotationHTML literal company customer quotation
              (with_logo LogoRight options)) as Hhtml.
  { unfold generateQuotationHTML.
    rewrite headerLogo_left_right, logoContainer_left_right.
    rewrite (imap_pointwise (itemRow quotation (with_logo LogoLeft options))
                            (itemRow quotation (with_logo LogoRight options)))
      by (intros; apply itemRow_logo).
    reflexivity. }
  split; [exact Hhtml |].
  intros Blob browser config d. unfold generateQuotationPDF. rewrite Hhtml. reflexivity.
Qed.

(** The logo does appear with either value, when the company has one. *)
Lemma headerLogo_shown company options :
  headerLogo company (with_logo LogoRight options) = logoHtml company.
Proof. reflexivity. Qed.

End Document.

(** ** Release of the rendering frame *)

Section Frames.

Import PDFService.

Variable Blob : Type.

Lemma filter_fresh (el : nat) (l : list nat) :
  ~ In el l -> List.filter (fun x => negb (Nat.eqb x el)) l = l.
Proof.
  induction l as [| x l IH]; simpl; intros H; [reflexivity |].
  destruct (Nat.eqb_spec x el) as [-> | Hne]; simpl.
  - exfalso. apply H. now left.
  - f_equal. apply IH. intros Hin. apply H. now right.
Qed.

Lemma removeChild_appended (el : nat) (l : list nat) :
  ~ In el l ->
  List.filter (fun x => negb (Nat.eqb x el)) (l ++ [el])%list = l.
Proof.
  intros H. rewrite List.filter_app, filter_fresh by exact H.
  simpl. rewrite Nat.eqb_refl. simpl. apply app_nil_r.
Qed.

(** The three paths that settle after the frame got its document
    (success, a throw in the [try] block, the error event) detach it. *)
Lemma generatePDF_releases (browser : Browser Blob) html config (d : Document) :
  contentDocument browser = true ->
  frameEvent browser <> no_event ->
  ~ In (created d) (body d) ->
  body (generatePDF browser html config d).2 = body d.
Proof.
  intros Hdoc Hevent Hfresh. unfold generatePDF, bind, createElement, appendChild, modify.
  simpl. rewrite Hdoc. simpl.
  destruct (frameEvent browser); [| | congruence].
  - destruct (capture browser html config); simpl; apply removeChild_appended, Hfresh.
  - simpl. apply removeChild_appended, Hfresh.
Qed.

(** C8. On the path where the new frame has no document, the call
    rejects with 无法创建iframe文档 and the frame it attached stays in
    the page: the early return skips the [removeChild] that the other
    three paths make. *)
Theorem generatePDF_keeps_frame_without_document
    (capture : string -> PDFConfig -> outcome Blob) (html : string) (config : PDFConfig)
    (d : Document) :
  let r := generatePDF (no_document capture) html config d in
  r.1 = Return (Rejected (Error "无法创建iframe文档"))
  /\ body r.2 = (body d ++ [created d])%list
  /\ In (created d) (body r.2).
Proof.
  simpl. split; [reflexivity |]. split; [reflexivity |].
  apply in_or_app. right. now left.
Qed.

End Frames.

(** ** The table codec *)

Section Codec.

Context {J : JSONLib}.

Lemma or_string v d : is_string v = true -> truthy d = false \/ d = VString EmptyString ->
  or v (VString EmptyString) = v.
Proof.
  destruct v as [| | | s]; try discriminate. intros _ _.
  unfold or. simpl. destruct (bool_decide_reflect (s = EmptyString)) as [-> |]; reflexivity.
Qed.

Lemma or_blank_string s : or (VString s) (VString EmptyString) = VString s.
Proof.
  unfold or. simpl. destruct (bool_decide_reflect (s = EmptyString)) as [-> |]; reflexivity.
Qed.

Lemma or_blank_idem v :
  or (or v (VString EmptyString)) (VString EmptyString) = or v (VString EmptyString).
Proof. unfold or. destruct (truthy v) eqn:E; [rewrite E |]; reflexivity. Qed.

Lemma text_or_blank s : ToString (or (VString s) (VString EmptyString)) = s.
Proof. rewrite or_blank_string. reflexivity. Qed.

Lemma text_or_default s d : nonempty s = true -> ToString (or (VString s) (VString d)) = s.
Proof. unfold nonempty, or. intros ->. reflexivity. Qed.

Lemma number_or_zero n : is_number n = true -> ToNumber (or (VNumber n) (VNumber Zero)) = n.
Proof. destruct n; try discriminate; reflexivity. Qed.

Lemma parseFloat_or_zero n :
  is_number n = true -> parseFloat (or (VNumber n) (VString "0")) = n.
Proof. destruct n; try discriminate; reflexivity. Qed.

Lemma yes_no_read b : strict_eq (ExcelService.yes_no b) (VString "是") = b.
Proof. destruct b; reflexivity. Qed.

Lemma company_of_row_company_row (c : Company.t) :
  ExcelService.company_of_row company_header (ExcelService.company_row c)
  = {| Company.id := or (Company.id c) (VString EmptyString);
       Company.name := or (Company.name c) (VString EmptyString);
       Company.nameEn := or (Company.nameEn c) (VString EmptyString);
       Company.address := or (Company.address c) (VString EmptyString);
       Company.addressEn := or (Company.addressEn c) (VString EmptyString);
       Company.phone := or (Company.phone c) (VString EmptyString);
       Company.email := or (Company.email c) (VString EmptyString);
       Company.website := or (Company.website c) (VString EmptyString);
       Company.taxNumber := or (Company.taxNumber c) (VString EmptyString);
       Company.bankName := or (Company.bankName c) (VString EmptyString);
       Company.bankAccount := or (Company.bankAccount c) (VString EmptyString);
       Company.swiftCode := or (Company.swiftCode c) (VString EmptyString);
       Company.intermediaryBank := or (Company.intermediaryBank c) (VString EmptyString);
       Company.logo := or (Company.logo c) (VString EmptyString);
       Company.isDefault := Company.isDefault c |}.
Proof.
  unfold ExcelService.company_of_row, ExcelService.cell, company_header.
  locate_columns. unfold ExcelService.company_row, at_. simpl.
  rewrite !or_blank_idem. destruct (Company.isDefault c); reflexivity.
Qed.

End Codec.

Section CodecRoundTrip.

Context {J : JSONLib} {JL : JSONLaws J}.

Lemma company_round_trip (c : Company.t) :
  company_wf c = true ->
  ExcelService.company_of_row company_header (ExcelService.company_row c) = c.
Proof.
  intros Hwf. rewrite company_of_row_company_row.
  destruct c as [f0 f1 f2 f3 f4 f5 f6 f7 f8 f9 f10 f11 f12 f13 b].
  unfold company_wf in Hwf. simpl in Hwf.
  repeat (apply andb_prop in Hwf as [? Hwf]). simpl.
  repeat match goal with
         | H : is_string ?v = true |- _ =>
             destruct v; try discriminate H; clear H
         end.
  rewrite !or_blank_string. reflexivity.
Qed.

Lemma customer_round_trip (c : Customer.t) :
  ExcelService.customer_of_row customer_header (ExcelService.customer_row c) = c.
Proof.
  unfold ExcelService.customer_of_row, ExcelService.cell, customer_header.
  locate_columns. read_cells.
  rewrite !text_or_blank. destruct c; reflexivity.
Qed.

Lemma item_round_trip (quotationId : string) (item : QuotationItem.t) :
  item_wf item = true ->
  ExcelService.quotation_item_of_row item_header
    (ExcelService.quotation_item_row quotationId item) = item.
Proof.
  intros Hwf. unfold item_wf in Hwf. simpl in Hwf.
  repeat (apply andb_prop in Hwf as [? Hwf]).
  unfold ExcelService.quotation_item_of_row, ExcelService.cell, item_header.
  locate_columns. read_cells.
  rewrite !text_or_blank, !number_or_zero by assumption.
  destruct item; reflexivity.
Qed.

Lemma quotation_round_trip (q : Quotation.t) :
  quotation_wf q = true ->
  ExcelService.quotation_of_row quotation_header (ExcelService.quotation_row q)
  = with_items [] q.
Proof.
  intros Hwf. unfold quotation_wf in Hwf.
  apply andb_prop in Hwf as [Hwf Hstatus]. apply andb_prop in Hwf as [Hwf Hcurrency].
  simpl in Hwf. repeat (apply andb_prop in Hwf as [? Hwf]).
  unfold ExcelService.quotation_of_row, ExcelService.cell, quotation_header.
  locate_columns. read_cells.
  rewrite !text_or_blank, !number_or_zero by assumption.
  rewrite !text_or_default by assumption.
  reflexivity.
Qed.

Lemma product_round_trip (p : Product.t json) :
  product_wf p ->
  with_specifications (Product.specifications p)
    (ExcelService.product_of_row product_header (ExcelService.product_row p)) = p.
Proof.
  intros (Hstr & Hcur & Hmin & Hmax & l & Himg).
  simpl in Hstr. repeat (apply andb_prop in Hstr as [? Hstr]).
  unfold ExcelService.product_of_row, ExcelService.cell, product_header.
  locate_columns. read_cells.
  cbn [Z.leb Z.compare].
  rewrite !parseFloat_or_zero by assumption.
  rewrite Himg. unfold ExcelService.images_or_empty. rewrite strings_truthy.
  assert (or (VString (JSON_stringify (json_strings l))) (VString "[]")
          = VString (JSON_stringify (json_strings l))) as ->.
  { unfold or. simpl.
    destruct (bool_decide_reflect (JSON_stringify (json_strings l) = EmptyString))
      as [E |]; [| reflexivity].
    exfalso. exact (stringify_nonempty _ E). }
  cbn [ToString]. rewrite parse_stringify_strings, yes_no_read.
  destruct p as [f0 f1 f2 f3 f4 f5 f6 mn mx cur sp act img]. simpl in *.
  repeat match goal with
         | H : is_string ?v = true |- _ =>
             destruct v; try discriminate H; clear H
         end.
  rewrite !or_blank_string. subst img.
  unfold or. rewrite Hcur. reflexivity.
Qed.

End CodecRoundTrip.

(** ** The reference libraries satisfy the assumed laws *)

Section ReferenceLaws.

Import Reference.

Lemma positive_of_text_of_positive p : positive_of_text (text_of_positive p) = Some p.
Proof. induction p as [p IH | p IH |]; simpl; [rewrite IH .. |]; reflexivity. Qed.

Lemma of_text_to_text `{Countable A} (a : A) : of_text (to_text a) = Some a.
Proof.
  unfold of_text, to_text. rewrite positive_of_text_of_positive. simpl.
  apply decode_encode.
Qed.

Lemma substring_whole (t : string) : String.substring 0 (String.length t) t = t.
Proof. induction t as [| c t IH]; simpl; [| rewrite IH]; reflexivity. Qed.

Lemma read_magic (t : string) : read (magic +:+ t) = of_text t.
Proof.
  unfold read, codec, magic. simpl. rewrite Nat.sub_0_r, substring_whole.
  destruct t; reflexivity.
Qed.

Lemma listed_part_listed (wb : WorkBook) : listed wb -> listed_part wb = wb.
Proof.
  intros [_ Hdom]. destruct wb as [names sheets]. unfold listed_part. simpl in *.
  f_equal. apply map_filter_id. intros name ws Hname. simpl.
  apply (elem_of_list_to_set (C := gset string)).
  rewrite <- Hdom. apply elem_of_dom. eauto.
Qed.

Lemma listed_part_idem (wb : WorkBook) : listed_part (listed_part wb) = listed_part wb.
Proof.
  unfold listed_part. simpl. f_equal.
  apply map_filter_id. intros name ws Hname.
  apply map_lookup_filter_Some in Hname as [_ Hlisted]. exact Hlisted.
Qed.

Lemma reference_codec_laws : CodecLaws codec.
Proof.
  split.
  - intros wb Hlisted. change (write wb) with (magic +:+ to_text (listed_part wb)).
    rewrite read_magic, of_text_to_text, (listed_part_listed wb Hlisted). reflexivity.
  - intros wb. discriminate.
  - intros wb. reflexivity.
Qed.

Lemma reference_writes_listed : WritesListed codec.
Proof.
  split. intros wb.
  change (magic +:+ to_text (listed_part wb)
          = magic +:+ to_text (listed_part (listed_part wb))).
  rewrite listed_part_idem. reflexivity.
Qed.

Lemma parse_tagged (t : string) : JSON_parse (String "J" t) = of_text t.
Proof. reflexivity. Qed.

Lemma reference_json_laws : JSONLaws JSON.
Proof.
  split.
  - intros [| x l]; [reflexivity |].
    change (JSON_stringify (json_strings (x :: l)))
      with (String "J" (to_text (Strings (x :: l)))).
    rewrite parse_tagged. apply of_text_to_text.
  - reflexivity.
  - intros [[| x l] | [| f l] |]; discriminate.
  - intros l. reflexivity.
Qed.

End ReferenceLaws.

(** ** Round trips through a row *)

Section RoundTrip.

Context {J : JSONLib} {JL : JSONLaws J}.

(** C4 (amended). For a record of the declared field types, decoding
    the encoded row under the canonical header gives the record back:
    a company whose fields, the optional ones included, are text; a
    customer; a quotation item whose numbers are not NaN; a quotation
    with numbers that are not NaN and a non-empty currency and status,
    up to its items, which are not part of the row and decode as the
    empty list; a product with text fields, a non-empty currency,
    prices that are not NaN and a list of image references, on every
    field other than [specifications]. *)
Theorem decode_encode_round_trip :
  (forall c, company_wf c = true ->
     ExcelService.company_of_row company_header (ExcelService.company_row c) = c) /\
  (forall p, product_wf p ->
     with_specifications (Product.specifications p)
       (ExcelService.product_of_row product_header (ExcelService.product_row p)) = p) /\
  (forall c,
     ExcelService.customer_of_row customer_header (ExcelService.customer_row c) = c) /\
  (forall q, quotation_wf q = true ->
     ExcelService.quotation_of_row quotation_header (ExcelService.quotation_row q)
     = with_items [] q) /\
  (forall quotationId item, item_wf item = true ->
     ExcelService.quotation_item_of_row item_header
       (ExcelService.quotation_item_row quotationId item) = item).
Proof.
  split; [| split; [| split; [| split]]].
  - apply company_round_trip.
  - apply product_round_trip.
  - apply customer_round_trip.
  - apply quotation_round_trip.
  - apply item_round_trip.
Qed.

End RoundTrip.

(** The round trip holds on the sample records. *)
Lemma decode_encode_round_trip_samples :
  ExcelService.company_of_row company_header (ExcelService.company_row sample_company)
  = sample_company
  /\ with_specifications (Product.specifications sample_product)
       (ExcelService.product_of_row product_header
          (ExcelService.product_row sample_product)) = sample_product
  /\ ExcelService.customer_of_row customer_header
       (ExcelService.customer_row sample_customer) = sample_customer
  /\ ExcelService.quotation_of_row quotation_header
       (ExcelService.quotation_row sample_quotation) = with_items [] sample_quotation
  /\ ExcelService.quotation_item_of_row item_header
       (ExcelService.quotation_item_row "q1" sample_item) = sample_item.
Proof.
  destruct (@decode_encode_round_trip Reference.JSON reference_json_laws)
    as (Hcompany & Hproduct & Hcustomer & Hquotation & Hitem).
  split; [| split; [| split; [| split]]].
  - apply Hcompany. reflexivity.
  - apply Hproduct. unfold product_wf.
    split; [reflexivity |]. split; [reflexivity |]. split; [reflexivity |].
    split; [reflexivity |]. exists ["a.png"; "b.png"]. reflexivity.
  - apply Hcustomer.
  - apply Hquotation. reflexivity.
  - apply Hitem. reflexivity.
Defined.

(** The items of a quotation do not come back from its row, and an
    optional field that was absent does not come back absent. *)
Lemma quotation_row_loses_items :
  ExcelService.quotation_of_row quotation_header
    (ExcelService.quotation_row sample_quotation) <> sample_quotation
  /\ ExcelService.company_of_row company_header
       (ExcelService.company_row company_without_logo) <> company_without_logo.
Proof.
  split.
  - intros H. apply (f_equal Quotation.items) in H.
    rewrite quotation_of_row_items in H. discriminate H.
  - intros H. apply (f_equal Company.logo) in H.
    rewrite company_of_row_company_row in H. discriminate H.
Qed.

(** An optional field that was absent comes back as the empty text. *)
Lemma absent_logo_reads_as_empty_text (c : Company.t) :
  Company.logo c = VUndefined ->
  Company.logo (ExcelService.company_of_row company_header (ExcelService.company_row c))
  = VString EmptyString.
Proof. intros H. rewrite company_of_row_company_row. simpl. rewrite H. reflexivity. Qed.

(** [getProducts] never reads the 规格参数 column that [saveProduct]
    writes: whatever the row holds, the specifications come back empty. *)
Lemma product_of_row_specifications {J : JSONLib} (headers row : list value) :
  Product.specifications (ExcelService.product_of_row headers row) = json_empty_object.
Proof.
  unfold ExcelService.product_of_row.
  destruct (0 <=? indexOf headers (VString "图片")); reflexivity.
Qed.

(** ** Numeric cells *)

Section Numbers.

Context {J : JSONLib}.

Lemma reads_parseFloat c : reads_number parseFloat c (parseFloat (or c (VString "0"))).
Proof. unfold reads_number, or. destruct (truthy c); reflexivity. Qed.

Lemma reads_ToNumber c : reads_number ToNumber c (ToNumber (or c (VNumber Zero))).
Proof. unfold reads_number, or. destruct (truthy c); reflexivity. Qed.

(** C5 (amended). Every numeric field is read as [coerce(cell || 0)],
    with [parseFloat] for the prices of a product and [Number] for the
    numbers of a quotation and of its items: a cell that is missing or
    empty ([undefined], the empty text, 0, NaN, [false]) gives 0; any
    other cell gives what the coercion makes of it, which for text that
    is no number is NaN, not 0. *)
Theorem numeric_cells_read (headers row : list value) :
  let p := ExcelService.product_of_row headers row in
  let i := ExcelService.quotation_item_of_row headers row in
  let q := ExcelService.quotation_of_row headers row in
  Forall2 (reads_number parseFloat)
    (map (ExcelService.cell headers row) ["最低价格"; "最高价格"])
    [Product.minPrice p; Product.maxPrice p] /\
  Forall2 (reads_number ToNumber)
    (map (ExcelService.cell headers row) ["数量"; "单价"; "折扣率"; "折扣金额"; "总价"])
    [QuotationItem.quantity i; QuotationItem.unitPrice i; QuotationItem.discountRate i;
     QuotationItem.discountAmount i; QuotationItem.totalPrice i] /\
  Forall2 (reads_number ToNumber)
    (map (ExcelService.cell headers row) ["小计"; "税率"; "税额"; "总金额"])
    [Quotation.subtotal q; Quotation.taxRate q; Quotation.taxAmount q;
     Quotation.totalAmount q] /\
  (forall coerce c, truthy c = false -> reads_number coerce c Zero) /\
  truthy VUndefined = false /\
  (forall coerce c n, truthy c = true -> reads_number coerce c n -> n = coerce c) /\
  parseFloat (VString "abc") = NaN /\
  ToNumber (VString "abc") = NaN.
Proof.
  intros p i q. repeat split.
  - subst p. unfold ExcelService.product_of_row.
    destruct (0 <=? indexOf headers (VString "图片")); simpl;
      repeat constructor; apply reads_parseFloat.
  - simpl. repeat constructor; apply reads_ToNumber.
  - simpl. repeat constructor; apply reads_ToNumber.
  - intros coerce c H. unfold reads_number. rewrite H. reflexivity.
  - intros coerce c n H. unfold reads_number. rewrite H. trivial.
Qed.

End Numbers.

(** A 最低价格 cell with the text abc is read as NaN, which is not 0. *)
Lemma text_price_reads_as_NaN :
  Product.minPrice
    (ExcelService.product_of_row (J := Reference.JSON) product_header row_with_text_price)
  = NaN
  /\ NaN <> Zero.
Proof. split; [vm_compute; reflexivity | discriminate]. Qed.

(** ** Loading the workbook *)

Lemma bind_return {S A B} (m : M S A) (k : A -> M S B) s a s' :
  m s = (Return a, s') -> bind m k s = k a s'.
Proof. unfold bind. intros ->. reflexivity. Qed.

Lemma bind_throw {S A B} (m : M S A) (k : A -> M S B) s e s' :
  m s = (Throw e, s') -> bind m k s = (Throw e, s').
Proof. unfold bind. intros ->. reflexivity. Qed.

Section Load.

Context {codec : XLSX.Codec} {laws : XLSX.CodecLaws codec}.
Variable fetchWorkbook : string -> option WorkBook.

Lemma initial_listed : listed ExcelService.initial_workbook.
Proof. apply (bool_decide_unpack _). vm_compute. exact I. Qed.

Lemma write_truthy wb : truthy (VString (write wb)) = true.
Proof.
  simpl. destruct (bool_decide_reflect (write wb = EmptyString)) as [E |]; [| reflexivity].
  exfalso. exact (write_nonempty wb E).
Qed.

Lemma initializeExcelFile_run s :
  ExcelService.initializeExcelFile s = (Return tt, persisted ExcelService.initial_workbook s).
Proof. reflexivity. Qed.

Lemma backing_persisted wb s : backing (persisted wb s) = Some (write wb).
Proof. apply holds_persisted. Qed.

(** One unfolding of [readFromLocalStorage] on a value that is there. *)
Lemma read_present n s text :
  backing s = Some text -> truthy (VString text) = true ->
  startsWith "blob:" text = false ->
  ExcelService.readFromLocalStorage_ fetchWorkbook (S n) s = (Return (read text), s).
Proof.
  intros Hback Htruthy Hblob.
  unfold ExcelService.readFromLocalStorage_, try_catch.
  rewrite (bind_return _ _ _ _ _ (getUserKey_run s)).
  unfold bind at 1. unfold LocalStorage.getItem. fold (backing s). rewrite Hback.
  rewrite Htruthy, Hblob. simpl. unfold ExcelService.XLSX_read.
  destruct (read text); reflexivity.
Qed.

Lemma read_holds n s wb :
  listed wb -> holds s wb ->
  ExcelService.readFromLocalStorage_ fetchWorkbook (S n) s = (Return (Some wb), s).
Proof.
  intros Hlisted Hholds.
  rewrite (read_present n s (write wb) Hholds (write_truthy wb) (write_not_blob wb)).
  rewrite (read_write wb Hlisted). reflexivity.
Qed.

(** The call on a store without a backing value: a fresh workbook is
    written, and the second call reads it. *)
Lemma read_initializes n s :
  ExcelService.readFromLocalStorage_ fetchWorkbook (S n) (persisted ExcelService.initial_workbook s)
  = (Return (Some ExcelService.initial_workbook), persisted ExcelService.initial_workbook s).
Proof. apply read_holds; [apply initial_listed | apply holds_persisted]. Qed.

Lemma readFromLocalStorage_S n :
  ExcelService.readFromLocalStorage_ fetchWorkbook (S n) =
  try_catch
    (bind ExcelService.getUserKey (fun key =>
     bind (LocalStorage.getItem key) (fun stored =>
       match stored with
       | Some text =>
           if negb (truthy (VString text)) then
             bind ExcelService.initializeExcelFile (fun _ =>
               ExcelService.readFromLocalStorage_ fetchWorkbook n)
           else if startsWith "blob:" text then
             try_catch
               (match fetchWorkbook text with
                | Some workbook => ret (Some workbook)
                | None => throw (Error "fetch")
                end)
               (fun _ =>
                  bind ExcelService.initializeExcelFile (fun _ =>
                  bind ExcelService.getUserKey (fun key' =>
                  bind (LocalStorage.getItem key') (fun base64 =>
                    ExcelService.XLSX_read (ExcelService.or_text base64 EmptyString)))))
           else ExcelService.XLSX_read text
       | None =>
           bind ExcelService.initializeExcelFile (fun _ =>
             ExcelService.readFromLocalStorage_ fetchWorkbook n)
       end)))
    (fun _ => ret None).
Proof. reflexivity. Qed.

Lemma getItem_run s : LocalStorage.getItem (key_of s) s = (Return (backing s), s).
Proof. reflexivity. Qed.

Lemma readFromLocalStorage_unfold n s :
  ExcelService.readFromLocalStorage_ fetchWorkbook (S (S n)) s =
  match backing s with
  | Some text =>
      if negb (truthy (VString text)) then
        (Return (Some ExcelService.initial_workbook),
         persisted ExcelService.initial_workbook s)
      else if startsWith "blob:" text then
        match fetchWorkbook text with
        | Some wb => (Return (Some wb), s)
        | None =>
            (Return (Some ExcelService.initial_workbook),
             persisted ExcelService.initial_workbook s)
        end
      else (Return (read text), s)
  | None =>
      (Return (Some ExcelService.initial_workbook),
       persisted ExcelService.initial_workbook s)
  end.
Proof.
  rewrite readFromLocalStorage_S. unfold try_catch at 1.
  rewrite (bind_return _ _ _ _ _ (getUserKey_run s)).
  rewrite (bind_return _ _ _ _ _ (getItem_run s)).
  destruct (backing s) as [text |] eqn:Hback.
  - destruct (truthy (VString text)) eqn:Htruthy; cbn [negb].
    + destruct (startsWith "blob:" text) eqn:Hblob.
      * destruct (fetchWorkbook text) as [wb |]; [reflexivity |].
        unfold try_catch, throw.
        rewrite (bind_return _ _ _ _ _ (initializeExcelFile_run s)).
        rewrite (bind_return _ _ _ _ _
                   (getUserKey_run (persisted ExcelService.initial_workbook s))).
        rewrite key_of_persisted.
        rewrite <- (key_of_persisted ExcelService.initial_workbook s) at 1.
        rewrite (bind_return _ _ _ _ _
                   (getItem_run (persisted ExcelService.initial_workbook s))).
        rewrite backing_persisted.
        unfold ExcelService.or_text. rewrite write_truthy.
        unfold ExcelService.XLSX_read.
        rewrite (read_write _ initial_listed). reflexivity.
      * unfold ExcelService.XLSX_read. destruct (read text); reflexivity.
    + rewrite (bind_return _ _ _ _ _ (initializeExcelFile_run s)).
      rewrite read_initializes. reflexivity.
  - rewrite (bind_return _ _ _ _ _ (initializeExcelFile_run s)).
    rewrite read_initializes. reflexivity.
Qed.

End Load.

Section LoadCases.

Context {codec : XLSX.Codec} {laws : XLSX.CodecLaws codec}.
Variable fetchWorkbook : string -> option WorkBook.


End LoadCases.



(** ** Saving companies *)

Section Upsert.

(** The row searched for is found where it is, when no row before it
    carries the id. *)
Lemma find_existing_at (v : value) (row : list value) (todo : WorkSheet) :
  strict_eq (at_ row 0) v = true ->
  forall (done : WorkSheet) (i : Z),
    Forall (fun r => strict_eq (at_ r 0) v = false) done ->
    ExcelService.find_existing i (done ++ row :: todo)%list v = i + Z.of_nat (length done).
Proof.
  intros Hrow done. induction done as [| r done IH]; intros i Hdone; simpl.
  - rewrite Hrow. lia.
  - inversion Hdone as [| ? ? Hr Hdone']; subst. rewrite Hr.
    rewrite IH by assumption. lia.
Qed.

Lemma insert_middle {A} (done : list A) (x y : A) (todo : list A) :
  <[length done := y]> (done ++ x :: todo)%list = (done ++ y :: todo)%list.
Proof. induction done as [| d done IH]; simpl; [| rewrite IH]; reflexivity. Qed.

Lemma upsert_at (header : list value) (v : value) (row new : list value)
    (done todo : WorkSheet) :
  strict_eq (at_ row 0) v = true ->
  Forall (fun r => strict_eq (at_ r 0) v = false) done ->
  ExcelService.upsert (header :: done ++ row :: todo)%list v new
  = (header :: done ++ new :: todo)%list.
Proof.
  intros Hrow Hdone. unfold ExcelService.upsert. simpl tl.
  rewrite (find_existing_at v row todo Hrow done 1 Hdone).
  assert ((0 <=? 1 + Z.of_nat (length done)) = true) as -> by (apply Z.leb_le; lia).
  replace (Z.to_nat (1 + Z.of_nat (length done))) with (S (length done)) by lia.
  simpl. rewrite insert_middle. reflexivity.
Qed.

Lemma strict_eq_text (x y : string) : strict_eq (VString x) (VString y) = bool_decide (x = y).
Proof. reflexivity. Qed.

(** Rows whose ids are the texts [ids], none of them [x], do not match [x]. *)
Lemma no_match_before (x : string) (ids : list string) (done : WorkSheet) :
  first_column done = map VString ids -> ~ In x ids ->
  Forall (fun r => strict_eq (at_ r 0) (VString x) = false) done.
Proof.
  revert ids. induction done as [| r done IH]; intros ids Hcol Hnotin; [constructor |].
  destruct ids as [| y ids]; [discriminate |].
  simpl in Hcol. injection Hcol as Hr Hcol. constructor.
  - rewrite Hr, strict_eq_text. apply bool_decide_eq_false.
    intros ->. apply Hnotin. now left.
  - apply (IH ids); [exact Hcol |]. intros Hin. apply Hnotin. now right.
Qed.

End Upsert.

Section Companies.

Context {codec : XLSX.Codec} {laws : XLSX.CodecLaws codec}.
Variable fuel : nat.
Variable fetchWorkbook : string -> option WorkBook.
Hypothesis Hfuel : (1 <= fuel)%nat.

Lemma readFromLocalStorage_holds s wb :
  listed wb -> holds s wb ->
  ExcelService.readFromLocalStorage fuel fetchWorkbook s = (Return (Some wb), s).
Proof.
  intros Hlisted Hholds. unfold ExcelService.readFromLocalStorage.
  destruct fuel as [| n]; [lia |]. apply read_holds; assumption.
Qed.

Lemma assign_listed wb name ws :
  listed wb -> is_Some (Sheets wb !! name) -> listed (assign_sheet wb name ws).
Proof.
  intros [Hnodup Hdom] Hsome. split; [exact Hnodup |]. simpl.
  rewrite dom_insert_L, <- Hdom.
  apply subseteq_union_1_L, singleton_subseteq_l, elem_of_dom. exact Hsome.
Qed.

Lemma assign_assign wb name a b :
  assign_sheet (assign_sheet wb name a) name b = assign_sheet wb name b.
Proof. unfold assign_sheet. simpl. rewrite insert_insert_eq. reflexivity. Qed.

Lemma assign_same wb name a : Sheets wb !! name = Some a -> assign_sheet wb name a = wb.
Proof.
  intros H. destruct wb as [names sheets]. unfold assign_sheet. simpl in *.
  rewrite insert_id by exact H. reflexivity.
Qed.

Lemma lookup_assign wb name a : Sheets (assign_sheet wb name a) !! name = Some a.
Proof. apply lookup_insert_eq. Qed.

Lemma lookup_assign_ne wb name other a :
  name <> other -> Sheets (assign_sheet wb name a) !! other = Sheets wb !! other.
Proof. intros H. apply lookup_insert_ne. exact H. Qed.

Lemma saveCompany_run s wb data c :
  listed wb -> holds s wb -> Sheets wb !! "公司信息" = Some data ->
  ExcelService.saveCompany fuel fetchWorkbook c s
  = (Return tt, persisted (assign_sheet wb "公司信息" (save_row data c)) s).
Proof.
  intros Hlisted Hholds Hsheet. unfold ExcelService.saveCompany.
  rewrite (bind_return _ _ _ _ _ (readFromLocalStorage_holds s wb Hlisted Hholds)).
  rewrite Hsheet. apply saveToLocalStorage_run.
Qed.

Lemma writes_persisted wb s :
  length (LocalStorage.writes (persisted wb s)) = S (length (LocalStorage.writes s)).
Proof. simpl. rewrite length_app. simpl. lia. Qed.

(** A run of [saveCompany] calls folds [save_row] over the sheet, one
    [setItem] per call. *)
Lemma for_of_saveCompany cs :
  forall s wb data,
    listed wb -> holds s wb -> Sheets wb !! "公司信息" = Some data ->
    exists s',
      for_of cs (ExcelService.saveCompany fuel fetchWorkbook) s = (Return tt, s')
      /\ holds s' (assign_sheet wb "公司信息" (fold_left save_row cs data))
      /\ length (LocalStorage.writes s')
         = (length (LocalStorage.writes s) + length cs)%nat.
Proof.
  induction cs as [| c cs IH]; intros s wb data Hlisted Hholds Hsheet.
  - exists s. simpl. rewrite (assign_same _ _ _ Hsheet). repeat split; [exact Hholds | lia].
  - simpl for_of.
    rewrite (bind_return _ _ _ _ _ (saveCompany_run s wb data c Hlisted Hholds Hsheet)).
    destruct (IH (persisted (assign_sheet wb "公司信息" (save_row data c)) s)
                 (assign_sheet wb "公司信息" (save_row data c)) (save_row data c))
      as (s' & Hrun & Hholds' & Hwrites).
    + apply assign_listed; [exact Hlisted | rewrite Hsheet; eauto].
    + apply holds_persisted.
    + apply lookup_assign.
    + exists s'. split; [exact Hrun |]. split.
      * rewrite assign_assign in Hholds'. exact Hholds'.
      * rewrite Hwrites, writes_persisted. simpl. lia.
Qed.

Lemma getCompanies_run s wb rows :
  listed wb -> holds s wb ->
  Sheets wb !! "公司信息" = Some (company_header :: rows) ->
  ExcelService.getCompanies fuel fetchWorkbook s = (Return (companies_of rows), s).
Proof.
  intros Hlisted Hholds Hsheet. unfold ExcelService.getCompanies.
  rewrite (bind_return _ _ _ _ _ (readFromLocalStorage_holds s wb Hlisted Hholds)).
  rewrite Hsheet. destruct rows as [| r rows]; reflexivity.
Qed.

Lemma for_of_service {A} (f : A -> M LocalStorage.t unit) (st : CompanyStore.CompanyState)
    (cs : list A) :
  forall s r s',
    for_of cs f s = (r, s') ->
    for_of cs (fun c => CompanyStore.service (f c)) (st, s) = (r, (st, s')).
Proof.
  induction cs as [| c cs IH]; intros s r s' Hrun; simpl in *.
  - injection Hrun as <- <-. reflexivity.
  - unfold bind in *. unfold CompanyStore.service at 1. unfold zoom. simpl.
    destruct (f c s) as [[[] | e] s1].
    + apply IH. exact Hrun.
    + injection Hrun as <- <-. reflexivity.
Qed.

Lemma loadCompanies_run st s cs :
  ExcelService.getCompanies fuel fetchWorkbook s = (Return cs, s) ->
  exists st',
    CompanyStore.loadCompanies fuel fetchWorkbook (st, s) = (Return tt, (st', s))
    /\ CompanyStore.companies st' = cs.
Proof.
  intros Hget.
  unfold CompanyStore.loadCompanies, CompanyStore.set, CompanyStore.service,
    modify, bind, try_catch, zoom, get, ret.
  simpl. rewrite Hget. simpl.
  destruct (CompanyStore.currentCompany st); simpl.
  - eexists. split; reflexivity.
  - destruct cs; simpl; eexists; split; reflexivity.
Qed.

End Companies.

Section CompanyRows.

Lemma id_of_row (row : list value) (x : string) :
  at_ row 0 = VString x ->
  Company.id (ExcelService.company_of_row company_header row) = VString x.
Proof.
  intros H. unfold ExcelService.company_of_row, ExcelService.cell, company_header.
  locate_columns. simpl Company.id. rewrite H. apply or_blank_string.
Qed.

(** A company that was read from a row is written and read back as it is,
    whatever its default flag is set to. *)
Lemma read_write_read (row : list value) (b : bool) :
  ExcelService.company_of_row company_header
    (ExcelService.company_row
       (Company.with_isDefault b (ExcelService.company_of_row company_header row)))
  = Company.with_isDefault b (ExcelService.company_of_row company_header row).
Proof.
  rewrite company_of_row_company_row.
  unfold Company.with_isDefault, ExcelService.company_of_row. simpl.
  rewrite !or_blank_idem. reflexivity.
Qed.

Lemma with_isDefault_same (c : Company.t) : Company.with_isDefault (Company.isDefault c) c = c.
Proof. destruct c; reflexivity. Qed.

Lemma first_column_app (a b : WorkSheet) :
  first_column (a ++ b)%list = (first_column a ++ first_column b)%list.
Proof. apply map_app. Qed.

(** Saving the companies read from the sheet, each with its new flag,
    rewrites the rows one after the other, in place. *)
Lemma fold_set_default (companyId : string) (todo : WorkSheet) :
  forall (done : WorkSheet) (ids_done ids_todo : list string),
    first_column done = map VString ids_done ->
    first_column todo = map VString ids_todo ->
    NoDup (ids_done ++ ids_todo)%list ->
    fold_left save_row (map (set_default companyId) (companies_of todo))
              (company_header :: done ++ todo)%list
    = (company_header :: done
       ++ map (fun row =>
                 ExcelService.company_row
                   (set_default companyId
                      (ExcelService.company_of_row company_header row))) todo)%list.
Proof.
  induction todo as [| row todo IH]; intros done ids_done ids_todo Hdone Htodo Hnodup.
  - reflexivity.
  - destruct ids_todo as [| x ids_todo]; [discriminate |].
    simpl in Htodo. injection Htodo as Hrow Htodo.
    set (c := set_default companyId (ExcelService.company_of_row company_header row)).
    assert (Company.id c = VString x) as Hid by (apply id_of_row; exact Hrow).
    change (fold_left save_row (map (set_default companyId) (companies_of (row :: todo)))
              (company_header :: done ++ row :: todo)%list)
      with (fold_left save_row (map (set_default companyId) (companies_of todo))
              (ExcelService.upsert (company_header :: done ++ row :: todo)%list
                 (Company.id c) (ExcelService.company_row c))).
    change (map (fun row0 => ExcelService.company_row
                   (set_default companyId
                      (ExcelService.company_of_row company_header row0)))
                (row :: todo))
      with (ExcelService.company_row c
            :: map (fun row0 => ExcelService.company_row
                      (set_default companyId
                         (ExcelService.company_of_row company_header row0))) todo).
    rewrite Hid.
    rewrite (upsert_at company_header (VString x) row (ExcelService.company_row c)
               done todo).
    + replace (company_header :: done ++ ExcelService.company_row c :: todo)%list
        with (company_header :: (done ++ [ExcelService.company_row c]) ++ todo)%list
        by (rewrite <- app_assoc; reflexivity).
      rewrite (IH (done ++ [ExcelService.company_row c])%list
                  (ids_done ++ [x])%list ids_todo).
      * rewrite <- app_assoc. reflexivity.
      * rewrite first_column_app, map_app, Hdone. simpl. f_equal. f_equal. exact Hid.
      * exact Htodo.
      * rewrite <- app_assoc. exact Hnodup.
    + rewrite Hrow, strict_eq_text. apply bool_decide_eq_true. reflexivity.
    + apply (no_match_before x ids_done done Hdone).
      apply NoDup_app in Hnodup as (_ & Hdisjoint & _).
      intros Hin. apply (Hdisjoint x); [apply list_elem_of_In; exact Hin |].
      apply list_elem_of_In. now left.
Qed.

Lemma companies_of_rewritten (companyId : string) (rows : WorkSheet) :
  companies_of
    (map (fun row =>
            ExcelService.company_row
              (set_default companyId (ExcelService.company_of_row company_header row)))
         rows)
  = map (set_default companyId) (companies_of rows).
Proof.
  unfold companies_of. rewrite !map_map. apply map_ext. intros row.
  apply read_write_read.
Qed.

Lemma set_default_flag (companyId : string) (c : Company.t) :
  Company.isDefault (set_default companyId c)
  = strict_eq (Company.id (set_default companyId c)) (VString companyId).
Proof. reflexivity. Qed.

Lemma set_default_all (companyId : string) (l : list Company.t) :
  Forall (fun c => Company.isDefault c = strict_eq (Company.id c) (VString companyId))
         (map (set_default companyId) l).
Proof. induction l; constructor; [reflexivity | assumption]. Qed.

Lemma flags_of_rows (companyId : string) (rows : WorkSheet) :
  forall ids,
    first_column rows = map VString ids ->
    map Company.isDefault (map (set_default companyId) (companies_of rows))
    = map (fun y => bool_decide (y = companyId)) ids.
Proof.
  induction rows as [| row rows IH]; intros ids Hcol;
    destruct ids as [| x ids]; try discriminate; [reflexivity |].
  injection Hcol as Hrow Hcol.
  change (companies_of (row :: rows))
    with (ExcelService.company_of_row company_header row :: companies_of rows).
  rewrite !map_cons. f_equal; [| apply IH; exact Hcol].
  change (Company.isDefault
            (set_default companyId (ExcelService.company_of_row company_header row)))
    with (strict_eq (Company.id (ExcelService.company_of_row company_header row))
                    (VString companyId)).
  rewrite (id_of_row row x Hrow). apply strict_eq_text.
Qed.

Lemma filter_flags {A} (f : A -> bool) (l : list A) :
  length (List.filter f l) = length (List.filter (fun b : bool => b) (map f l)).
Proof.
  induction l as [| a l IH]; [reflexivity |].
  simpl. destruct (f a); simpl; rewrite IH; reflexivity.
Qed.

Lemma no_flag (x : string) (ids : list string) :
  ~ In x ids ->
  List.filter (fun b : bool => b) (map (fun y => bool_decide (y = x)) ids) = [].
Proof.
  induction ids as [| y ids IH]; intros Hnotin; [reflexivity |].
  simpl. rewrite bool_decide_eq_false_2 by (intros ->; apply Hnotin; now left).
  apply IH. intros Hin. apply Hnotin. now right.
Qed.

(** Among distinct ids, exactly one is the chosen one. *)
Lemma one_flag (x : string) (ids : list string) :
  NoDup ids -> In x ids ->
  length (List.filter (fun b : bool => b) (map (fun y => bool_decide (y = x)) ids)) = 1%nat.
Proof.
  induction ids as [| y ids IH]; intros Hnodup Hin; [contradiction |].
  apply NoDup_cons in Hnodup as [Hy Hnodup]. simpl.
  destruct (bool_decide_reflect (y = x)) as [-> | Hne].
  - simpl. rewrite no_flag; [reflexivity |].
    intros Hin'. apply Hy, list_elem_of_In. exact Hin'.
  - apply IH; [exact Hnodup |]. destruct Hin as [-> | Hin]; [congruence | exact Hin].
Qed.

Lemma one_default (companyId : string) (rows : WorkSheet) (ids : list string) :
  first_column rows = map VString ids -> NoDup ids -> In companyId ids ->
  length (List.filter Company.isDefault (map (set_default companyId) (companies_of rows)))
  = 1%nat.
Proof.
  intros Hcol Hnodup Hin.
  rewrite filter_flags, (flags_of_rows companyId rows ids Hcol).
  apply one_flag; assumption.
Qed.

End CompanyRows.

(** ** The default company *)

Lemma try_catch_return {S A} (m : M S A) (h : exn -> M S A) s a s' :
  m s = (Return a, s') -> try_catch m h s = (Return a, s').
Proof. unfold try_catch. intros ->. reflexivity. Qed.

Section DefaultCompany.

Context {codec : XLSX.Codec} {laws : XLSX.CodecLaws codec}.
Variable fetchWorkbook : string -> option WorkBook.

(** The whole run of [setDefaultCompany] on a store in step with its
    workbook. *)
Lemma setDefaultCompany_run
    (fuel : nat) (companyId : string) (st : CompanyStore.CompanyState)
    (s : LocalStorage.t) (wb : WorkBook) (rows : WorkSheet) (ids : list string) :
  (1 <= fuel)%nat ->
  listed wb -> holds s wb ->
  Sheets wb !! "公司信息" = Some (company_header :: rows) ->
  first_column rows = map VString ids -> NoDup ids ->
  CompanyStore.companies st = companies_of rows ->
  exists st' s',
    CompanyStore.setDefaultCompany fuel fetchWorkbook companyId (st, s)
    = (Return tt, (st', s'))
    /\ CompanyStore.companies st' = map (set_default companyId) (CompanyStore.companies st)
    /\ ExcelService.getCompanies fuel fetchWorkbook s'
       = (Return (CompanyStore.companies st'), s')
    /\ Forall (fun c => Company.isDefault c
                        = strict_eq (Company.id c) (VString companyId))
              (CompanyStore.companies st')
    /\ (In companyId ids ->
        length (List.filter Company.isDefault (CompanyStore.companies st')) = 1%nat)
    /\ length (LocalStorage.writes s')
       = (length (LocalStorage.writes s) + length rows)%nat.
Proof.
  intros Hfuel Hlisted Hholds Hsheet Hcol Hnodup Hsync.
  set (updated := map (set_default companyId) (companies_of rows)).
  set (rows' := map (fun row => ExcelService.company_row
                        (set_default companyId
                           (ExcelService.company_of_row company_header row))) rows).
  destruct (for_of_saveCompany fuel fetchWorkbook Hfuel updated s wb
              (company_header :: rows) Hlisted Hholds Hsheet)
    as (s1 & Hrun & Hholds1 & Hwrites1).
  assert (fold_left save_row updated (company_header :: rows) = company_header :: rows')
    as Hfold.
  { apply (fold_set_default companyId rows [] [] ids); [reflexivity | exact Hcol | exact Hnodup]. }
  rewrite Hfold in Hholds1.
  set (wb1 := assign_sheet wb "公司信息" (company_header :: rows')) in *.
  assert (listed wb1) as Hlisted1
    by (apply assign_listed; [exact Hlisted | rewrite Hsheet; eauto]).
  assert (ExcelService.getCompanies fuel fetchWorkbook s1 = (Return updated, s1)) as Hget.
  { rewrite (getCompanies_run fuel fetchWorkbook Hfuel s1 wb1 rows' Hlisted1 Hholds1
               (lookup_assign _ _ _)).
    unfold rows'. rewrite companies_of_rewritten. reflexivity. }
  destruct (loadCompanies_run fuel fetchWorkbook (CompanyStore.start st) s1 updated Hget)
    as (st2 & Hload & Hcompanies).
  exists (CompanyStore.finish st2), s1.
  split; [| split; [| split; [| split; [| split]]]].
  - unfold CompanyStore.setDefaultCompany.
    rewrite (bind_return _ _ (st, s) tt (CompanyStore.start st, s)) by reflexivity.
    apply try_catch_return.
    rewrite (bind_return _ _ _ (CompanyStore.start st, s) (CompanyStore.start st, s))
      by reflexivity.
    change (CompanyStore.companies (CompanyStore.start st, s).1)
      with (CompanyStore.companies st).
    rewrite Hsync. fold updated.
    rewrite (bind_return _ _ _ tt (CompanyStore.start st, s1))
      by (apply for_of_service; exact Hrun).
    rewrite (bind_return _ _ _ _ _ Hload). reflexivity.
  - simpl. rewrite Hcompanies, Hsync. reflexivity.
  - simpl. rewrite Hcompanies. exact Hget.
  - simpl. rewrite Hcompanies. apply set_default_all.
  - intros Hin. simpl. rewrite Hcompanies.
    apply (one_default companyId rows ids); assumption.
  - rewrite Hwrites1. unfold updated, companies_of. rewrite !length_map. reflexivity.
Qed.

(** C2 (amended). Let the store hold a listed workbook whose company
    sheet has the canonical header and rows with distinct text ids, and
    let the companies in memory be the ones it lists. Then
    [setDefaultCompany(id)] succeeds; afterwards the companies in
    memory are the ones listed, each Company has [isDefault] equal to
    [company.id === id], so exactly one is the default when [id] is one
    of the ids; and the rewrite is persisted row by row, with one
    [setItem] of the whole workbook for every Company row. *)
Theorem setDefaultCompany_marks_one
    (fuel : nat) (companyId : string) (st : CompanyStore.CompanyState)
    (s : LocalStorage.t) (wb : WorkBook) (rows : WorkSheet) (ids : list string) :
  (1 <= fuel)%nat ->
  listed wb -> holds s wb ->
  Sheets wb !! "公司信息" = Some (company_header :: rows) ->
  first_column rows = map VString ids -> NoDup ids ->
  CompanyStore.companies st = companies_of rows ->
  exists st' s',
    CompanyStore.setDefaultCompany fuel fetchWorkbook companyId (st, s)
    = (Return tt, (st', s'))
    /\ CompanyStore.companies st' = map (set_default companyId) (CompanyStore.companies st)
    /\ ExcelService.getCompanies fuel fetchWorkbook s'
       = (Return (CompanyStore.companies st'), s')
    /\ Forall (fun c => Company.isDefault c
                        = strict_eq (Company.id c) (VString companyId))
              (CompanyStore.companies st')
    /\ (In companyId ids ->
        length (List.filter Company.isDefault (CompanyStore.companies st')) = 1%nat)
    /\ length (LocalStorage.writes s')
       = (length (LocalStorage.writes s) + length rows)%nat.
Proof. apply setDefaultCompany_run. Qed.

End DefaultCompany.

(** ** Deleting a company *)

Section Resave.

Lemma first_column_split (done : WorkSheet) (row : list value) (todo : WorkSheet)
    (ids : list string) :
  first_column (done ++ row :: todo)%list = map VString ids ->
  exists ids_done x ids_todo,
    ids = (ids_done ++ x :: ids_todo)%list
    /\ first_column done = map VString ids_done
    /\ at_ row 0 = VString x
    /\ first_column todo = map VString ids_todo.
Proof.
  intros H. rewrite first_column_app in H. symmetry in H.
  apply map_eq_app in H as (ids_done & rest & -> & Hdone & Hrest).
  simpl in Hrest. destruct rest as [| x ids_todo]; [discriminate |].
  injection Hrest as Hx Htodo.
  exists ids_done, x, ids_todo. repeat split; auto.
Qed.

Lemma companies_of_middle (done : WorkSheet) (row : list value) (todo : WorkSheet) :
  companies_of (done ++ row :: todo)%list
  = (companies_of done
     ++ ExcelService.company_of_row company_header row :: companies_of todo)%list.
Proof. unfold companies_of. rewrite map_app. reflexivity. Qed.

(** Saving again companies that the sheet lists, in any order and any
    number, leaves the list it reads as it was. *)
Lemma fold_resave (cs : list Company.t) :
  forall (rows : WorkSheet) (ids : list string),
    first_column rows = map VString ids -> NoDup ids ->
    (forall c, In c cs -> In c (companies_of rows)) ->
    exists rows',
      fold_left save_row cs (company_header :: rows) = company_header :: rows'
      /\ companies_of rows' = companies_of rows.
Proof.
  induction cs as [| c cs IH]; intros rows ids Hcol Hnodup Hsub.
  - exists rows. split; reflexivity.
  - assert (In c (companies_of rows)) as Hc by (apply Hsub; now left).
    apply in_map_iff in Hc as (row & Hdec & Hrow).
    apply in_split in Hrow as (done & todo & ->).
    destruct (first_column_split done row todo ids Hcol)
      as (ids_done & x & ids_todo & -> & Hdone & Hx & Htodo).
    assert (Company.id c = VString x) as Hid by (rewrite <- Hdec; apply id_of_row, Hx).
    assert (ExcelService.company_of_row company_header (ExcelService.company_row c) = c)
      as Hsame.
    { rewrite <- Hdec.
      rewrite <- (with_isDefault_same (ExcelService.company_of_row _ row)) at 1.
      rewrite read_write_read. apply with_isDefault_same. }
    destruct (IH (done ++ ExcelService.company_row c :: todo)%list
                 (ids_done ++ x :: ids_todo)%list) as (rows' & Hfold & Hlist).
    + rewrite first_column_app, map_app, Hdone. simpl. rewrite Htodo.
      f_equal. f_equal. exact Hid.
    + exact Hnodup.
    + intros c' Hc'. rewrite companies_of_middle, Hsame.
      specialize (Hsub c' (or_intror Hc')).
      rewrite companies_of_middle, Hdec in Hsub. exact Hsub.
    + exists rows'. split.
      * simpl fold_left. unfold save_row at 2. rewrite Hid.
        rewrite (upsert_at company_header (VString x) row (ExcelService.company_row c)
                   done todo).
        -- exact Hfold.
        -- rewrite Hx, strict_eq_text. apply bool_decide_eq_true. reflexivity.
        -- apply (no_match_before x ids_done done Hdone).
           apply NoDup_app in Hnodup as (_ & Hdisjoint & _).
           intros Hin. apply (Hdisjoint x); [apply list_elem_of_In; exact Hin |].
           apply list_elem_of_In. now left.
      * rewrite Hlist, !companies_of_middle, Hsame, Hdec. reflexivity.
Qed.

End Resave.

Section DeleteCompany.

Context {codec : XLSX.Codec} {laws : XLSX.CodecLaws codec}.
Variable fetchWorkbook : string -> option WorkBook.

(** [deleteCompany] saves the other companies again and saves nothing
    else: the sheet keeps every row, and the reload lists the same
    companies as before, the one to delete among them. *)
Lemma deleteCompany_lists_the_same
    (fuel : nat) (companyId : string) (st : CompanyStore.CompanyState)
    (s : LocalStorage.t) (wb : WorkBook) (rows : WorkSheet) (ids : list string) :
  (1 <= fuel)%nat ->
  listed wb -> holds s wb ->
  Sheets wb !! "公司信息" = Some (company_header :: rows) ->
  first_column rows = map VString ids -> NoDup ids ->
  CompanyStore.companies st = companies_of rows ->
  exists st' s',
    CompanyStore.deleteCompany fuel fetchWorkbook companyId (st, s)
    = (Return tt, (st', s'))
    /\ CompanyStore.companies st' = CompanyStore.companies st
    /\ ExcelService.getCompanies fuel fetchWorkbook s'
       = (Return (CompanyStore.companies st), s').
Proof.
  intros Hfuel Hlisted Hholds Hsheet Hcol Hnodup Hsync.
  set (kept := List.filter
                 (fun c => negb (strict_eq (Company.id c) (VString companyId)))
                 (companies_of rows)).
  destruct (for_of_saveCompany fuel fetchWorkbook Hfuel kept s wb
              (company_header :: rows) Hlisted Hholds Hsheet)
    as (s1 & Hrun & Hholds1 & _).
  destruct (fold_resave kept rows ids Hcol Hnodup) as (rows' & Hfold & Hlist).
  { intros c Hc. apply filter_In in Hc as [Hc _]. exact Hc. }
  rewrite Hfold in Hholds1.
  set (wb1 := assign_sheet wb "公司信息" (company_header :: rows')) in *.
  assert (listed wb1) as Hlisted1
    by (apply assign_listed; [exact Hlisted | rewrite Hsheet; eauto]).
  assert (ExcelService.getCompanies fuel fetchWorkbook s1
          = (Return (companies_of rows), s1)) as Hget.
  { rewrite (getCompanies_run fuel fetchWorkbook Hfuel s1 wb1 rows' Hlisted1 Hholds1
               (lookup_assign _ _ _)).
    rewrite Hlist. reflexivity. }
  destruct (loadCompanies_run fuel fetchWorkbook (CompanyStore.start st) s1 _ Hget)
    as (st2 & Hload & Hcompanies).
  exists (CompanyStore.finish st2), s1. split; [| split].
  - unfold CompanyStore.deleteCompany.
    rewrite (bind_return _ _ (st, s) tt (CompanyStore.start st, s)) by reflexivity.
    apply try_catch_return.
    rewrite (bind_return _ _ _ (CompanyStore.start st, s) (CompanyStore.start st, s))
      by reflexivity.
    change (CompanyStore.companies (CompanyStore.start st, s).1)
      with (CompanyStore.companies st).
    rewrite Hsync. fold kept.
    rewrite (bind_return _ _ _ tt (CompanyStore.start st, s1))
      by (apply for_of_service; exact Hrun).
    rewrite (bind_return _ _ _ _ _ Hload). reflexivity.
  - simpl. rewrite Hcompanies, Hsync. reflexivity.
  - rewrite Hsync. exact Hget.
Qed.

End DeleteCompany.

(** ** The sample stores *)

Section Samples.

Import Reference.

Lemma storage_of_key wb : key_of (storage_of wb) = "quotation_system_data:default".
Proof.
  unfold key_of, storage_of. simpl LocalStorage.data.
  rewrite lookup_singleton_ne by discriminate. reflexivity.
Qed.

Lemma storage_of_holds wb : holds (storage_of wb) wb.
Proof. unfold holds, backing. rewrite storage_of_key. apply lookup_singleton_eq. Qed.

Lemma two_companies_listed : listed two_companies.
Proof.
  apply assign_listed; [apply initial_listed |].
  vm_compute. eauto.
Qed.

Lemma two_ids_distinct : NoDup ["c1"; "c2"].
Proof. apply (bool_decide_unpack _). vm_compute. exact I. Qed.

Lemma two_company_rows_read :
  companies_of two_company_rows = [sample_company; other_company].
Proof. vm_compute. reflexivity. Qed.

End Samples.

(** On the two sample companies, choosing the second as the default. *)
Lemma setDefaultCompany_marks_one_sample :
  exists st' s',
    CompanyStore.setDefaultCompany 1 Reference.no_fetch "c2"
      (loaded two_company_rows, Reference.storage_of two_companies)
    = (Return tt, (st', s'))
    /\ CompanyStore.companies st'
       = map (set_default "c2") (CompanyStore.companies (loaded two_company_rows))
    /\ ExcelService.getCompanies 1 Reference.no_fetch s'
       = (Return (CompanyStore.companies st'), s')
    /\ Forall (fun c => Company.isDefault c = strict_eq (Company.id c) (VString "c2"))
              (CompanyStore.companies st')
    /\ (In "c2" ["c1"; "c2"] ->
        length (List.filter Company.isDefault (CompanyStore.companies st')) = 1%nat)
    /\ length (LocalStorage.writes s')
       = (length (LocalStorage.writes (Reference.storage_of two_companies))
          + length two_company_rows)%nat.
Proof.
  apply (setDefaultCompany_marks_one (laws := reference_codec_laws) Reference.no_fetch
           1 "c2" (loaded two_company_rows) (Reference.storage_of two_companies)
           two_companies two_company_rows ["c1"; "c2"]).
  - lia.
  - apply two_companies_listed.
  - apply storage_of_holds.
  - reflexivity.
  - reflexivity.
  - apply two_ids_distinct.
  - reflexivity.
Defined.

(** With two companies the call makes two writes, not one batch. *)
Lemma setDefaultCompany_writes_per_row :
  let r := CompanyStore.setDefaultCompany 1 Reference.no_fetch "c2"
             (loaded two_company_rows, Reference.storage_of two_companies) in
  r.1 = Return tt
  /\ length (LocalStorage.writes r.2.2) = 2%nat
  /\ length (LocalStorage.writes r.2.2) <> 1%nat.
Proof.
  destruct (setDefaultCompany_run (laws := reference_codec_laws) Reference.no_fetch
              1 "c2" (loaded two_company_rows) (Reference.storage_of two_companies)
              two_companies two_company_rows ["c1"; "c2"])
    as (st' & s' & Hrun & _ & _ & _ & _ & Hwrites);
    [lia | apply two_companies_listed | apply storage_of_holds | reflexivity
    | reflexivity | apply two_ids_distinct | reflexivity |].
  intros r. subst r. rewrite Hrun. simpl. simpl in Hwrites.
  rewrite Hwrites. repeat split. discriminate.
Qed.

(** ** Deleting a product *)

Section Products.

Context {codec : XLSX.Codec} {laws : XLSX.CodecLaws codec} {J : JSONLib}.
Variable fuel : nat.
Variable fetchWorkbook : string -> option WorkBook.
Hypothesis Hfuel : (1 <= fuel)%nat.

Lemma getProducts_run s wb rows :
  listed wb -> holds s wb ->
  Sheets wb !! "产品库" = Some (product_header :: rows) ->
  ExcelService.getProducts fuel fetchWorkbook s
  = (Return (map (ExcelService.product_of_row product_header) rows), s).
Proof.
  intros Hlisted Hholds Hsheet. unfold ExcelService.getProducts.
  rewrite (bind_return _ _ _ _ _
             (readFromLocalStorage_holds fuel fetchWorkbook Hfuel s wb Hlisted Hholds)).
  rewrite Hsheet. destruct rows as [| r rows]; reflexivity.
Qed.

Lemma loadProducts_run (st : ProductStore.ProductState json) s ps :
  ExcelService.getProducts fuel fetchWorkbook s = (Return ps, s) ->
  exists st',
    ProductStore.loadProducts fuel fetchWorkbook (st, s) = (Return tt, (st', s))
    /\ ProductStore.products st' = ps.
Proof.
  intros Hget.
  unfold ProductStore.loadProducts, ProductStore.set, ProductStore.service,
    modify, bind, try_catch, zoom, ret.
  simpl. rewrite Hget. eexists. split; reflexivity.
Qed.

Lemma product_id_of_row (row : list value) (x : string) :
  at_ row 0 = VString x ->
  Product.id (ExcelService.product_of_row product_header row) = VString x.
Proof.
  intros H. unfold ExcelService.product_of_row, ExcelService.cell, product_header.
  locate_columns. cbn [Z.leb Z.compare]. simpl Product.id.
  rewrite H. apply or_blank_string.
Qed.

(** With every listed product filtered out there is nothing that
    [deleteProduct] saves: the reload lists what the sheet had. *)
Lemma deleteProduct_saves_nothing (productId : string)
    (st : ProductStore.ProductState json) s wb rows :
  listed wb -> holds s wb ->
  Sheets wb !! "产品库" = Some (product_header :: rows) ->
  List.filter (fun p => negb (strict_eq (Product.id p) (VString productId)))
              (ProductStore.products st) = [] ->
  exists st',
    ProductStore.deleteProduct fuel fetchWorkbook productId (st, s)
    = (Return tt, (st', s))
    /\ ProductStore.products st' = map (ExcelService.product_of_row product_header) rows.
Proof.
  intros Hlisted Hholds Hsheet Hnone.
  destruct (loadProducts_run (ProductStore.start st) s _
              (getProducts_run s wb rows Hlisted Hholds Hsheet))
    as (st2 & Hload & Hproducts).
  exists (ProductStore.finish st2). split; [| exact Hproducts].
  unfold ProductStore.deleteProduct.
  rewrite (bind_return _ _ (st, s) tt (ProductStore.start st, s)) by reflexivity.
  apply try_catch_return.
  rewrite (bind_return _ _ _ (ProductStore.start st, s) (ProductStore.start st, s))
    by reflexivity.
  change (ProductStore.products (ProductStore.start st, s).1)
    with (ProductStore.products st).
  rewrite Hnone.
  rewrite (bind_return _ _ _ tt (ProductStore.start st, s)) by reflexivity.
  rewrite (bind_return _ _ _ _ _ Hload). reflexivity.
Qed.

End Products.

Lemma one_product_listed : listed one_product.
Proof. apply assign_listed; [apply initial_listed |]. vm_compute. eauto. Qed.

Lemma one_product_id :
  map Product.id (products_of one_product_rows) = [VString "p1"].
Proof.
  unfold products_of, one_product_rows. cbn [map].
  apply (f_equal (fun v => [v])).
  exact (product_id_of_row (J := Reference.JSON)
                 (ExcelService.product_row (J := Reference.JSON) sample_product)
                 "p1" eq_refl).
Qed.

(** C1. On the store with the two sample companies, [deleteCompany]
    of the first one succeeds, and the company with that id is still in
    the store's list and is still returned by [getCompanies]: the call
    saves the other companies again and never removes a row. Likewise
    [deleteProduct] of the only product of a store succeeds, and the
    product is still listed afterwards. *)
Theorem deleteCompany_keeps_the_row :
  let r := CompanyStore.deleteCompany 1 Reference.no_fetch "c1"
             (loaded two_company_rows, Reference.storage_of two_companies) in
  let p := ProductStore.deleteProduct 1 Reference.no_fetch "p1"
             (loaded_products one_product_rows, Reference.storage_of one_product) in
  (r.1 = Return tt
   /\ Company.id sample_company = VString "c1"
   /\ In sample_company (CompanyStore.companies r.2.1)
   /\ ExcelService.getCompanies 1 Reference.no_fetch r.2.2
      = (Return [sample_company; other_company], r.2.2))
  /\ (p.1 = Return tt
      /\ map Product.id (ProductStore.products p.2.1) = [VString "p1"]).
Proof.
  intros r p. split.
  - destruct (deleteCompany_lists_the_same (laws := reference_codec_laws)
                Reference.no_fetch 1 "c1" (loaded two_company_rows)
                (Reference.storage_of two_companies) two_companies two_company_rows
                ["c1"; "c2"])
      as (st' & s' & Hrun & Hsame & Hget);
      [lia | apply two_companies_listed | apply storage_of_holds | reflexivity
      | reflexivity | apply two_ids_distinct | reflexivity |].
    subst r. rewrite Hrun. simpl.
    change (CompanyStore.companies (loaded two_company_rows))
      with (companies_of two_company_rows) in *.
    rewrite two_company_rows_read in *.
    split; [reflexivity |]. split; [reflexivity |]. split.
    + rewrite Hsame. now left.
    + exact Hget.
  - destruct (deleteProduct_saves_nothing (laws := reference_codec_laws)
                (J := Reference.JSON) 1 Reference.no_fetch (le_n 1) "p1"
                (loaded_products one_product_rows) (Reference.storage_of one_product)
                one_product one_product_rows)
      as (st' & Hrun & Hproducts);
      [apply one_product_listed | apply storage_of_holds | reflexivity | |].
    + change (ProductStore.products (loaded_products one_product_rows))
        with [ExcelService.product_of_row (J := Reference.JSON) product_header
                (ExcelService.product_row (J := Reference.JSON) sample_product)].
      cbn [List.filter].
      replace (Product.id
                 (ExcelService.product_of_row (J := Reference.JSON) product_header
                    (ExcelService.product_row (J := Reference.JSON) sample_product)))
        with (VString "p1")
        by (symmetry; exact (product_id_of_row (J := Reference.JSON)
                 (ExcelService.product_row (J := Reference.JSON) sample_product)
                 "p1" eq_refl)).
      reflexivity.
    + assert (p = (Return tt, (st', Reference.storage_of one_product))) as ->
        by exact Hrun.
      cbn [fst snd]. split; [reflexivity |].
      transitivity (map Product.id (products_of one_product_rows));
        [exact (f_equal (map Product.id) Hproducts) | apply one_product_id].
Qed.

(** ** Saving a quotation *)

Section QuotationItems.

Context {codec : XLSX.Codec} {laws : XLSX.CodecLaws codec}.
Variable fuel : nat.
Variable fetchWorkbook : string -> option WorkBook.
Hypothesis Hfuel : (1 <= fuel)%nat.

(** The item rows after [saveQuotation]: the rows of the other
    quotations, then the rows of the saved items. *)
Lemma saveQuotation_run s wb dataQ header rows q :
  listed wb -> holds s wb ->
  Sheets wb !! "报价单" = Some dataQ ->
  Sheets wb !! "报价单项" = Some (header :: rows) ->
  ExcelService.saveQuotation fuel fetchWorkbook q s
  = (Return tt,
     persisted
       (assign_sheet
          (assign_sheet wb "报价单"
             (ExcelService.upsert dataQ (VString (Quotation.id q))
                (ExcelService.quotation_row q)))
          "报价单项"
          (header
           :: List.filter
                (ExcelService.other_quotation (indexOf header (VString "报价单ID"))
                   (Quotation.id q)) rows
           ++ map (ExcelService.quotation_item_row (Quotation.id q))
                  (Quotation.items q))%list) s).
Proof.
  intros Hlisted Hholds HsheetQ Hitems. unfold ExcelService.saveQuotation.
  rewrite (bind_return _ _ _ _ _
             (readFromLocalStorage_holds fuel fetchWorkbook Hfuel s wb Hlisted Hholds)).
  unfold ExcelService.sheet_or_new at 1. rewrite HsheetQ.
  unfold ExcelService.sheet_or_new.
  rewrite lookup_assign_ne by discriminate. rewrite Hitems.
  unfold sheet_to_json, aoa_to_sheet. rewrite saveToLocalStorage_run.
  rewrite <- app_assoc. reflexivity.
Qed.

Lemma getQuotationItems_run s wb rows quotationId :
  listed wb -> holds s wb ->
  Sheets wb !! "报价单项" = Some (item_header :: rows) ->
  ExcelService.getQuotationItemsByQuotationId fuel fetchWorkbook quotationId s
  = (Return
       (map (ExcelService.quotation_item_of_row item_header)
          (List.filter
             (fun row => negb (ExcelService.other_quotation 1 quotationId row)) rows)),
     s).
Proof.
  intros Hlisted Hholds Hsheet. unfold ExcelService.getQuotationItemsByQuotationId.
  rewrite (bind_return _ _ _ _ _
             (readFromLocalStorage_holds fuel fetchWorkbook Hfuel s wb Hlisted Hholds)).
  rewrite Hsheet. destruct rows as [| r rows]; reflexivity.
Qed.

End QuotationItems.

Section ItemRows.

Lemma filter_out_then_in {A} (f : A -> bool) (l : list A) :
  List.filter (fun x => negb (f x)) (List.filter f l) = [].
Proof.
  induction l as [| a l IH]; [reflexivity |].
  simpl. destruct (f a) eqn:E; simpl; [rewrite E |]; exact IH.
Qed.

Lemma item_row_is_own (quotationId : string) (item : QuotationItem.t) :
  ExcelService.other_quotation 1 quotationId
    (ExcelService.quotation_item_row quotationId item) = false.
Proof.
  unfold ExcelService.other_quotation. read_cells. simpl ToString.
  rewrite bool_decide_eq_true_2 by reflexivity. reflexivity.
Qed.

Lemma filter_own_rows (quotationId : string) (items : list QuotationItem.t) :
  List.filter (fun row => negb (ExcelService.other_quotation 1 quotationId row))
              (map (ExcelService.quotation_item_row quotationId) items)
  = map (ExcelService.quotation_item_row quotationId) items.
Proof.
  induction items as [| item items IH]; [reflexivity |].
  rewrite map_cons. cbn [List.filter]. rewrite item_row_is_own, IH. reflexivity.
Qed.

Lemma items_read_back (quotationId : string) (items : list QuotationItem.t) :
  forallb item_wf items = true ->
  map (ExcelService.quotation_item_of_row item_header)
      (map (ExcelService.quotation_item_row quotationId) items) = items.
Proof.
  induction items as [| item items IH]; [reflexivity |].
  intros Hwf. cbn [forallb] in Hwf. apply andb_prop in Hwf as [Hitem Hwf].
  rewrite !map_cons, item_round_trip, IH by assumption. reflexivity.
Qed.

End ItemRows.

Section SaveQuotation.

Context {codec : XLSX.Codec} {laws : XLSX.CodecLaws codec}.
Variable fetchWorkbook : string -> option WorkBook.

(** X28. Let the store hold a listed workbook with a quotation sheet
    and an item sheet under the canonical item header, whatever rows
    they have, and let the numbers of the items of [Q] not be NaN.
    Then [saveQuotation(Q)] succeeds, and loading the items for [Q.id]
    afterwards returns the items of [Q], in their order and nothing
    else: the items stored before under that id are replaced. *)
Theorem saveQuotation_replaces_items
    (fuel : nat) (q : Quotation.t) (s : LocalStorage.t) (wb : WorkBook)
    (dataQ rows : WorkSheet) :
  (1 <= fuel)%nat ->
  listed wb -> holds s wb ->
  Sheets wb !! "报价单" = Some dataQ ->
  Sheets wb !! "报价单项" = Some (item_header :: rows) ->
  forallb item_wf (Quotation.items q) = true ->
  exists s',
    ExcelService.saveQuotation fuel fetchWorkbook q s = (Return tt, s')
    /\ ExcelService.getQuotationItemsByQuotationId fuel fetchWorkbook (Quotation.id q) s'
       = (Return (Quotation.items q), s').
Proof.
  intros Hfuel Hlisted Hholds HsheetQ Hitems Hwf.
  eexists. split.
  - apply (saveQuotation_run fuel fetchWorkbook Hfuel s wb dataQ item_header rows q);
      assumption.
  - erewrite getQuotationItems_run; [| exact Hfuel | | apply holds_persisted
                                       | apply lookup_assign].
    + change (indexOf item_header (VString "报价单ID")) with 1.
      rewrite List.filter_app, filter_out_then_in, filter_own_rows.
      simpl app. rewrite items_read_back by exact Hwf. reflexivity.
    + apply assign_listed.
      * apply assign_listed; [exact Hlisted | rewrite HsheetQ; eauto].
      * rewrite lookup_assign_ne by discriminate. rewrite Hitems. eauto.
Qed.

End SaveQuotation.

Lemma with_older_items_listed : listed with_older_items.
Proof. apply assign_listed; [apply initial_listed |]. vm_compute. eauto. Qed.

(** Saving the sample quotation over items stored earlier under its id. *)
Lemma saveQuotation_replaces_items_sample :
  exists s',
    ExcelService.saveQuotation 1 Reference.no_fetch sample_quotation
      (Reference.storage_of with_older_items) = (Return tt, s')
    /\ ExcelService.getQuotationItemsByQuotationId 1 Reference.no_fetch
         (Quotation.id sample_quotation) s'
       = (Return (Quotation.items sample_quotation), s').
Proof.
  apply (saveQuotation_replaces_items (laws := reference_codec_laws) Reference.no_fetch
           1 sample_quotation (Reference.storage_of with_older_items) with_older_items
           [quotation_header] older_item_rows).
  - lia.
  - apply with_older_items_listed.
  - apply storage_of_holds.
  - reflexivity.
  - reflexivity.
  - reflexivity.
Defined.

(** ** Upsert by id *)

Section ReplaceOrAppend.

Lemma find_existing_none (v : value) (rows : WorkSheet) :
  forall i, Forall (fun r => has_id v r = false) rows ->
            ExcelService.find_existing i rows v = -1.
Proof.
  induction rows as [| r rows IH]; intros i Hnone; [reflexivity |].
  inversion Hnone as [| ? ? Hr Hrows]; subst. simpl.
  unfold has_id in Hr. rewrite Hr. apply IH. exact Hrows.
Qed.

(** The rows either hold no row with the id, or split at the first one. *)
Lemma first_with_id (v : value) (rows : WorkSheet) :
  Forall (fun r => has_id v r = false) rows
  \/ exists pre r post,
       rows = (pre ++ r :: post)%list
       /\ Forall (fun r => has_id v r = false) pre
       /\ has_id v r = true.
Proof.
  induction rows as [| r rows IH]; [left; constructor |].
  destruct (has_id v r) eqn:Hr.
  - right. exists [], r, rows. repeat split; [constructor | exact Hr].
  - destruct IH as [Hnone | (pre & r' & post & -> & Hpre & Hr')].
    + left. constructor; assumption.
    + right. exists (r :: pre), r', post. repeat split; [constructor |]; assumption.
Qed.

Lemma replace_or_append_none {A} (f : A -> bool) (y : A) (xs : list A) :
  Forall (fun x => f x = false) xs -> replace_or_append f y xs = (xs ++ [y])%list.
Proof.
  induction xs as [| x xs IH]; intros H; [reflexivity |].
  inversion H as [| ? ? Hx Hxs]; subst. simpl. rewrite Hx, IH by exact Hxs. reflexivity.
Qed.

Lemma replace_or_append_at {A} (f : A -> bool) (y x : A) (pre post : list A) :
  Forall (fun x => f x = false) pre -> f x = true ->
  replace_or_append f y (pre ++ x :: post)%list = (pre ++ y :: post)%list.
Proof.
  intros Hpre Hx. induction pre as [| p pre IH]; simpl.
  - rewrite Hx. reflexivity.
  - inversion Hpre as [| ? ? Hp Hpre']; subst. rewrite Hp, IH by exact Hpre'. reflexivity.
Qed.

(** What [upsert] does to the rows under the header. *)
Lemma upsert_replace_or_append (header : list value) (v : value) (new : list value)
    (rows : WorkSheet) :
  ExcelService.upsert (header :: rows) v new
  = header :: replace_or_append (has_id v) new rows.
Proof.
  destruct (first_with_id v rows) as [Hnone | (pre & r & post & -> & Hpre & Hr)].
  - rewrite replace_or_append_none by exact Hnone.
    unfold ExcelService.upsert. simpl tl. rewrite find_existing_none by exact Hnone.
    reflexivity.
  - rewrite (replace_or_append_at (has_id v) new r pre post Hpre Hr).
    apply upsert_at; assumption.
Qed.

(** Decoding commutes with the replacement, when the decoded records
    carry the id the way the rows do. *)
Lemma map_replace_or_append {A B} (h : A -> B) (f : A -> bool) (g : B -> bool)
    (y : A) (xs : list A) :
  Forall (fun x => g (h x) = f x) xs ->
  map h (replace_or_append f y xs) = replace_or_append g (h y) (map h xs).
Proof.
  induction xs as [| x xs IH]; intros H; [reflexivity |].
  inversion H as [| ? ? Hx Hxs]; subst. simpl. rewrite Hx.
  destruct (f x); simpl; [reflexivity |]. rewrite IH by exact Hxs. reflexivity.
Qed.

Lemma text_ids_cons (row : list value) (rows : WorkSheet) :
  text_ids (row :: rows) = true ->
  (exists x, at_ row 0 = VString x) /\ text_ids rows = true.
Proof.
  unfold text_ids. simpl. intros H. apply andb_prop in H as [Hrow Hrows].
  split; [| exact Hrows]. destruct (at_ row 0); try discriminate. eauto.
Qed.

End ReplaceOrAppend.

Section UpsertCompany.

Context {codec : XLSX.Codec} {laws : XLSX.CodecLaws codec}.
Variable fetchWorkbook : string -> option WorkBook.

Lemma company_ids_agree (c : Company.t) (rows : WorkSheet) :
  text_ids rows = true ->
  Forall (fun row =>
            strict_eq (Company.id (ExcelService.company_of_row company_header row))
                      (Company.id c)
            = has_id (Company.id c) row) rows.
Proof.
  induction rows as [| row rows IH]; intros Htext; [constructor |].
  apply text_ids_cons in Htext as [[x Hx] Htext].
  constructor; [| apply IH; exact Htext].
  unfold has_id. rewrite (id_of_row row x Hx), Hx. reflexivity.
Qed.

Lemma saveCompany_then_list
    (fuel : nat) (c : Company.t) (s : LocalStorage.t) (wb : WorkBook) (rows : WorkSheet) :
  (1 <= fuel)%nat ->
  listed wb -> holds s wb ->
  Sheets wb !! "公司信息" = Some (company_header :: rows) ->
  text_ids rows = true ->
  company_wf c = true ->
  exists s',
    ExcelService.saveCompany fuel fetchWorkbook c s = (Return tt, s')
    /\ ExcelService.getCompanies fuel fetchWorkbook s = (Return (companies_of rows), s)
    /\ ExcelService.getCompanies fuel fetchWorkbook s'
       = (Return
            (replace_or_append
               (fun c' => strict_eq (Company.id c') (Company.id c)) c (companies_of rows)),
          s').
Proof.
  intros Hfuel Hlisted Hholds Hsheet Htext Hwf.
  eexists. split; [| split].
  - apply (saveCompany_run fuel fetchWorkbook Hfuel s wb _ c Hlisted Hholds Hsheet).
  - apply (getCompanies_run fuel fetchWorkbook Hfuel s wb rows Hlisted Hholds Hsheet).
  - unfold save_row. rewrite upsert_replace_or_append.
    erewrite getCompanies_run;
      [| exact Hfuel
       | apply assign_listed; [exact Hlisted | rewrite Hsheet; eauto]
       | apply holds_persisted
       | apply lookup_assign].
    unfold companies_of.
    rewrite (map_replace_or_append _ _
               (fun c' => strict_eq (Company.id c') (Company.id c)))
      by (apply company_ids_agree; exact Htext).
    rewrite (company_round_trip c Hwf). reflexivity.
Qed.

(** X1. On a store whose company sheet has the canonical header and
    text ids, [saveCompany(c)] of a company with text fields replaces,
    in the list that [getCompanies] returns, the first company with the
    id of [c] by [c], in place, or puts [c] at the end when no company
    has that id; the other companies and their order are as before. *)
Theorem saveCompany_upserts_by_id
    (fuel : nat) (c : Company.t) (s : LocalStorage.t) (wb : WorkBook) (rows : WorkSheet) :
  (1 <= fuel)%nat ->
  listed wb -> holds s wb ->
  Sheets wb !! "公司信息" = Some (company_header :: rows) ->
  text_ids rows = true ->
  company_wf c = true ->
  exists s',
    ExcelService.saveCompany fuel fetchWorkbook c s = (Return tt, s')
    /\ ExcelService.getCompanies fuel fetchWorkbook s = (Return (companies_of rows), s)
    /\ ExcelService.getCompanies fuel fetchWorkbook s'
       = (Return
            (replace_or_append
               (fun c' => strict_eq (Company.id c') (Company.id c)) c (companies_of rows)),
          s').
Proof. apply saveCompany_then_list. Qed.

End UpsertCompany.

(** Saving the second sample company again, as the default, over the
    two sample companies. *)
Lemma saveCompany_upserts_by_id_sample :
  exists s',
    ExcelService.saveCompany 1 Reference.no_fetch (set_default "c2" other_company)
      (Reference.storage_of two_companies) = (Return tt, s')
    /\ ExcelService.getCompanies 1 Reference.no_fetch (Reference.storage_of two_companies)
       = (Return (companies_of two_company_rows), Reference.storage_of two_companies)
    /\ ExcelService.getCompanies 1 Reference.no_fetch s'
       = (Return
            (replace_or_append
               (fun c' => strict_eq (Company.id c')
                            (Company.id (set_default "c2" other_company)))
               (set_default "c2" other_company) (companies_of two_company_rows)),
          s').
Proof.
  apply (saveCompany_upserts_by_id (laws := reference_codec_laws) Reference.no_fetch 1
           (set_default "c2" other_company) (Reference.storage_of two_companies)
           two_companies two_company_rows).
  - lia.
  - apply two_companies_listed.
  - apply storage_of_holds.
  - reflexivity.
  - reflexivity.
  - reflexivity.
Defined.

Section UpsertProduct.

Context {codec : XLSX.Codec} {laws : XLSX.CodecLaws codec}.
Context {J : JSONLib} {JL : JSONLaws J}.
Variable fetchWorkbook : string -> option WorkBook.

Lemma saveProduct_run fuel s wb data (p : Product.t json) :
  (1 <= fuel)%nat ->
  listed wb -> holds s wb -> Sheets wb !! "产品库" = Some data ->
  ExcelService.saveProduct fuel fetchWorkbook p s
  = (Return tt,
     persisted
       (assign_sheet wb "产品库"
          (ExcelService.upsert data (Product.id p) (ExcelService.product_row p))) s).
Proof.
  intros Hfuel Hlisted Hholds Hsheet. unfold ExcelService.saveProduct.
  rewrite (bind_return _ _ _ _ _
             (readFromLocalStorage_holds fuel fetchWorkbook Hfuel s wb Hlisted Hholds)).
  rewrite Hsheet. apply saveToLocalStorage_run.
Qed.

Lemma product_ids_agree (p : Product.t json) (rows : WorkSheet) :
  text_ids rows = true ->
  Forall (fun row =>
            strict_eq (Product.id (ExcelService.product_of_row product_header row))
                      (Product.id p)
            = has_id (Product.id p) row) rows.
Proof.
  induction rows as [| row rows IH]; intros Htext; [constructor |].
  apply text_ids_cons in Htext as [[x Hx] Htext].
  constructor; [| apply IH; exact Htext].
  unfold has_id. rewrite (product_id_of_row row x Hx), Hx. reflexivity.
Qed.

(** What comes back of a saved product: the product with empty
    specifications. *)
Lemma product_read_back (p : Product.t json) :
  product_wf p ->
  ExcelService.product_of_row product_header (ExcelService.product_row p)
  = without_specifications p.
Proof.
  intros Hwf. pose proof (product_round_trip p Hwf) as Hround.
  pose proof (product_of_row_specifications product_header (ExcelService.product_row p))
    as Hspec.
  destruct (ExcelService.product_of_row product_header (ExcelService.product_row p))
    as [f0 f1 f2 f3 f4 f5 f6 mn mx cur sp act img].
  simpl in Hspec. subst sp. rewrite <- Hround. reflexivity.
Qed.

Lemma saveProduct_then_list
    (fuel : nat) (p : Product.t json) (s : LocalStorage.t) (wb : WorkBook)
    (rows : WorkSheet) :
  (1 <= fuel)%nat ->
  listed wb -> holds s wb ->
  Sheets wb !! "产品库" = Some (product_header :: rows) ->
  text_ids rows = true ->
  product_wf p ->
  exists s',
    ExcelService.saveProduct fuel fetchWorkbook p s = (Return tt, s')
    /\ ExcelService.getProducts fuel fetchWorkbook s
       = (Return (map (ExcelService.product_of_row product_header) rows), s)
    /\ ExcelService.getProducts fuel fetchWorkbook s'
       = (Return
            (replace_or_append
               (fun p' => strict_eq (Product.id p') (Product.id p))
               (without_specifications p)
               (map (ExcelService.product_of_row product_header) rows)),
          s').
Proof.
  intros Hfuel Hlisted Hholds Hsheet Htext Hwf.
  eexists. split; [| split].
  - apply (saveProduct_run fuel s wb _ p Hfuel Hlisted Hholds Hsheet).
  - apply (getProducts_run fuel fetchWorkbook Hfuel s wb rows Hlisted Hholds Hsheet).
  - rewrite upsert_replace_or_append.
    erewrite getProducts_run;
      [| exact Hfuel
       | apply assign_listed; [exact Hlisted | rewrite Hsheet; eauto]
       | apply holds_persisted
       | apply lookup_assign].
    rewrite (map_replace_or_append _ _
               (fun p' => strict_eq (Product.id p') (Product.id p)))
      by (apply product_ids_agree; exact Htext).
    rewrite (product_read_back p Hwf). reflexivity.
Qed.

(** X2. On a store whose product sheet has the canonical header and
    text ids, [saveProduct(p)] of a well-formed product replaces, in
    the list that [getProducts] returns, the first product with the id
    of [p], in place, or adds one at the end; what is listed for [p] is
    [p] with empty specifications, and the other products and their
    order are as before. *)
Theorem saveProduct_upserts_by_id
    (fuel : nat) (p : Product.t json) (s : LocalStorage.t) (wb : WorkBook)
    (rows : WorkSheet) :
  (1 <= fuel)%nat ->
  listed wb -> holds s wb ->
  Sheets wb !! "产品库" = Some (product_header :: rows) ->
  text_ids rows = true ->
  product_wf p ->
  exists s',
    ExcelService.saveProduct fuel fetchWorkbook p s = (Return tt, s')
    /\ ExcelService.getProducts fuel fetchWorkbook s
       = (Return (map (ExcelService.product_of_row product_header) rows), s)
    /\ ExcelService.getProducts fuel fetchWorkbook s'
       = (Return
            (replace_or_append
               (fun p' => strict_eq (Product.id p') (Product.id p))
               (without_specifications p)
               (map (ExcelService.product_of_row product_header) rows)),
          s').
Proof. apply saveProduct_then_list. Qed.

End UpsertProduct.

Lemma sample_product_wf : product_wf (J := Reference.JSON) sample_product.
Proof.
  unfold product_wf.
  split; [reflexivity |]. split; [reflexivity |]. split; [reflexivity |].
  split; [reflexivity |]. exists ["a.png"; "b.png"]. reflexivity.
Qed.

(** Saving the sample product into the fresh workbook. *)
Lemma saveProduct_upserts_by_id_sample :
  exists s',
    ExcelService.saveProduct (J := Reference.JSON) 1 Reference.no_fetch sample_product
      (Reference.storage_of ExcelService.initial_workbook) = (Return tt, s')
    /\ ExcelService.getProducts (J := Reference.JSON) 1 Reference.no_fetch
         (Reference.storage_of ExcelService.initial_workbook)
       = (Return (map (ExcelService.product_of_row product_header) []),
          Reference.storage_of ExcelService.initial_workbook)
    /\ ExcelService.getProducts (J := Reference.JSON) 1 Reference.no_fetch s'
       = (Return
            (replace_or_append
               (fun p' => strict_eq (Product.id p') (Product.id sample_product))
               (without_specifications (J := Reference.JSON) sample_product)
               (map (ExcelService.product_of_row product_header) [])),
          s').
Proof.
  apply (saveProduct_upserts_by_id (laws := reference_codec_laws)
           (JL := reference_json_laws) Reference.no_fetch 1 sample_product
           (Reference.storage_of ExcelService.initial_workbook)
           ExcelService.initial_workbook []).
  - lia.
  - apply initial_listed.
  - apply storage_of_holds.
  - reflexivity.
  - reflexivity.
  - apply sample_product_wf.
Defined.

(** ** Customers: save, then look up *)

Section Customers.

Context {codec : XLSX.Codec} {laws : XLSX.CodecLaws codec}.
Variable fetchWorkbook : string -> option WorkBook.

Lemma customer_id_cell (row : list value) :
  ExcelService.cell customer_header row "ID" = at_ row 0.
Proof. unfold ExcelService.cell, customer_header. locate_columns. reflexivity. Qed.

Lemma strict_eq_text_inv (x : value) (a : string) :
  strict_eq x (VString a) = true -> x = VString a.
Proof.
  destruct x as [| b | n | t]; try discriminate. simpl.
  intros H. apply bool_decide_eq_true in H. congruence.
Qed.

Lemma saveCustomer_run fuel s wb data (c : Customer.t) :
  (1 <= fuel)%nat ->
  listed wb -> holds s wb -> Sheets wb !! "客户信息" = Some data ->
  ExcelService.saveCustomer fuel fetchWorkbook c s
  = (Return tt,
     persisted
       (assign_sheet wb "客户信息"
          (ExcelService.upsert data (VString (Customer.id c))
             (ExcelService.customer_row c))) s).
Proof.
  intros Hfuel Hlisted Hholds Hsheet. unfold ExcelService.saveCustomer.
  rewrite (bind_return _ _ _ _ _
             (readFromLocalStorage_holds fuel fetchWorkbook Hfuel s wb Hlisted Hholds)).
  unfold ExcelService.sheet_or_new. rewrite Hsheet. apply saveToLocalStorage_run.
Qed.

Lemma getCustomerById_run fuel s wb rows (customerId : string) :
  (1 <= fuel)%nat ->
  listed wb -> holds s wb ->
  Sheets wb !! "客户信息" = Some (customer_header :: rows) ->
  ExcelService.getCustomerById fuel fetchWorkbook customerId s
  = (Return (ExcelService.find_customer customer_header rows customerId), s).
Proof.
  intros Hfuel Hlisted Hholds Hsheet. unfold ExcelService.getCustomerById.
  rewrite (bind_return _ _ _ _ _
             (readFromLocalStorage_holds fuel fetchWorkbook Hfuel s wb Hlisted Hholds)).
  rewrite Hsheet. destruct rows as [| r rows]; reflexivity.
Qed.

(** The saved customer is the first one found under its id. *)
Lemma find_customer_saved (c : Customer.t) (rows : WorkSheet) :
  ExcelService.find_customer customer_header
    (replace_or_append (has_id (VString (Customer.id c))) (ExcelService.customer_row c) rows)
    (Customer.id c)
  = Some c.
Proof.
  assert (Hnew : ExcelService.find_customer customer_header
                   (ExcelService.customer_row c :: []) (Customer.id c) = Some c).
  { cbn [ExcelService.find_customer]. rewrite customer_id_cell.
    change (at_ (ExcelService.customer_row c) 0) with (VString (Customer.id c)).
    rewrite strict_eq_text, bool_decide_eq_true_2 by reflexivity.
    rewrite customer_round_trip. reflexivity. }
  induction rows as [| r rows IH]; [exact Hnew |].
  cbn [replace_or_append]. destruct (has_id (VString (Customer.id c)) r) eqn:Hr.
  - cbn [ExcelService.find_customer]. rewrite customer_id_cell.
    change (at_ (ExcelService.customer_row c) 0) with (VString (Customer.id c)).
    rewrite strict_eq_text, bool_decide_eq_true_2 by reflexivity.
    rewrite customer_round_trip. reflexivity.
  - cbn [ExcelService.find_customer]. rewrite customer_id_cell.
    unfold has_id in Hr. rewrite Hr. exact IH.
Qed.

(** The customers under other ids are found as before. *)
Lemma find_customer_others (c : Customer.t) (rows : WorkSheet) (other : string) :
  other <> Customer.id c ->
  ExcelService.find_customer customer_header
    (replace_or_append (has_id (VString (Customer.id c))) (ExcelService.customer_row c) rows)
    other
  = ExcelService.find_customer customer_header rows other.
Proof.
  intros Hother.
  assert (Hnew : strict_eq (at_ (ExcelService.customer_row c) 0) (VString other) = false).
  { change (at_ (ExcelService.customer_row c) 0) with (VString (Customer.id c)).
    rewrite strict_eq_text. apply bool_decide_eq_false. congruence. }
  induction rows as [| r rows IH].
  - cbn [replace_or_append ExcelService.find_customer].
    rewrite customer_id_cell, Hnew. reflexivity.
  - cbn [replace_or_append]. destruct (has_id (VString (Customer.id c)) r) eqn:Hr.
    + cbn [ExcelService.find_customer]. rewrite !customer_id_cell, Hnew.
      unfold has_id in Hr. apply strict_eq_text_inv in Hr. rewrite Hr.
      rewrite strict_eq_text, bool_decide_eq_false_2 by congruence. reflexivity.
    + cbn [ExcelService.find_customer]. rewrite IH. reflexivity.
Qed.

Lemma saveCustomer_then_find
    (fuel : nat) (c : Customer.t) (s : LocalStorage.t) (wb : WorkBook) (rows : WorkSheet) :
  (1 <= fuel)%nat ->
  listed wb -> holds s wb ->
  Sheets wb !! "客户信息" = Some (customer_header :: rows) ->
  exists s',
    ExcelService.saveCustomer fuel fetchWorkbook c s = (Return tt, s')
    /\ ExcelService.getCustomerById fuel fetchWorkbook (Customer.id c) s'
       = (Return (Some c), s')
    /\ forall other, other <> Customer.id c ->
         fst (ExcelService.getCustomerById fuel fetchWorkbook other s')
         = fst (ExcelService.getCustomerById fuel fetchWorkbook other s).
Proof.
  intros Hfuel Hlisted Hholds Hsheet.
  assert (Hlisted' :
            listed (assign_sheet wb "客户信息"
                      (customer_header
                       :: replace_or_append (has_id (VString (Customer.id c)))
                            (ExcelService.customer_row c) rows))).
  { apply assign_listed; [exact Hlisted | rewrite Hsheet; eauto]. }
  eexists. split; [| split].
  - apply (saveCustomer_run fuel s wb _ c Hfuel Hlisted Hholds Hsheet).
  - rewrite upsert_replace_or_append.
    erewrite getCustomerById_run;
      [| exact Hfuel | exact Hlisted' | apply holds_persisted | apply lookup_assign].
    rewrite find_customer_saved. reflexivity.
  - intros other Hother. rewrite upsert_replace_or_append.
    erewrite getCustomerById_run;
      [| exact Hfuel | exact Hlisted' | apply holds_persisted | apply lookup_assign].
    rewrite (getCustomerById_run fuel s wb rows other Hfuel Hlisted Hholds Hsheet).
    simpl. rewrite (find_customer_others c rows other Hother). reflexivity.
Qed.

(** X3. On a store whose customer sheet has the canonical header,
    whatever its rows, [saveCustomer(c)] makes [getCustomerById(c.id)]
    return [c], and [getCustomerById] of every other id returns what it
    returned before the save. *)
Theorem saveCustomer_then_getCustomerById
    (fuel : nat) (c : Customer.t) (s : LocalStorage.t) (wb : WorkBook) (rows : WorkSheet) :
  (1 <= fuel)%nat ->
  listed wb -> holds s wb ->
  Sheets wb !! "客户信息" = Some (customer_header :: rows) ->
  exists s',
    ExcelService.saveCustomer fuel fetchWorkbook c s = (Return tt, s')
    /\ ExcelService.getCustomerById fuel fetchWorkbook (Customer.id c) s'
       = (Return (Some c), s')
    /\ forall other, other <> Customer.id c ->
         fst (ExcelService.getCustomerById fuel fetchWorkbook other s')
         = fst (ExcelService.getCustomerById fuel fetchWorkbook other s).
Proof. apply saveCustomer_then_find. Qed.

End Customers.

(** Saving the sample customer into the fresh workbook. *)
Lemma saveCustomer_then_getCustomerById_sample :
  exists s',
    ExcelService.saveCustomer 1 Reference.no_fetch sample_customer
      (Reference.storage_of ExcelService.initial_workbook) = (Return tt, s')
    /\ ExcelService.getCustomerById 1 Reference.no_fetch (Customer.id sample_customer) s'
       = (Return (Some sample_customer), s')
    /\ forall other, other <> Customer.id sample_customer ->
         fst (ExcelService.getCustomerById 1 Reference.no_fetch other s')
         = fst (ExcelService.getCustomerById 1 Reference.no_fetch other
                  (Reference.storage_of ExcelService.initial_workbook)).
Proof.
  apply (saveCustomer_then_getCustomerById (laws := reference_codec_laws)
           Reference.no_fetch 1 sample_customer
           (Reference.storage_of ExcelService.initial_workbook)
           ExcelService.initial_workbook []).
  - lia.
  - apply initial_listed.
  - apply storage_of_holds.
  - reflexivity.
Defined.

(** ** Saving a quotation: the quotation list and the other items *)

Section QuotationList.

Context {codec : XLSX.Codec} {laws : XLSX.CodecLaws codec}.
Variable fetchWorkbook : string -> option WorkBook.

Lemma getQuotations_run fuel s wb rows :
  (1 <= fuel)%nat ->
  listed wb -> holds s wb ->
  Sheets wb !! "报价单" = Some (quotation_header :: rows) ->
  ExcelService.getQuotations fuel fetchWorkbook s
  = (Return (map (ExcelService.quotation_of_row quotation_header) rows), s).
Proof.
  intros Hfuel Hlisted Hholds Hsheet. unfold ExcelService.getQuotations.
  rewrite (bind_return _ _ _ _ _
             (readFromLocalStorage_holds fuel fetchWorkbook Hfuel s wb Hlisted Hholds)).
  rewrite Hsheet. destruct rows as [| r rows]; reflexivity.
Qed.

Lemma quotation_id_of_row (row : list value) (x : string) :
  at_ row 0 = VString x ->
  Quotation.id (ExcelService.quotation_of_row quotation_header row) = x.
Proof.
  intros H. unfold ExcelService.quotation_of_row, ExcelService.cell, quotation_header.
  locate_columns. simpl Quotation.id. rewrite H.
  destruct x; reflexivity.
Qed.

Lemma quotation_ids_agree (q : Quotation.t) (rows : WorkSheet) :
  text_ids rows = true ->
  Forall (fun row =>
            bool_decide
              (Quotation.id (ExcelService.quotation_of_row quotation_header row)
               = Quotation.id q)
            = has_id (VString (Quotation.id q)) row) rows.
Proof.
  induction rows as [| row rows IH]; intros Htext; [constructor |].
  apply text_ids_cons in Htext as [[x Hx] Htext].
  constructor; [| apply IH; exact Htext].
  unfold has_id. rewrite (quotation_id_of_row row x Hx), Hx. reflexivity.
Qed.

(** The workbook after [saveQuotation] is listed when the one before was. *)
Lemma saved_quotation_listed wb dataQ dataQ' items items' :
  listed wb ->
  Sheets wb !! "报价单" = Some dataQ ->
  Sheets wb !! "报价单项" = Some items ->
  listed (assign_sheet (assign_sheet wb "报价单" dataQ') "报价单项" items').
Proof.
  intros Hlisted HQ Hitems.
  apply assign_listed.
  - apply assign_listed; [exact Hlisted | rewrite HQ; eauto].
  - rewrite lookup_assign_ne by discriminate. rewrite Hitems. eauto.
Qed.

Lemma saveQuotation_then_list
    (fuel : nat) (q : Quotation.t) (s : LocalStorage.t) (wb : WorkBook)
    (rowsQ : WorkSheet) (header : list value) (rows : WorkSheet) :
  (1 <= fuel)%nat ->
  listed wb -> holds s wb ->
  Sheets wb !! "报价单" = Some (quotation_header :: rowsQ) ->
  Sheets wb !! "报价单项" = Some (header :: rows) ->
  text_ids rowsQ = true ->
  quotation_wf q = true ->
  exists s',
    ExcelService.saveQuotation fuel fetchWorkbook q s = (Return tt, s')
    /\ ExcelService.getQuotations fuel fetchWorkbook s'
       = (Return
            (replace_or_append
               (fun q' => bool_decide (Quotation.id q' = Quotation.id q))
               (with_items [] q)
               (map (ExcelService.quotation_of_row quotation_header) rowsQ)),
          s').
Proof.
  intros Hfuel Hlisted Hholds HQ Hitems Htext Hwf.
  eexists. split.
  - apply (saveQuotation_run fuel fetchWorkbook Hfuel s wb _ header rows q
             Hlisted Hholds HQ Hitems).
  - rewrite upsert_replace_or_append.
    erewrite getQuotations_run;
      [| exact Hfuel
       | eapply saved_quotation_listed; [exact Hlisted | exact HQ | exact Hitems]
       | apply holds_persisted
       | rewrite lookup_assign_ne by discriminate; apply lookup_assign].
    rewrite (map_replace_or_append _ _
               (fun q' => bool_decide (Quotation.id q' = Quotation.id q)))
      by (apply quotation_ids_agree; exact Htext).
    rewrite (quotation_round_trip q Hwf). reflexivity.
Qed.

(** X4. On a store whose quotation sheet has the canonical header and
    text ids, and whose item sheet has a header row, [saveQuotation(q)]
    of a quotation whose numbers are not NaN and whose currency and
    status are not empty replaces, in the list that [getQuotations]
    returns, the first quotation with the id of [q] by [q] without its
    items, in place, or adds it at the end. *)
Theorem saveQuotation_upserts_by_id
    (fuel : nat) (q : Quotation.t) (s : LocalStorage.t) (wb : WorkBook)
    (rowsQ : WorkSheet) (header : list value) (rows : WorkSheet) :
  (1 <= fuel)%nat ->
  listed wb -> holds s wb ->
  Sheets wb !! "报价单" = Some (quotation_header :: rowsQ) ->
  Sheets wb !! "报价单项" = Some (header :: rows) ->
  text_ids rowsQ = true ->
  quotation_wf q = true ->
  exists s',
    ExcelService.saveQuotation fuel fetchWorkbook q s = (Return tt, s')
    /\ ExcelService.getQuotations fuel fetchWorkbook s'
       = (Return
            (replace_or_append
               (fun q' => bool_decide (Quotation.id q' = Quotation.id q))
               (with_items [] q)
               (map (ExcelService.quotation_of_row quotation_header) rowsQ)),
          s').
Proof. apply saveQuotation_then_list. Qed.

Lemma filter_filter_implied {A} (f g : A -> bool) (l : list A) :
  (forall x, f x = true -> g x = true) ->
  List.filter f (List.filter g l) = List.filter f l.
Proof.
  intros Himp. induction l as [| a l IH]; [reflexivity |].
  simpl. destruct (g a) eqn:Hg; simpl.
  - rewrite IH. reflexivity.
  - destruct (f a) eqn:Hf; [| exact IH].
    rewrite (Himp a Hf) in Hg. discriminate.
Qed.

Lemma filter_none {A} (f : A -> bool) (l : list A) :
  Forall (fun x => f x = false) l -> List.filter f l = [].
Proof.
  induction 1 as [| a l Ha _ IH]; [reflexivity |]. simpl. rewrite Ha. exact IH.
Qed.

Lemma saveQuotation_other_items
    (fuel : nat) (q : Quotation.t) (s : LocalStorage.t) (wb : WorkBook)
    (dataQ rows : WorkSheet) (other : string) :
  (1 <= fuel)%nat ->
  listed wb -> holds s wb ->
  Sheets wb !! "报价单" = Some dataQ ->
  Sheets wb !! "报价单项" = Some (item_header :: rows) ->
  other <> Quotation.id q ->
  exists s',
    ExcelService.saveQuotation fuel fetchWorkbook q s = (Return tt, s')
    /\ fst (ExcelService.getQuotationItemsByQuotationId fuel fetchWorkbook other s')
       = fst (ExcelService.getQuotationItemsByQuotationId fuel fetchWorkbook other s).
Proof.
  intros Hfuel Hlisted Hholds HQ Hitems Hother.
  eexists. split.
  - apply (saveQuotation_run fuel fetchWorkbook Hfuel s wb dataQ item_header rows q
             Hlisted Hholds HQ Hitems).
  - erewrite getQuotationItems_run;
      [| exact Hfuel
       | eapply saved_quotation_listed; [exact Hlisted | exact HQ | exact Hitems]
       | apply holds_persisted
       | apply lookup_assign].
    rewrite (getQuotationItems_run fuel fetchWorkbook Hfuel s wb rows other
               Hlisted Hholds Hitems).
    simpl fst. f_equal. f_equal.
    change (indexOf item_header (VString "报价单ID")) with 1.
    rewrite List.filter_app.
    rewrite filter_filter_implied.
    + rewrite (filter_none _ (map _ _)); [apply app_nil_r |].
      apply Forall_map, Forall_forall. intros item _.
      unfold ExcelService.other_quotation. read_cells. simpl ToString.
      rewrite negb_involutive. apply bool_decide_eq_false. congruence.
    + intros row Hrow. unfold ExcelService.other_quotation in *.
      rewrite negb_involutive in Hrow. apply bool_decide_eq_true in Hrow.
      apply negb_true_iff, bool_decide_eq_false. congruence.
Qed.

(** X5. [saveQuotation(q)] leaves the items of every other quotation
    as they were: on a store with a quotation sheet and an item sheet
    under the canonical item header, [getQuotationItemsByQuotationId]
    of an id other than [q.id] returns after the save what it returned
    before. *)
Theorem saveQuotation_keeps_other_items
    (fuel : nat) (q : Quotation.t) (s : LocalStorage.t) (wb : WorkBook)
    (dataQ rows : WorkSheet) (other : string) :
  (1 <= fuel)%nat ->
  listed wb -> holds s wb ->
  Sheets wb !! "报价单" = Some dataQ ->
  Sheets wb !! "报价单项" = Some (item_header :: rows) ->
  other <> Quotation.id q ->
  exists s',
    ExcelService.saveQuotation fuel fetchWorkbook q s = (Return tt, s')
    /\ fst (ExcelService.getQuotationItemsByQuotationId fuel fetchWorkbook other s')
       = fst (ExcelService.getQuotationItemsByQuotationId fuel fetchWorkbook other s).
Proof. apply saveQuotation_other_items. Qed.

End QuotationList.

(** Saving the sample quotation over the items stored earlier: it is
    then the one quotation listed. *)
Lemma saveQuotation_upserts_by_id_sample :
  exists s',
    ExcelService.saveQuotation 1 Reference.no_fetch sample_quotation
      (Reference.storage_of with_older_items) = (Return tt, s')
    /\ ExcelService.getQuotations 1 Reference.no_fetch s'
       = (Return
            (replace_or_append
               (fun q' => bool_decide (Quotation.id q' = Quotation.id sample_quotation))
               (with_items [] sample_quotation)
               (map (ExcelService.quotation_of_row quotation_header) [])),
          s').
Proof.
  apply (saveQuotation_upserts_by_id (laws := reference_codec_laws) Reference.no_fetch
           1 sample_quotation (Reference.storage_of with_older_items) with_older_items
           [] item_header older_item_rows).
  - lia.
  - apply with_older_items_listed.
  - apply storage_of_holds.
  - reflexivity.
  - reflexivity.
  - reflexivity.
  - reflexivity.
Defined.

(** The item stored earlier under [q2] is still there after the sample
    quotation, [q1], is saved. *)
Lemma saveQuotation_keeps_other_items_sample :
  exists s',
    ExcelService.saveQuotation 1 Reference.no_fetch sample_quotation
      (Reference.storage_of with_older_items) = (Return tt, s')
    /\ fst (ExcelService.getQuotationItemsByQuotationId 1 Reference.no_fetch "q2" s')
       = fst (ExcelService.getQuotationItemsByQuotationId 1 Reference.no_fetch "q2"
                (Reference.storage_of with_older_items)).
Proof.
  apply (saveQuotation_keeps_other_items (laws := reference_codec_laws) Reference.no_fetch
           1 sample_quotation (Reference.storage_of with_older_items) with_older_items
           [quotation_header] older_item_rows "q2").
  - lia.
  - apply with_older_items_listed.
  - apply storage_of_holds.
  - reflexivity.
  - reflexivity.
  - discriminate.
Defined.

(** ** A backing value that is no workbook *)

Section Unparseable.

Context {codec : XLSX.Codec} {laws : XLSX.CodecLaws codec} {J : JSONLib}.
Variable fetchWorkbook : string -> option WorkBook.

Lemma text_truthy (text : string) : text <> EmptyString -> truthy (VString text) = true.
Proof.
  intros H. simpl. destruct (bool_decide_reflect (text = EmptyString)); [contradiction |].
  reflexivity.
Qed.

Lemma read_unparseable fuel s text :
  (1 <= fuel)%nat ->
  backing s = Some text -> text <> EmptyString -> startsWith "blob:" text = false ->
  read text = None ->
  ExcelService.readFromLocalStorage fuel fetchWorkbook s = (Return None, s).
Proof.
  intros Hfuel Hback Htext Hblob Hread. unfold ExcelService.readFromLocalStorage.
  destruct fuel as [| n]; [lia |].
  rewrite (read_present fetchWorkbook n s text Hback (text_truthy text Htext) Hblob).
  rewrite Hread. reflexivity.
Qed.

Lemma unparseable_reads fuel s text (id : string) :
  (1 <= fuel)%nat ->
  backing s = Some text -> text <> EmptyString -> startsWith "blob:" text = false ->
  read text = None ->
  ExcelService.getCompanies fuel fetchWorkbook s = (Return [], s)
  /\ ExcelService.getProducts fuel fetchWorkbook s = (Return [], s)
  /\ ExcelService.getQuotations fuel fetchWorkbook s = (Return [], s)
  /\ ExcelService.getQuotationItemsByQuotationId fuel fetchWorkbook id s = (Return [], s)
  /\ ExcelService.getCustomerById fuel fetchWorkbook id s = (Return None, s).
Proof.
  intros Hfuel Hback Htext Hblob Hread.
  pose proof (read_unparseable fuel s text Hfuel Hback Htext Hblob Hread) as Hnull.
  unfold ExcelService.getCompanies, ExcelService.getProducts, ExcelService.getQuotations,
    ExcelService.getQuotationItemsByQuotationId, ExcelService.getCustomerById.
  rewrite !(bind_return _ _ _ _ _ Hnull).
  split; [reflexivity |]. split; [reflexivity |]. split; [reflexivity |].
  split; reflexivity.
Qed.

Lemma unparseable_saves fuel s text
    (c : Company.t) (p : Product.t json) (q : Quotation.t) (k : Customer.t) :
  (1 <= fuel)%nat ->
  backing s = Some text -> text <> EmptyString -> startsWith "blob:" text = false ->
  read text = None ->
  ExcelService.saveCompany fuel fetchWorkbook c s = (Throw (Error "无法读取Excel文件"), s)
  /\ ExcelService.saveProduct fuel fetchWorkbook p s = (Throw (Error "无法读取Excel文件"), s)
  /\ ExcelService.saveQuotation fuel fetchWorkbook q s = (Throw (Error "无法读取Excel文件"), s)
  /\ ExcelService.saveCustomer fuel fetchWorkbook k s = (Throw (Error "无法读取Excel文件"), s).
Proof.
  intros Hfuel Hback Htext Hblob Hread.
  pose proof (read_unparseable fuel s text Hfuel Hback Htext Hblob Hread) as Hnull.
  unfold ExcelService.saveCompany, ExcelService.saveProduct, ExcelService.saveQuotation,
    ExcelService.saveCustomer.
  rewrite !(bind_return _ _ _ _ _ Hnull).
  split; [reflexivity |]. split; [reflexivity |]. split; reflexivity.
Qed.

(** X6. When the user's backing value is text that is not empty, is no
    [blob:] URL and is rejected by [XLSX.read], every getter answers as
    for an empty store: [getCompanies], [getProducts], [getQuotations]
    and [getQuotationItemsByQuotationId] return the empty list and
    [getCustomerById] returns null; none throws and none changes
    localStorage. *)
Theorem getters_on_unparseable_text fuel s text (id : string) :
  (1 <= fuel)%nat ->
  backing s = Some text -> text <> EmptyString -> startsWith "blob:" text = false ->
  read text = None ->
  ExcelService.getCompanies fuel fetchWorkbook s = (Return [], s)
  /\ ExcelService.getProducts fuel fetchWorkbook s = (Return [], s)
  /\ ExcelService.getQuotations fuel fetchWorkbook s = (Return [], s)
  /\ ExcelService.getQuotationItemsByQuotationId fuel fetchWorkbook id s = (Return [], s)
  /\ ExcelService.getCustomerById fuel fetchWorkbook id s = (Return None, s).
Proof. apply unparseable_reads. Qed.

(** X7. On the same kind of backing value the four save functions,
    [saveCompany], [saveProduct], [saveQuotation] and [saveCustomer],
    throw the error with the message of the source and leave
    localStorage as it was: the text is not overwritten. *)
Theorem saves_on_unparseable_text fuel s text
    (c : Company.t) (p : Product.t json) (q : Quotation.t) (k : Customer.t) :
  (1 <= fuel)%nat ->
  backing s = Some text -> text <> EmptyString -> startsWith "blob:" text = false ->
  read text = None ->
  ExcelService.saveCompany fuel fetchWorkbook c s = (Throw (Error "无法读取Excel文件"), s)
  /\ ExcelService.saveProduct fuel fetchWorkbook p s = (Throw (Error "无法读取Excel文件"), s)
  /\ ExcelService.saveQuotation fuel fetchWorkbook q s = (Throw (Error "无法读取Excel文件"), s)
  /\ ExcelService.saveCustomer fuel fetchWorkbook k s = (Throw (Error "无法读取Excel文件"), s).
Proof. apply unparseable_saves. Qed.

End Unparseable.

(** The getters on the store that holds text that is no workbook. *)
Lemma getters_on_unparseable_text_sample :
  ExcelService.getCompanies 1 Reference.no_fetch Reference.corrupt_storage
  = (Return [], Reference.corrupt_storage)
  /\ ExcelService.getProducts (J := Reference.JSON) 1 Reference.no_fetch
       Reference.corrupt_storage
     = (Return [], Reference.corrupt_storage)
  /\ ExcelService.getQuotations 1 Reference.no_fetch Reference.corrupt_storage
     = (Return [], Reference.corrupt_storage)
  /\ ExcelService.getQuotationItemsByQuotationId 1 Reference.no_fetch "q1"
       Reference.corrupt_storage
     = (Return [], Reference.corrupt_storage)
  /\ ExcelService.getCustomerById 1 Reference.no_fetch "q1" Reference.corrupt_storage
     = (Return None, Reference.corrupt_storage).
Proof.
  apply (getters_on_unparseable_text (J := Reference.JSON)
           Reference.no_fetch 1 Reference.corrupt_storage "UEsDBgarbage" "q1").
  - lia.
  - reflexivity.
  - discriminate.
  - reflexivity.
  - reflexivity.
Defined.

(** The saves on the store that holds text that is no workbook. *)
Lemma saves_on_unparseable_text_sample :
  ExcelService.saveCompany 1 Reference.no_fetch sample_company Reference.corrupt_storage
  = (Throw (Error "无法读取Excel文件"), Reference.corrupt_storage)
  /\ ExcelService.saveProduct (J := Reference.JSON) 1 Reference.no_fetch sample_product
       Reference.corrupt_storage
     = (Throw (Error "无法读取Excel文件"), Reference.corrupt_storage)
  /\ ExcelService.saveQuotation 1 Reference.no_fetch sample_quotation
       Reference.corrupt_storage
     = (Throw (Error "无法读取Excel文件"), Reference.corrupt_storage)
  /\ ExcelService.saveCustomer 1 Reference.no_fetch sample_customer
       Reference.corrupt_storage
     = (Throw (Error "无法读取Excel文件"), Reference.corrupt_storage).
Proof.
  apply (saves_on_unparseable_text (J := Reference.JSON)
           Reference.no_fetch 1 Reference.corrupt_storage "UEsDBgarbage").
  - lia.
  - reflexivity.
  - discriminate.
  - reflexivity.
  - reflexivity.
Defined.

(** ** The first use of a store *)

Section FirstUse.

Context {codec : XLSX.Codec} {laws : XLSX.CodecLaws codec}.
Variable fetchWorkbook : string -> option WorkBook.

Lemma read_absent fuel s :
  (2 <= fuel)%nat -> backing s = None ->
  ExcelService.readFromLocalStorage fuel fetchWorkbook s
  = (Return (Some ExcelService.initial_workbook),
     persisted ExcelService.initial_workbook s).
Proof.
  intros Hfuel Hback. unfold ExcelService.readFromLocalStorage.
  destruct fuel as [| [| n]]; try lia.
  rewrite readFromLocalStorage_unfold, Hback. reflexivity.
Qed.

Lemma initial_company_sheet :
  Sheets ExcelService.initial_workbook !! "公司信息" = Some [company_header].
Proof. reflexivity. Qed.

Lemma first_use fuel (c : Company.t) (s : LocalStorage.t) :
  (2 <= fuel)%nat -> backing s = None -> company_wf c = true ->
  ExcelService.getCompanies fuel fetchWorkbook s
  = (Return [], persisted ExcelService.initial_workbook s)
  /\ exists s',
       ExcelService.saveCompany fuel fetchWorkbook c s = (Return tt, s')
       /\ ExcelService.getCompanies fuel fetchWorkbook s' = (Return [c], s')
       /\ LocalStorage.writes s'
          = (LocalStorage.writes s
             ++ [ (key_of s, write ExcelService.initial_workbook);
                  (key_of s,
                   write (assign_sheet ExcelService.initial_workbook "公司信息"
                            [company_header; ExcelService.company_row c])) ])%list.
Proof.
  intros Hfuel Hback Hwf.
  pose proof (read_absent fuel s Hfuel Hback) as Hread.
  split.
  - unfold ExcelService.getCompanies.
    rewrite (bind_return _ _ _ _ _ Hread), initial_company_sheet. reflexivity.
  - eexists. split; [| split].
    + unfold ExcelService.saveCompany.
      rewrite (bind_return _ _ _ _ _ Hread), initial_company_sheet.
      unfold sheet_to_json, aoa_to_sheet.
      rewrite upsert_replace_or_append. cbn [replace_or_append].
      apply saveToLocalStorage_run.
    + erewrite getCompanies_run;
        [| lia
         | apply assign_listed;
           [apply initial_listed | rewrite initial_company_sheet; eauto]
         | apply holds_persisted
         | apply lookup_assign].
      unfold companies_of. cbn [map]. rewrite (company_round_trip c Hwf). reflexivity.
    + cbn [persisted LocalStorage.writes]. rewrite key_of_persisted.
      rewrite <- app_assoc. reflexivity.
Qed.

(** X8. On a store with no backing value for the user, with room for
    one retry of the read, [getCompanies] returns the empty list and
    leaves the fresh six-sheet workbook behind; [saveCompany(c)] of a
    company with text fields writes twice under the user's key, first
    the fresh workbook and then the workbook with the one row of [c],
    after which [getCompanies] returns exactly [c]. *)
Theorem first_use_initializes_then_saves fuel (c : Company.t) (s : LocalStorage.t) :
  (2 <= fuel)%nat -> backing s = None -> company_wf c = true ->
  ExcelService.getCompanies fuel fetchWorkbook s
  = (Return [], persisted ExcelService.initial_workbook s)
  /\ exists s',
       ExcelService.saveCompany fuel fetchWorkbook c s = (Return tt, s')
       /\ ExcelService.getCompanies fuel fetchWorkbook s' = (Return [c], s')
       /\ LocalStorage.writes s'
          = (LocalStorage.writes s
             ++ [ (key_of s, write ExcelService.initial_workbook);
                  (key_of s,
                   write (assign_sheet ExcelService.initial_workbook "公司信息"
                            [company_header; ExcelService.company_row c])) ])%list.
Proof. apply first_use. Qed.

End FirstUse.

(** The sample company saved into an empty localStorage. *)
Lemma first_use_initializes_then_saves_sample :
  ExcelService.getCompanies 2 Reference.no_fetch Reference.empty_storage
  = (Return [], persisted ExcelService.initial_workbook Reference.empty_storage)
  /\ exists s',
       ExcelService.saveCompany 2 Reference.no_fetch sample_company Reference.empty_storage
       = (Return tt, s')
       /\ ExcelService.getCompanies 2 Reference.no_fetch s' = (Return [sample_company], s')
       /\ LocalStorage.writes s'
          = (LocalStorage.writes Reference.empty_storage
             ++ [ (key_of Reference.empty_storage, write ExcelService.initial_workbook);
                  (key_of Reference.empty_storage,
                   write (assign_sheet ExcelService.initial_workbook "公司信息"
                            [company_header; ExcelService.company_row sample_company])) ])%list.
Proof.
  apply (first_use_initializes_then_saves (laws := reference_codec_laws)
           Reference.no_fetch 2 sample_company Reference.empty_storage).
  - lia.
  - reflexivity.
  - reflexivity.
Defined.

(** ** The keys that are written *)

Section OwnKey.

Context {codec : XLSX.Codec} {J : JSONLib}.
Variable fetchWorkbook : string -> option WorkBook.

Lemma same_elsewhere_refl s : same_elsewhere s s.
Proof. intros k _. reflexivity. Qed.

Lemma same_elsewhere_key s s' : same_elsewhere s s' -> key_of s' = key_of s.
Proof.
  intros H. unfold key_of. rewrite (H "qs_current_user"); [reflexivity |].
  intros E. symmetry in E. exact (key_of_not_user s E).
Qed.

Lemma same_elsewhere_trans s1 s2 s3 :
  same_elsewhere s1 s2 -> same_elsewhere s2 s3 -> same_elsewhere s1 s3.
Proof.
  intros H12 H23 k Hk. rewrite H23, H12; [reflexivity | exact Hk |].
  rewrite (same_elsewhere_key _ _ H12). exact Hk.
Qed.

Lemma own_ret {A} (a : A) : own_key_only (ret a).
Proof. intros s. apply same_elsewhere_refl. Qed.

Lemma own_throw {A} (e : exn) : own_key_only (A := A) (throw e).
Proof. intros s. apply same_elsewhere_refl. Qed.

Lemma own_bind {A B} (m : M LocalStorage.t A) (k : A -> M LocalStorage.t B) :
  own_key_only m -> (forall a, own_key_only (k a)) -> own_key_only (bind m k).
Proof.
  intros Hm Hk s. unfold bind. specialize (Hm s).
  destruct (m s) as [[a | e] s1]; simpl in Hm; [| exact Hm].
  apply (same_elsewhere_trans s s1); [exact Hm | apply Hk].
Qed.

Lemma own_try_catch {A} (m : M LocalStorage.t A) (h : exn -> M LocalStorage.t A) :
  own_key_only m -> (forall e, own_key_only (h e)) -> own_key_only (try_catch m h).
Proof.
  intros Hm Hh s. unfold try_catch. specialize (Hm s).
  destruct (m s) as [[a | [msg | msg |]] s1]; simpl in Hm; try exact Hm;
    (apply (same_elsewhere_trans s s1); [exact Hm | apply Hh]).
Qed.

Lemma own_getUserKey : own_key_only ExcelService.getUserKey.
Proof. intros s. apply same_elsewhere_refl. Qed.

Lemma own_getItem key : own_key_only (LocalStorage.getItem key).
Proof. intros s. apply same_elsewhere_refl. Qed.

Lemma same_elsewhere_persisted wb s : same_elsewhere s (persisted wb s).
Proof. intros k Hk. simpl. apply lookup_insert_ne. congruence. Qed.

Lemma own_saveToLocalStorage wb : own_key_only (ExcelService.saveToLocalStorage wb).
Proof. intros s. rewrite saveToLocalStorage_run. apply same_elsewhere_persisted. Qed.

Lemma own_initializeExcelFile : own_key_only ExcelService.initializeExcelFile.
Proof. intros s. rewrite initializeExcelFile_run. apply same_elsewhere_persisted. Qed.

Ltac own_key :=
  repeat first
    [ assumption
    | apply own_saveToLocalStorage | apply own_initializeExcelFile
    | apply own_getUserKey | apply own_getItem
    | apply own_ret | apply own_throw
    | apply own_bind; [| intros ?]
    | apply own_try_catch; [| intros ?]
    | match goal with
      | |- own_key_only (match ?x with _ => _ end) => destruct x
      end ].

Lemma own_readFromLocalStorage n :
  own_key_only (ExcelService.readFromLocalStorage_ fetchWorkbook n).
Proof.
  induction n as [| n IH]; [apply own_throw |].
  rewrite readFromLocalStorage_S. unfold ExcelService.XLSX_read. own_key.
Qed.

Lemma own_service fuel (c : Company.t) (p : Product.t json) (q : Quotation.t)
    (k : Customer.t) (file : ExcelService.File) (id : string) :
  own_key_only (ExcelService.getCompanies fuel fetchWorkbook)
  /\ own_key_only (ExcelService.saveCompany fuel fetchWorkbook c)
  /\ own_key_only (ExcelService.getProducts fuel fetchWorkbook)
  /\ own_key_only (ExcelService.saveProduct fuel fetchWorkbook p)
  /\ own_key_only (ExcelService.importExcel file)
  /\ own_key_only (ExcelService.getQuotationItemsByQuotationId fuel fetchWorkbook id)
  /\ own_key_only (ExcelService.getQuotations fuel fetchWorkbook)
  /\ own_key_only (ExcelService.saveQuotation fuel fetchWorkbook q)
  /\ own_key_only (ExcelService.getCustomerById fuel fetchWorkbook id)
  /\ own_key_only (ExcelService.saveCustomer fuel fetchWorkbook k).
Proof.
  pose proof (own_readFromLocalStorage fuel) as Hread.
  fold (ExcelService.readFromLocalStorage fuel fetchWorkbook) in Hread.
  unfold ExcelService.getCompanies, ExcelService.saveCompany, ExcelService.getProducts,
    ExcelService.saveProduct, ExcelService.importExcel,
    ExcelService.getQuotationItemsByQuotationId, ExcelService.getQuotations,
    ExcelService.saveQuotation, ExcelService.getCustomerById, ExcelService.saveCustomer.
  repeat split; own_key.
Qed.

(** X9. Whatever localStorage holds and whatever the libraries do,
    every operation of the service, the five getters, the four saves
    and [importExcel], leaves every key of localStorage other than the
    current user's data key as it was; the user id under
    [qs_current_user] is among the keys that are kept. *)
Theorem service_writes_own_key_only fuel (c : Company.t) (p : Product.t json)
    (q : Quotation.t) (k : Customer.t) (file : ExcelService.File) (id : string) :
  own_key_only (ExcelService.getCompanies fuel fetchWorkbook)
  /\ own_key_only (ExcelService.saveCompany fuel fetchWorkbook c)
  /\ own_key_only (ExcelService.getProducts fuel fetchWorkbook)
  /\ own_key_only (ExcelService.saveProduct fuel fetchWorkbook p)
  /\ own_key_only (ExcelService.importExcel file)
  /\ own_key_only (ExcelService.getQuotationItemsByQuotationId fuel fetchWorkbook id)
  /\ own_key_only (ExcelService.getQuotations fuel fetchWorkbook)
  /\ own_key_only (ExcelService.saveQuotation fuel fetchWorkbook q)
  /\ own_key_only (ExcelService.getCustomerById fuel fetchWorkbook id)
  /\ own_key_only (ExcelService.saveCustomer fuel fetchWorkbook k).
Proof. apply own_service. Qed.

End OwnKey.

(** ** The stores on the paths that fail *)

Section StoreFailures.

Context {codec : XLSX.Codec} {J : JSONLib}.
Variable fetchWorkbook : string -> option WorkBook.

Lemma getCompanies_throws fuel s e s' :
  ExcelService.getCompanies fuel fetchWorkbook s = (Throw e, s') -> e = Diverge.
Proof.
  unfold ExcelService.getCompanies, bind.
  destruct (ExcelService.readFromLocalStorage fuel fetchWorkbook s) as [[wb | e0] s1] eqn:E.
  - destruct wb as [wb |]; [| discriminate].
    destruct (Sheets wb !! "公司信息") as [ws |]; [| discriminate].
    destruct (length (sheet_to_json ws) <=? 1)%nat; discriminate.
  - intros [= <- _]. exact (readFromLocalStorage_throws fuel fetchWorkbook s e0 s1 E).
Qed.

Lemma loadCompanies_outcome fuel (st : CompanyStore.CompanyState) (s : LocalStorage.t) :
  match CompanyStore.loadCompanies fuel fetchWorkbook (st, s) with
  | (Return _, (st', _)) =>
      CompanyStore.error st' = None
      /\ CompanyStore.loading st' = false
      /\ CompanyStore.currentCompany st'
         = match CompanyStore.currentCompany st, CompanyStore.companies st' with
           | None, first :: _ =>
               Some (default first (List.find Company.isDefault (CompanyStore.companies st')))
           | current, _ => current
           end
  | (Throw e, _) => e = Diverge
  end.
Proof.
  unfold CompanyStore.loadCompanies, CompanyStore.set, CompanyStore.service,
    modify, bind, try_catch, zoom, get, ret.
  cbn [fst snd].
  destruct (ExcelService.getCompanies fuel fetchWorkbook s) as [[cs | e] s1] eqn:E.
  - cbn [fst snd]. destruct (CompanyStore.currentCompany st) as [cur |] eqn:Hcur.
    + cbn. rewrite Hcur. destruct cs; auto.
    + destruct cs as [| first cs]; cbn; rewrite ?Hcur; auto.
  - rewrite (getCompanies_throws fuel s e s1 E). reflexivity.
Qed.

(** X10. [loadCompanies] reports no error, whatever localStorage
    holds: a call that returns leaves [error] null and [loading] false,
    keeps a company that was selected, and otherwise selects the first
    company flagged as default, or the first company, of the list it
    loaded; nothing that a [catch] clause could see is thrown. *)
Theorem loadCompanies_reports_no_error
    fuel (st : CompanyStore.CompanyState) (s : LocalStorage.t) :
  match CompanyStore.loadCompanies fuel fetchWorkbook (st, s) with
  | (Return _, (st', _)) =>
      CompanyStore.error st' = None
      /\ CompanyStore.loading st' = false
      /\ CompanyStore.currentCompany st'
         = match CompanyStore.currentCompany st, CompanyStore.companies st' with
           | None, first :: _ =>
               Some (default first (List.find Company.isDefault (CompanyStore.companies st')))
           | current, _ => current
           end
  | (Throw e, _) => e = Diverge
  end.
Proof. apply loadCompanies_outcome. Qed.

Lemma store_saves_fail fuel (e : exn) (message : string)
    (c : Company.t) (p : Product.t json)
    (st : CompanyStore.CompanyState) (pst : ProductStore.ProductState json)
    (s s' : LocalStorage.t) :
  e = Error message \/ e = TypeError message ->
  (ExcelService.saveCompany fuel fetchWorkbook c s = (Throw e, s') ->
   CompanyStore.saveCompany fuel fetchWorkbook c (st, s)
   = (Throw e, (CompanyStore.failed message st, s')))
  /\ (ExcelService.saveProduct fuel fetchWorkbook p s = (Throw e, s') ->
      ProductStore.saveProduct fuel fetchWorkbook p (pst, s)
      = (Throw e, (ProductStore.failed message pst, s'))).
Proof.
  intros He. split; intros Hsave.
  - unfold CompanyStore.saveCompany, CompanyStore.set, CompanyStore.service,
      modify, bind, try_catch, zoom, throw.
    cbn [fst snd]. rewrite Hsave.
    destruct He as [-> | ->]; reflexivity.
  - unfold ProductStore.saveProduct, ProductStore.set, ProductStore.service,
      modify, bind, try_catch, zoom, throw.
    cbn [fst snd]. rewrite Hsave.
    destruct He as [-> | ->]; reflexivity.
Qed.

(** X11. On a backing value that is text which [XLSX.read] rejects,
    the store's [saveCompany] and [saveProduct] throw the service's
    error on, after recording its message in [error] and clearing
    [loading]; the list of the store is not reloaded and localStorage
    stays as it was. *)
Theorem store_save_records_and_rethrows fuel (text : string)
    (c : Company.t) (p : Product.t json)
    (st : CompanyStore.CompanyState) (pst : ProductStore.ProductState json)
    (s : LocalStorage.t) :
  (1 <= fuel)%nat ->
  backing s = Some text -> text <> EmptyString -> startsWith "blob:" text = false ->
  read text = None ->
  CompanyStore.saveCompany fuel fetchWorkbook c (st, s)
  = (Throw (Error "无法读取Excel文件"), (CompanyStore.failed "无法读取Excel文件" st, s))
  /\ ProductStore.saveProduct fuel fetchWorkbook p (pst, s)
     = (Throw (Error "无法读取Excel文件"),
        (ProductStore.failed "无法读取Excel文件" pst, s)).
Proof.
  intros Hfuel Hback Htext Hblob Hread.
  destruct (unparseable_saves fetchWorkbook fuel s text c p
              {| Quotation.id := EmptyString; Quotation.quotationNumber := EmptyString;
                 Quotation.companyId := EmptyString; Quotation.customerId := EmptyString;
                 Quotation.quotationDate := EmptyString;
                 Quotation.expiryDate := EmptyString; Quotation.currency := EmptyString;
                 Quotation.paymentTerms := EmptyString;
                 Quotation.deliveryTerms := EmptyString;
                 Quotation.pickupLocation := EmptyString;
                 Quotation.tradeTerms := EmptyString; Quotation.subtotal := Zero;
                 Quotation.taxRate := Zero; Quotation.taxAmount := Zero;
                 Quotation.totalAmount := Zero; Quotation.status := EmptyString;
                 Quotation.notes := EmptyString; Quotation.items := [] |}
              {| Customer.id := EmptyString; Customer.name := EmptyString;
                 Customer.contactPerson := EmptyString; Customer.email := EmptyString;
                 Customer.phone := EmptyString; Customer.address := EmptyString;
                 Customer.country := EmptyString; Customer.companyName := EmptyString;
                 Customer.taxNumber := EmptyString; Customer.notes := EmptyString |}
              Hfuel Hback Htext Hblob Hread)
    as (Hcompany & Hproduct & _).
  destruct (store_saves_fail fuel (Error "无法读取Excel文件") "无法读取Excel文件"
              c p st pst s s (or_introl eq_refl)) as [Hc Hp].
  split; [exact (Hc Hcompany) | exact (Hp Hproduct)].
Qed.

End StoreFailures.

(** The two stores on the store that holds text that is no workbook. *)
Lemma store_save_records_and_rethrows_sample :
  CompanyStore.saveCompany 1 Reference.no_fetch sample_company
    (loaded two_company_rows, Reference.corrupt_storage)
  = (Throw (Error "无法读取Excel文件"),
     (CompanyStore.failed "无法读取Excel文件" (loaded two_company_rows), Reference.corrupt_storage))
  /\ ProductStore.saveProduct (J := Reference.JSON) 1 Reference.no_fetch sample_product
       (loaded_products one_product_rows, Reference.corrupt_storage)
     = (Throw (Error "无法读取Excel文件"),
        (ProductStore.failed "无法读取Excel文件" (loaded_products one_product_rows),
         Reference.corrupt_storage)).
Proof.
  apply (store_save_records_and_rethrows (J := Reference.JSON) Reference.no_fetch 1
           "UEsDBgarbage" sample_company sample_product (loaded two_company_rows)
           (loaded_products one_product_rows)
           Reference.corrupt_storage).
  - lia.
  - reflexivity.
  - discriminate.
  - reflexivity.
  - reflexivity.
Defined.

(** ** The default company after [setDefaultCompany] *)

Section DefaultAfterSet.

Context {codec : XLSX.Codec} {laws : XLSX.CodecLaws codec}.
Variable fetchWorkbook : string -> option WorkBook.

Lemma find_of_filter {A} (f : A -> bool) (l : list A) :
  List.filter f l <> [] -> exists x, List.find f l = Some x.
Proof.
  induction l as [| a l IH]; simpl; [congruence |].
  destruct (f a); [eauto | exact IH].
Qed.

Lemma find_no_flag {A} (f : A -> bool) (l : list A) :
  Forall (fun b => b = false) (map f l) -> List.find f l = None.
Proof.
  induction l as [| a l IH]; [reflexivity |]. simpl.
  intros H. inversion H as [| ? ? Ha Hl]; subst. rewrite Ha. apply IH, Hl.
Qed.

Lemma default_after_set
    (fuel : nat) (companyId : string) (st : CompanyStore.CompanyState)
    (s : LocalStorage.t) (wb : WorkBook) (rows : WorkSheet) (ids : list string) :
  (1 <= fuel)%nat ->
  listed wb -> holds s wb ->
  Sheets wb !! "公司信息" = Some (company_header :: rows) ->
  first_column rows = map VString ids -> NoDup ids ->
  CompanyStore.companies st = companies_of rows ->
  exists st' s',
    CompanyStore.setDefaultCompany fuel fetchWorkbook companyId (st, s)
    = (Return tt, (st', s'))
    /\ (In companyId ids ->
        exists c, CompanyStore.getDefaultCompany st' = Some c
                  /\ Company.id c = VString companyId)
    /\ (~ In companyId ids -> CompanyStore.getDefaultCompany st' = None).
Proof.
  intros Hfuel Hlisted Hholds Hsheet Hcol Hnodup Hsync.
  destruct (setDefaultCompany_run fetchWorkbook fuel companyId st s wb rows ids
              Hfuel Hlisted Hholds Hsheet Hcol Hnodup Hsync)
    as (st' & s' & Hrun & Hmap & _ & Hflags & Hone & _).
  exists st', s'. split; [exact Hrun |]. unfold CompanyStore.getDefaultCompany. split.
  - intros Hin. specialize (Hone Hin).
    destruct (find_of_filter Company.isDefault (CompanyStore.companies st')) as [c Hc].
    { intros E. rewrite E in Hone. discriminate. }
    exists c. split; [exact Hc |].
    apply find_some in Hc as [Hc Hdefault].
    rewrite Forall_forall in Hflags. apply list_elem_of_In in Hc.
    rewrite (Hflags c Hc) in Hdefault. apply strict_eq_text_inv. exact Hdefault.
  - intros Hnotin. apply find_no_flag.
    rewrite Hmap, Hsync, (flags_of_rows companyId rows ids Hcol).
    apply Forall_map, Forall_forall. intros y Hy.
    apply bool_decide_eq_false. intros ->. apply Hnotin, list_elem_of_In, Hy.
Qed.

(** X12. On a store in step with a company sheet under the canonical
    header whose ids are distinct texts, [getDefaultCompany] after
    [setDefaultCompany(id)] returns a company with the id [id] when the
    sheet has one, and null when it has none: asking for an id that is
    not there leaves the store without a default company. *)
Theorem getDefaultCompany_after_setDefaultCompany
    (fuel : nat) (companyId : string) (st : CompanyStore.CompanyState)
    (s : LocalStorage.t) (wb : WorkBook) (rows : WorkSheet) (ids : list string) :
  (1 <= fuel)%nat ->
  listed wb -> holds s wb ->
  Sheets wb !! "公司信息" = Some (company_header :: rows) ->
  first_column rows = map VString ids -> NoDup ids ->
  CompanyStore.companies st = companies_of rows ->
  exists st' s',
    CompanyStore.setDefaultCompany fuel fetchWorkbook companyId (st, s)
    = (Return tt, (st', s'))
    /\ (In companyId ids ->
        exists c, CompanyStore.getDefaultCompany st' = Some c
                  /\ Company.id c = VString companyId)
    /\ (~ In companyId ids -> CompanyStore.getDefaultCompany st' = None).
Proof. apply default_after_set. Qed.

End DefaultAfterSet.

(** The second of the two sample companies made the default one. *)
Lemma getDefaultCompany_after_setDefaultCompany_sample :
  exists st' s',
    CompanyStore.setDefaultCompany 1 Reference.no_fetch "c2"
      (loaded two_company_rows, Reference.storage_of two_companies)
    = (Return tt, (st', s'))
    /\ (In "c2" ["c1"; "c2"] ->
        exists c, CompanyStore.getDefaultCompany st' = Some c
                  /\ Company.id c = VString "c2")
    /\ (~ In "c2" ["c1"; "c2"] -> CompanyStore.getDefaultCompany st' = None).
Proof.
  apply (getDefaultCompany_after_setDefaultCompany (laws := reference_codec_laws)
           Reference.no_fetch 1 "c2" (loaded two_company_rows)
           (Reference.storage_of two_companies) two_companies two_company_rows
           ["c1"; "c2"]).
  - lia.
  - apply two_companies_listed.
  - apply storage_of_holds.
  - reflexivity.
  - reflexivity.
  - apply two_ids_distinct.
  - reflexivity.
Defined.

(** ** What the markup shows of images, logo and tax *)

Section Markup.

Import PDFService.

Variable literal : nat -> string.

(** The markup is a function of the header fields, the two logo
    parts, the item rows and the tax row. *)
Lemma generateQuotationHTML_parts company company' customer q q' options options' :
  name company' = name company -> nameEn company' = nameEn company ->
  address company' = address company -> addressEn company' = addressEn company ->
  phone company' = phone company -> email company' = email company ->
  website company' = website company -> taxNumber company' = taxNumber company ->
  bankName company' = bankName company -> bankAccount company' = bankAccount company ->
  swiftCode company' = swiftCode company ->
  intermediaryBank company' = intermediaryBank company ->
  logoContainer company' options' = logoContainer company options ->
  headerLogo company' options' = headerLogo company options ->
  quotationNumber q' = quotationNumber q -> quotationDate q' = quotationDate q ->
  expiryDate q' = expiryDate q -> currency q' = currency q ->
  pickupLocation q' = pickupLocation q -> tradeTerms q' = tradeTerms q ->
  paymentTerms q' = paymentTerms q -> deliveryTerms q' = deliveryTerms q ->
  subtotal q' = subtotal q -> totalAmount q' = totalAmount q -> notes q' = notes q ->
  imap (itemRow q' options') (items q') = imap (itemRow q options) (items q) ->
  taxRow q' = taxRow q ->
  generateQuotationHTML literal company' customer q' options'
  = generateQuotationHTML literal company customer q options.
Proof.
  intros. unfold generateQuotationHTML.
  repeat match goal with
         | H : _ = _ |- _ => rewrite H; clear H
         end.
  reflexivity.
Qed.

Lemma take_take_same {A} (n : nat) (l : list A) : take n (take n l) = take n l.
Proof. rewrite take_take. f_equal. lia. Qed.

Lemma itemImages_first_three options item :
  itemImages options (first_three item) = itemImages options item.
Proof.
  unfold itemImages, first_three. cbn [Item.images item_with_images].
  destruct (showProductImages options) as [[|] |]; try reflexivity;
    destruct (Item.images item) as [[| x l] |]; try reflexivity.
  cbn [option_map]. change (take 3 (x :: l)) with (x :: take 2 l).
  change (take 3 (x :: take 2 l)) with (x :: take 2 (take 2 l)).
  rewrite take_take_same. reflexivity.
Qed.

Lemma itemImages_hidden options item images :
  showProductImages options <> Some true ->
  itemImages options (item_with_images images item) = itemImages options item.
Proof.
  intros H. unfold itemImages.
  destruct (showProductImages options) as [[|] |]; try congruence; reflexivity.
Qed.

Lemma itemRow_images q q' options options' (g : Item.t -> Item.t) :
  currency q' = currency q ->
  (forall item,
     Item.productName (g item) = Item.productName item
     /\ Item.description (g item) = Item.description item
     /\ Item.quantity (g item) = Item.quantity item
     /\ Item.unit (g item) = Item.unit item
     /\ Item.unitPrice (g item) = Item.unitPrice item
     /\ Item.totalPrice (g item) = Item.totalPrice item
     /\ itemImages options' (g item) = itemImages options item) ->
  forall l, imap (itemRow q' options') (map g l) = imap (itemRow q options) l.
Proof.
  intros Hcur Hg l. change (map g l) with (g <$> l). rewrite imap_fmap.
  apply imap_pointwise. intros i item. unfold compose, itemRow.
  destruct (Hg item) as (-> & -> & -> & -> & -> & -> & ->). rewrite Hcur. reflexivity.
Qed.

Lemma markup_first_three company customer q options :
  generateQuotationHTML literal company customer
    (quotation_with (map first_three (items q)) (taxAmount q) q) options
  = generateQuotationHTML literal company customer q options.
Proof.
  apply generateQuotationHTML_parts; try reflexivity.
  cbn [items quotation_with].
  apply itemRow_images; [reflexivity |].
  intros item. repeat (split; [reflexivity |]). apply itemImages_first_three.
Qed.

(** X13. The quotation markup shows at most three images of an item:
    cutting the image list of every item down to its first three
    entries changes nothing in the markup of [generateQuotationHTML],
    whatever the options are. *)
Theorem markup_shows_three_images company customer q options :
  generateQuotationHTML literal company customer
    (quotation_with (map first_three (items q)) (taxAmount q) q) options
  = generateQuotationHTML literal company customer q options.
Proof. apply markup_first_three. Qed.

Lemma markup_gated company customer q options :
  (showProductImages options <> Some true ->
   forall images,
     generateQuotationHTML literal company customer
       (quotation_with (map (item_with_images images) (items q)) (taxAmount q) q) options
     = generateQuotationHTML literal company customer q options)
  /\ (logoPosition options = None ->
      forall logo,
        generateQuotationHTML literal (company_with_logo logo company) customer q options
        = generateQuotationHTML literal company customer q options).
Proof.
  split.
  - intros Hhidden images. apply generateQuotationHTML_parts; try reflexivity.
    cbn [items quotation_with].
    apply itemRow_images; [reflexivity |].
    intros item. repeat (split; [reflexivity |]). apply itemImages_hidden, Hhidden.
  - intros Hposition logo. apply generateQuotationHTML_parts; try reflexivity.
    + unfold logoContainer. rewrite Hposition. reflexivity.
    + unfold headerLogo. rewrite Hposition. reflexivity.
Qed.

(** X14. Unless [options.showProductImages] is true, the images of
    the items have no part in the quotation markup: it is the same
    whatever image list the items carry. *)
Theorem markup_hides_images_without_option company customer q options images :
  showProductImages options <> Some true ->
  generateQuotationHTML literal company customer
    (quotation_with (map (item_with_images images) (items q)) (taxAmount q) q) options
  = generateQuotationHTML literal company customer q options.
Proof.
  intros Hhidden. destruct (markup_gated company customer q options) as [Himages _].
  apply Himages, Hhidden.
Qed.

Lemma invoice_markup_plain company customer q logo images :
  generateQuotationHTML literal (company_with_logo logo company) customer
    (quotation_with (map (item_with_images images) (items q)) (taxAmount q) q) no_options
  = generateQuotationHTML literal company customer q no_options.
Proof.
  destruct (markup_gated (company_with_logo logo company) customer q no_options)
    as [Himages _].
  destruct (markup_gated company customer q no_options) as [_ Hlogo].
  rewrite Himages by discriminate. apply Hlogo. reflexivity.
Qed.

(** X15. The invoice and the preview never show the company logo or
    any item image: [generateInvoiceHTML], [generateInvoicePDF] and
    [generatePDFPreview] pass no options on, so their results are the
    same whatever logo the company has and whatever images the items
    carry. *)
Theorem invoice_and_preview_show_no_logo_no_images company customer q logo images :
  generateInvoiceHTML literal (company_with_logo logo company) customer
    (quotation_with (map (item_with_images images) (items q)) (taxAmount q) q)
  = generateInvoiceHTML literal company customer q
  /\ forall (Blob : Type) (browser : Browser Blob) (createObjectURL : Blob -> string)
            (config : PartialConfig) (d : Document),
      generateInvoicePDF literal browser (company_with_logo logo company) customer
        (quotation_with (map (item_with_images images) (items q)) (taxAmount q) q) config d
      = generateInvoicePDF literal browser company customer q config d
      /\ generatePDFPreview literal browser createObjectURL
           (company_with_logo logo company) customer
           (quotation_with (map (item_with_images images) (items q)) (taxAmount q) q)
           config d
         = generatePDFPreview literal browser createObjectURL company customer q config d.
Proof.
  pose proof (invoice_markup_plain company customer q logo images) as Hhtml.
  split; [| intros Blob browser createObjectURL config d; split].
  - unfold generateInvoiceHTML. rewrite Hhtml. reflexivity.
  - unfold generateInvoicePDF, generateInvoiceHTML. rewrite Hhtml. reflexivity.
  - unfold generatePDFPreview, generateQuotationPDF. rewrite Hhtml. reflexivity.
Qed.

Lemma markup_without_tax company customer q options amount :
  positive_number (taxRate q) = false ->
  generateQuotationHTML literal company customer (quotation_with (items q) amount q) options
  = generateQuotationHTML literal company customer q options.
Proof.
  intros Hrate. apply generateQuotationHTML_parts; try reflexivity.
  unfold taxRow. cbn [taxRate quotation_with]. rewrite Hrate. reflexivity.
Qed.

(** X16. When the tax rate of the quotation is not above zero (zero,
    negative or NaN), the markup has no tax row: it is the same for
    every tax amount. *)
Theorem markup_ignores_tax_amount_without_rate company customer q options amount :
  positive_number (taxRate q) = false ->
  generateQuotationHTML literal company customer (quotation_with (items q) amount q) options
  = generateQuotationHTML literal company customer q options.
Proof. apply markup_without_tax. Qed.

End Markup.

(** The sample quotation without the image option. *)
Lemma markup_hides_images_without_option_sample :
  PDFService.generateQuotationHTML no_literal sample_company_info sample_customer_info
    (quotation_with
       (map (item_with_images None) (PDFService.items sample_quotation_data))
       (PDFService.taxAmount sample_quotation_data) sample_quotation_data)
    PDFService.no_options
  = PDFService.generateQuotationHTML no_literal sample_company_info sample_customer_info
      sample_quotation_data PDFService.no_options.
Proof.
  apply (markup_hides_images_without_option no_literal sample_company_info
           sample_customer_info sample_quotation_data PDFService.no_options None).
  discriminate.
Defined.

(** The sample quotation, whose tax rate is zero, with another tax amount. *)
Lemma markup_ignores_tax_amount_without_rate_sample :
  PDFService.generateQuotationHTML no_literal sample_company_info sample_customer_info
    (quotation_with (PDFService.items sample_quotation_data) Zero sample_quotation_data)
    PDFService.no_options
  = PDFService.generateQuotationHTML no_literal sample_company_info sample_customer_info
      sample_quotation_data PDFService.no_options.
Proof.
  apply (markup_ignores_tax_amount_without_rate no_literal sample_company_info
           sample_customer_info sample_quotation_data PDFService.no_options Zero).
  reflexivity.
Defined.

(** ** The frame of the three PDF calls *)

Section PdfCalls.

Import PDFService.

Variable literal : nat -> string.
Variable Blob : Type.

Lemma pdf_calls_release (browser : Browser Blob) (createObjectURL : Blob -> string)
    company customer q config options (d : Document) :
  contentDocument browser = true ->
  frameEvent browser <> no_event ->
  ~ In (created d) (body d) ->
  body (generateQuotationPDF literal browser company customer q config options d).2 = body d
  /\ body (generateInvoicePDF literal browser company customer q config d).2 = body d
  /\ body (generatePDFPreview literal browser createObjectURL company customer q config d).2
     = body d.
Proof.
  intros Hdoc Hevent Hfresh. split; [| split].
  - apply generatePDF_releases; assumption.
  - apply generatePDF_releases; assumption.
  - unfold generatePDFPreview, bind.
    pose proof (generatePDF_releases Blob browser
                  (generateQuotationHTML literal company customer q no_options)
                  (finalConfig config quotation) d Hdoc Hevent Hfresh) as H.
    unfold generateQuotationPDF.
    destruct (generatePDF browser _ _ d) as [[r | e] d']; exact H.
Qed.

(** X17. When the new frame has a document and one of its events
    fires, each of [generateQuotationPDF], [generateInvoicePDF] and
    [generatePDFPreview] leaves the page with the frames it had: the
    frame the call attached is detached again, on success and on
    failure alike. *)
Theorem pdf_calls_release_the_frame (browser : Browser Blob)
    (createObjectURL : Blob -> string) company customer q config options (d : Document) :
  contentDocument browser = true ->
  frameEvent browser <> no_event ->
  ~ In (created d) (body d) ->
  body (generateQuotationPDF literal browser company customer q config options d).2 = body d
  /\ body (generateInvoicePDF literal browser company customer q config d).2 = body d
  /\ body (generatePDFPreview literal browser createObjectURL company customer q config d).2
     = body d.
Proof. apply pdf_calls_release. Qed.

End PdfCalls.

(** The three calls in a browser that renders, on an empty page. *)
Lemma pdf_calls_release_the_frame_sample :
  PDFService.body
    (PDFService.generateQuotationPDF no_literal echo_browser sample_company_info
       sample_customer_info sample_quotation_data no_config PDFService.no_options
       empty_page).2
  = PDFService.body empty_page
  /\ PDFService.body
       (PDFService.generateInvoicePDF no_literal echo_browser sample_company_info
          sample_customer_info sample_quotation_data no_config empty_page).2
     = PDFService.body empty_page
  /\ PDFService.body
       (PDFService.generatePDFPreview no_literal echo_browser (fun blob => blob)
          sample_company_info sample_customer_info sample_quotation_data no_config
          empty_page).2
     = PDFService.body empty_page.
Proof.
  apply (pdf_calls_release_the_frame no_literal string echo_browser (fun blob => blob)
           sample_company_info sample_customer_info sample_quotation_data no_config
           PDFService.no_options empty_page).
  - reflexivity.
  - discriminate.
  - intros [].
Defined.

(** ** Import, then read *)

Section ImportThenRead.

Context {codec : XLSX.Codec} {laws : XLSX.CodecLaws codec} {J : JSONLib}.
Variable fetchWorkbook : string -> option WorkBook.

Lemma import_then_read fuel (wb : WorkBook) (s : LocalStorage.t)
    (companyRows productRows : WorkSheet) :
  (1 <= fuel)%nat ->
  listed wb -> ExcelService.missingSheets wb = [] ->
  Sheets wb !! "公司信息" = Some (company_header :: companyRows) ->
  Sheets wb !! "产品库" = Some (product_header :: productRows) ->
  exists s',
    ExcelService.importExcel (ExcelService.Uploaded wb) s = (Return tt, s')
    /\ ExcelService.getCompanies fuel fetchWorkbook s'
       = (Return (companies_of companyRows), s')
    /\ ExcelService.getProducts fuel fetchWorkbook s'
       = (Return (map (ExcelService.product_of_row product_header) productRows), s').
Proof.
  intros Hfuel Hlisted Hmissing Hcompanies Hproducts.
  exists (persisted wb s). split; [| split].
  - unfold ExcelService.importExcel. rewrite Hmissing. apply saveToLocalStorage_run.
  - apply (getCompanies_run fuel fetchWorkbook Hfuel (persisted wb s) wb companyRows
             Hlisted (holds_persisted wb s) Hcompanies).
  - apply (getProducts_run fuel fetchWorkbook Hfuel (persisted wb s) wb productRows
             Hlisted (holds_persisted wb s) Hproducts).
Qed.

(** X18. An import replaces the store: after [importExcel] of a listed
    workbook that has the three required sheets, with the canonical
    headers on the company and the product sheet, [getCompanies] and
    [getProducts] return the rows of that workbook, whatever
    localStorage held before, unreadable text included. *)
Theorem importExcel_then_getters fuel (wb : WorkBook) (s : LocalStorage.t)
    (companyRows productRows : WorkSheet) :
  (1 <= fuel)%nat ->
  listed wb -> ExcelService.missingSheets wb = [] ->
  Sheets wb !! "公司信息" = Some (company_header :: companyRows) ->
  Sheets wb !! "产品库" = Some (product_header :: productRows) ->
  exists s',
    ExcelService.importExcel (ExcelService.Uploaded wb) s = (Return tt, s')
    /\ ExcelService.getCompanies fuel fetchWorkbook s'
       = (Return (companies_of companyRows), s')
    /\ ExcelService.getProducts fuel fetchWorkbook s'
       = (Return (map (ExcelService.product_of_row product_header) productRows), s').
Proof. apply import_then_read. Qed.

Lemma saveQuotation_no_header fuel (q : Quotation.t) (s : LocalStorage.t) (wb : WorkBook)
    (dataQ : WorkSheet) :
  (1 <= fuel)%nat ->
  listed wb -> holds s wb ->
  Sheets wb !! "报价单" = Some dataQ ->
  Sheets wb !! "报价单项" = Some [] ->
  ExcelService.saveQuotation fuel fetchWorkbook q s
  = (Throw (TypeError "Cannot read properties of undefined (reading 'indexOf')"), s)
  /\ ExcelService.getQuotationItemsByQuotationId fuel fetchWorkbook (Quotation.id q) s
     = (Return [], s).
Proof.
  intros Hfuel Hlisted Hholds HQ Hitems.
  pose proof (readFromLocalStorage_holds fuel fetchWorkbook Hfuel s wb Hlisted Hholds)
    as Hread.
  split.
  - unfold ExcelService.saveQuotation. rewrite (bind_return _ _ _ _ _ Hread).
    unfold ExcelService.sheet_or_new at 1. rewrite HQ.
    unfold ExcelService.sheet_or_new.
    rewrite lookup_assign_ne by discriminate. rewrite Hitems. reflexivity.
  - unfold ExcelService.getQuotationItemsByQuotationId.
    rewrite (bind_return _ _ _ _ _ Hread), Hitems. reflexivity.
Qed.

(** X19. On a store whose item sheet exists but has no row, not even a
    header, [saveQuotation] fails with a [TypeError] before anything
    is written: neither the quotation nor its items are stored, while
    reading the items of the quotation returns the empty list. *)
Theorem saveQuotation_fails_on_empty_item_sheet
    fuel (q : Quotation.t) (s : LocalStorage.t) (wb : WorkBook) (dataQ : WorkSheet) :
  (1 <= fuel)%nat ->
  listed wb -> holds s wb ->
  Sheets wb !! "报价单" = Some dataQ ->
  Sheets wb !! "报价单项" = Some [] ->
  ExcelService.saveQuotation fuel fetchWorkbook q s
  = (Throw (TypeError "Cannot read properties of undefined (reading 'indexOf')"), s)
  /\ ExcelService.getQuotationItemsByQuotationId fuel fetchWorkbook (Quotation.id q) s
     = (Return [], s).
Proof. apply saveQuotation_no_header. Qed.

End ImportThenRead.

(** The two sample companies imported over unreadable text. *)
Lemma importExcel_then_getters_sample :
  exists s',
    ExcelService.importExcel (ExcelService.Uploaded two_companies) Reference.corrupt_storage
    = (Return tt, s')
    /\ ExcelService.getCompanies 1 Reference.no_fetch s'
       = (Return (companies_of two_company_rows), s')
    /\ ExcelService.getProducts (J := Reference.JSON) 1 Reference.no_fetch s'
       = (Return (map (ExcelService.product_of_row product_header) []), s').
Proof.
  apply (importExcel_then_getters (laws := reference_codec_laws) (J := Reference.JSON)
           Reference.no_fetch 1 two_companies Reference.corrupt_storage
           two_company_rows []).
  - lia.
  - apply two_companies_listed.
  - reflexivity.
  - reflexivity.
  - reflexivity.
Defined.

Lemma without_item_rows_listed : listed without_item_rows.
Proof. apply assign_listed; [apply initial_listed |]. vm_compute. eauto. Qed.

(** The sample quotation saved into a workbook whose item sheet is empty. *)
Lemma saveQuotation_fails_on_empty_item_sheet_sample :
  ExcelService.saveQuotation 1 Reference.no_fetch sample_quotation
    (Reference.storage_of without_item_rows)
  = (Throw (TypeError "Cannot read properties of undefined (reading 'indexOf')"),
     Reference.storage_of without_item_rows)
  /\ ExcelService.getQuotationItemsByQuotationId 1 Reference.no_fetch
       (Quotation.id sample_quotation) (Reference.storage_of without_item_rows)
     = (Return [], Reference.storage_of without_item_rows).
Proof.
  apply (saveQuotation_fails_on_empty_item_sheet (laws := reference_codec_laws)
           Reference.no_fetch 1 sample_quotation (Reference.storage_of without_item_rows)
           without_item_rows [quotation_header]).
  - lia.
  - apply without_item_rows_listed.
  - apply storage_of_holds.
  - reflexivity.
  - reflexivity.
Defined.

(** ** Searching the loaded products *)

Section Search.

Context {json : Type}.
Variable toLowerCase : string -> string.

Import ProductStore.

Lemma search_matches_active searchTerm (p : Product.t json) :
  search_matches toLowerCase searchTerm p = Return true -> Product.isActive p = true.
Proof. unfold search_matches. destruct (Product.isActive p); [reflexivity | discriminate]. Qed.

Lemma filter_outcome_sublist {A} (f : A -> outcome bool) (g : A -> bool) (xs l : list A) :
  (forall x, f x = Return true -> g x = true) ->
  filter_outcome f xs = Return l -> sublist l (List.filter g xs).
Proof.
  intros Hfg. revert l. induction xs as [| x xs IH]; intros l; simpl.
  - intros [= <-]. constructor.
  - destruct (f x) as [b | e] eqn:Hx; [| discriminate].
    destruct (filter_outcome f xs) as [ys | e]; [| discriminate].
    intros [= <-]. specialize (IH ys eq_refl).
    destruct b.
    + rewrite (Hfg x Hx). apply sublist_skip, IH.
    + destruct (g x); [apply sublist_cons, IH | exact IH].
Qed.

(** X20. What [searchProducts] returns is a selection of the active
    products of the store, in the order of the store: no product that
    is not active is returned, whatever the query. *)
Theorem searchProducts_only_active (s : ProductState json) (query : string)
    (l : list (Product.t json)) :
  searchProducts toLowerCase s query = Return l ->
  sublist l (List.filter Product.isActive (products s)).
Proof.
  unfold searchProducts. apply filter_outcome_sublist.
  intros p. apply search_matches_active.
Qed.

Lemma str_includes_empty (s : string) : str_includes s EmptyString = true.
Proof. destruct s; reflexivity. Qed.

Lemma filter_outcome_total {A} (f : A -> outcome bool) (g : A -> bool) (xs : list A) :
  Forall (fun x => f x = Return (g x)) xs ->
  filter_outcome f xs = Return (List.filter g xs).
Proof.
  induction 1 as [| x xs Hx _ IH]; [reflexivity |].
  simpl. rewrite Hx, IH. reflexivity.
Qed.

(** X21. With the empty query, [searchProducts] returns every active
    product of the store, in order, provided that lower-casing the
    empty string gives the empty string and that the name of each
    active product is text: the first field already matches, so the
    other fields are not looked at. *)
Theorem searchProducts_empty_query (s : ProductState json) :
  toLowerCase EmptyString = EmptyString ->
  Forall (fun p => Product.isActive p = true -> is_string (Product.name p) = true)
         (products s) ->
  searchProducts toLowerCase s EmptyString
  = Return (List.filter Product.isActive (products s)).
Proof.
  intros Hlower Hnames. unfold searchProducts. rewrite Hlower.
  apply filter_outcome_total.
  eapply Forall_impl; [exact Hnames |].
  intros p Hp. unfold search_matches. cbn beta in Hp.
  destruct (Product.isActive p); [| reflexivity].
  specialize (Hp eq_refl). cbn [some_includes].
  destruct (Product.name p) as [| b | n | text]; try discriminate.
  cbn [lower_includes]. rewrite str_includes_empty. reflexivity.
Qed.

Lemma some_includes_throws searchTerm fields e :
  some_includes toLowerCase searchTerm fields = Throw e -> exists msg, e = TypeError msg.
Proof.
  induction fields as [| x fields IH]; simpl; [discriminate |].
  destruct x as [| b | n | text]; simpl; try (intros [= <-]; eauto).
  destruct (str_includes (toLowerCase text) searchTerm); [discriminate | exact IH].
Qed.

Lemma filter_outcome_throws {A} (f : A -> outcome bool) (xs : list A) (x : A) e :
  In x xs -> f x = Throw e ->
  exists y e', In y xs /\ f y = Throw e' /\ filter_outcome f xs = Throw e'.
Proof.
  intros Hin Hx. induction xs as [| a xs IH]; [destruct Hin |].
  simpl. destruct (f a) as [b | e0] eqn:Ha.
  - destruct Hin as [-> | Hin]; [congruence |].
    destruct (IH Hin) as (y & e' & Hy & Hfy & Hrun).
    exists y, e'. rewrite Hrun. split; [now right | split; [exact Hfy | reflexivity]].
  - exists a, e0. split; [now left | split; [exact Ha | reflexivity]].
Qed.

(** X22. One active product whose name is not text (a numeric cell is
    read as a number) makes every search fail: [searchProducts] throws
    a [TypeError], whatever the query and whatever the other products
    are. *)
Theorem searchProducts_throws_on_name_that_is_no_text
    (s : ProductState json) (query : string) (p : Product.t json) :
  In p (products s) ->
  Product.isActive p = true ->
  is_string (Product.name p) = false ->
  exists msg, searchProducts toLowerCase s query = Throw (TypeError msg).
Proof.
  intros Hin Hactive Hname.
  assert (exists e, search_matches toLowerCase (toLowerCase query) p = Throw e) as [e He].
  { unfold search_matches. rewrite Hactive. cbn [some_includes].
    destruct (Product.name p) as [| b | n | text]; try discriminate; simpl; eauto. }
  destruct (filter_outcome_throws _ (products s) p e Hin He) as (y & e' & _ & Hy & Hrun).
  unfold searchProducts. rewrite Hrun.
  unfold search_matches in Hy. destruct (Product.isActive y); [| discriminate].
  destruct (some_includes_throws _ _ _ Hy) as [msg ->]. eauto.
Qed.

End Search.

(** A search on a shelf with the sample product and a retired one. *)
Lemma searchProducts_only_active_sample :
  sublist [sample_product]
    (List.filter Product.isActive
       (ProductStore.products (shelf [retired_product; sample_product]))).
Proof.
  apply (searchProducts_only_active ascii_lower (shelf [retired_product; sample_product])
           "WID" [sample_product]).
  reflexivity.
Defined.

Lemma searchProducts_empty_query_sample :
  ProductStore.searchProducts ascii_lower (shelf [retired_product; sample_product])
    EmptyString
  = Return (List.filter Product.isActive
              (ProductStore.products (shelf [retired_product; sample_product]))).
Proof.
  apply (searchProducts_empty_query ascii_lower (shelf [retired_product; sample_product])).
  - reflexivity.
  - repeat constructor.
Defined.

Lemma searchProducts_throws_on_name_that_is_no_text_sample :
  exists msg,
    ProductStore.searchProducts ascii_lower (shelf [sample_product; numbered_product])
      "jet"
    = Throw (TypeError msg).
Proof.
  apply (searchProducts_throws_on_name_that_is_no_text ascii_lower
           (shelf [sample_product; numbered_product]) "jet" numbered_product).
  - right. left. reflexivity.
  - reflexivity.
  - reflexivity.
Defined.

(** ** The product store after a save *)

Section SavedProduct.

Context {codec : XLSX.Codec} {laws : XLSX.CodecLaws codec}.
Context {J : JSONLib} {JL : JSONLaws J}.
Variable fetchWorkbook : string -> option WorkBook.

Lemma find_replace_or_append {A} (f : A -> bool) (y : A) (xs : list A) :
  f y = true -> List.find f (replace_or_append f y xs) = Some y.
Proof.
  intros Hy. induction xs as [| x xs IH]; simpl.
  - rewrite Hy. reflexivity.
  - destruct (f x) eqn:Hx; simpl; [rewrite Hy; reflexivity |].
    rewrite Hx. exact IH.
Qed.

Lemma store_saveProduct_run fuel (p : Product.t json) (pid : string)
    (st : ProductStore.ProductState json) (s : LocalStorage.t) (wb : WorkBook)
    (rows : WorkSheet) :
  (1 <= fuel)%nat ->
  listed wb -> holds s wb ->
  Sheets wb !! "产品库" = Some (product_header :: rows) ->
  text_ids rows = true ->
  product_wf p ->
  Product.id p = VString pid ->
  exists st' s',
    ProductStore.saveProduct fuel fetchWorkbook p (st, s) = (Return tt, (st', s'))
    /\ ProductStore.getProductById st' pid = Some (without_specifications p)
    /\ ProductStore.getPriceSuggestion st' pid
       = Some {| ProductStore.min := Product.minPrice p;
                 ProductStore.max := Product.maxPrice p;
                 ProductStore.currency := Product.currency p |}.
Proof.
  intros Hfuel Hlisted Hholds Hsheet Htext Hwf Hid.
  destruct (saveProduct_then_list fetchWorkbook fuel p s wb rows
              Hfuel Hlisted Hholds Hsheet Htext Hwf) as (s' & Hsave & _ & Hget).
  destruct (loadProducts_run fuel fetchWorkbook (ProductStore.start st) s' _ Hget)
    as (st2 & Hload & Hproducts).
  assert (Hfound : ProductStore.getProductById (ProductStore.finish st2) pid
                   = Some (without_specifications p)).
  { unfold ProductStore.getProductById. cbn [ProductStore.products ProductStore.finish].
    rewrite Hproducts, Hid. apply find_replace_or_append.
    cbn [Product.id without_specifications with_specifications].
    rewrite Hid. rewrite strict_eq_text. apply bool_decide_eq_true_2. reflexivity. }
  exists (ProductStore.finish st2), s'. split; [| split].
  - unfold ProductStore.saveProduct.
    rewrite (bind_return _ _ (st, s) tt (ProductStore.start st, s)) by reflexivity.
    apply try_catch_return.
    assert (ProductStore.service (ExcelService.saveProduct fuel fetchWorkbook p)
              (ProductStore.start st, s)
            = (Return tt, (ProductStore.start st, s'))) as Hservice.
    { unfold ProductStore.service, zoom. cbn [fst snd]. rewrite Hsave. reflexivity. }
    rewrite (bind_return _ _ _ _ _ Hservice).
    rewrite (bind_return _ _ _ _ _ Hload). reflexivity.
  - exact Hfound.
  - unfold ProductStore.getPriceSuggestion. rewrite Hfound. reflexivity.
Qed.

(** X23. After the store's [saveProduct(p)] of a well-formed product
    with the text id [pid], on a store whose product sheet has the
    canonical header and text ids, [getProductById(pid)] returns [p]
    with empty specifications and [getPriceSuggestion(pid)] returns
    the minimum price, maximum price and currency of [p], also when
    the sheet had a product under that id before. *)
Theorem saved_product_is_found fuel (p : Product.t json) (pid : string)
    (st : ProductStore.ProductState json) (s : LocalStorage.t) (wb : WorkBook)
    (rows : WorkSheet) :
  (1 <= fuel)%nat ->
  listed wb -> holds s wb ->
  Sheets wb !! "产品库" = Some (product_header :: rows) ->
  text_ids rows = true ->
  product_wf p ->
  Product.id p = VString pid ->
  exists st' s',
    ProductStore.saveProduct fuel fetchWorkbook p (st, s) = (Return tt, (st', s'))
    /\ ProductStore.getProductById st' pid = Some (without_specifications p)
    /\ ProductStore.getPriceSuggestion st' pid
       = Some {| ProductStore.min := Product.minPrice p;
                 ProductStore.max := Product.maxPrice p;
                 ProductStore.currency := Product.currency p |}.
Proof. apply store_saveProduct_run. Qed.

End SavedProduct.

(** The sample product saved over itself. *)
Lemma saved_product_is_found_sample :
  exists st' s',
    ProductStore.saveProduct (J := Reference.JSON) 1 Reference.no_fetch sample_product
      (loaded_products one_product_rows, Reference.storage_of one_product)
    = (Return tt, (st', s'))
    /\ ProductStore.getProductById st' "p1"
       = Some (without_specifications (J := Reference.JSON) sample_product)
    /\ ProductStore.getPriceSuggestion st' "p1"
       = Some {| ProductStore.min := Product.minPrice sample_product;
                 ProductStore.max := Product.maxPrice sample_product;
                 ProductStore.currency := Product.currency sample_product |}.
Proof.
  apply (saved_product_is_found (laws := reference_codec_laws) (JL := reference_json_laws)
           Reference.no_fetch 1 sample_product "p1" (loaded_products one_product_rows)
           (Reference.storage_of one_product) one_product one_product_rows).
  - lia.
  - apply one_product_listed.
  - apply storage_of_holds.
  - reflexivity.
  - reflexivity.
  - apply sample_product_wf.
  - reflexivity.
Defined.

(** ** Quotation numbers *)

Section QuotationNumber.

Import PDFService.

Lemma checked_below (P : nat -> bool) (k : nat) :
  forallb P (seq 0 k) = true -> forall n, (n < k)%nat -> P n = true.
Proof.
  intros H n Hn. rewrite forallb_forall in H. apply H, in_seq. lia.
Qed.

Lemma two_digits (n : nat) :
  (n < 100)%nat -> String.length (padStart 2 (pretty n)) = 2%nat.
Proof.
  intros Hn.
  apply Nat.eqb_eq.
  apply (checked_below (fun n => Nat.eqb (String.length (padStart 2 (pretty n))) 2) 100);
    [vm_compute; reflexivity | exact Hn].
Qed.

Lemma three_digits (n : nat) :
  (n < 1000)%nat -> String.length (padStart 3 (pretty n)) = 3%nat.
Proof.
  intros Hn.
  apply Nat.eqb_eq.
  apply (checked_below (fun n => Nat.eqb (String.length (padStart 3 (pretty n))) 3) 1000);
    [vm_compute; reflexivity | exact Hn].
Qed.

Lemma last_two_digits (n : nat) :
  (n < 100 * 100)%nat ->
  String.length (slice_end 2 (pretty n)) = (if (n <? 10)%nat then 1 else 2)%nat.
Proof.
  intros Hn.
  apply Nat.eqb_eq.
  apply (checked_below
           (fun n => Nat.eqb (String.length (slice_end 2 (pretty n)))
                             (if (n <? 10)%nat then 1 else 2)) (100 * 100));
    [vm_compute; reflexivity | exact Hn].
Qed.

(** X24. For a date with a year from 10 to 9999, a month index of at
    most 11, a day below 100 and a random draw below 1000, the
    quotation number is the company code, a dash, six characters for
    the date (two each for year, month and day), a dash and three
    characters for the draw. *)
Theorem generateQuotationNumber_format (draw : Draw) (companyCode : string) :
  (10 <= getFullYear draw < 100 * 100)%nat ->
  (getMonth draw <= 11)%nat ->
  (getDate draw < 100)%nat ->
  (random draw < 1000)%nat ->
  exists year month day serial,
    generateQuotationNumber draw companyCode
    = companyCode +:+ "-" +:+ year +:+ month +:+ day +:+ "-" +:+ serial
    /\ String.length year = 2%nat /\ String.length month = 2%nat
    /\ String.length day = 2%nat /\ String.length serial = 3%nat.
Proof.
  intros [Hlow Hhigh] Hmonth Hday Hrandom.
  eexists _, _, _, _. split; [reflexivity |].
  split; [| split; [| split]].
  - rewrite last_two_digits by exact Hhigh.
    destruct (Nat.ltb_spec (getFullYear draw) 10); [lia | reflexivity].
  - apply two_digits. lia.
  - apply two_digits. exact Hday.
  - apply three_digits. exact Hrandom.
Qed.

End QuotationNumber.

(** The number drawn on 3 November 2026 with the draw 7. *)
Lemma generateQuotationNumber_format_sample :
  exists year month day serial,
    PDFService.generateQuotationNumber
      {| PDFService.getFullYear := 2026; PDFService.getMonth := 10;
         PDFService.getDate := 3; PDFService.random := 7 |} "AQ"
    = "AQ" +:+ "-" +:+ year +:+ month +:+ day +:+ "-" +:+ serial
    /\ String.length year = 2%nat /\ String.length month = 2%nat
    /\ String.length day = 2%nat /\ String.length serial = 3%nat.
Proof.
  apply (generateQuotationNumber_format
           {| PDFService.getFullYear := 2026; PDFService.getMonth := 10;
              PDFService.getDate := 3; PDFService.random := 7 |} "AQ").
  - simpl. lia.
  - simpl. lia.
  - simpl. lia.
  - simpl. lia.
Defined.

(** ** The company store after a save or a delete *)

Section CompanyStoreRuns.

Context {codec : XLSX.Codec} {laws : XLSX.CodecLaws codec}.
Variable fetchWorkbook : string -> option WorkBook.

(** X25. [deleteCompany] removes nothing, for every store and every
    id: on a store in step with a company sheet under the canonical
    header whose ids are distinct texts, the call succeeds, and both
    the list of the store and the answer of [getCompanies] are what
    they were before the call. *)
Theorem deleteCompany_never_removes
    (fuel : nat) (companyId : string) (st : CompanyStore.CompanyState)
    (s : LocalStorage.t) (wb : WorkBook) (rows : WorkSheet) (ids : list string) :
  (1 <= fuel)%nat ->
  listed wb -> holds s wb ->
  Sheets wb !! "公司信息" = Some (company_header :: rows) ->
  first_column rows = map VString ids -> NoDup ids ->
  CompanyStore.companies st = companies_of rows ->
  exists st' s',
    CompanyStore.deleteCompany fuel fetchWorkbook companyId (st, s)
    = (Return tt, (st', s'))
    /\ CompanyStore.companies st' = CompanyStore.companies st
    /\ ExcelService.getCompanies fuel fetchWorkbook s'
       = (Return (CompanyStore.companies st), s').
Proof. apply deleteCompany_lists_the_same. Qed.

Lemma store_saveCompany_run
    (fuel : nat) (c : Company.t) (st : CompanyStore.CompanyState)
    (s : LocalStorage.t) (wb : WorkBook) (rows : WorkSheet) :
  (1 <= fuel)%nat ->
  listed wb -> holds s wb ->
  Sheets wb !! "公司信息" = Some (company_header :: rows) ->
  text_ids rows = true ->
  company_wf c = true ->
  exists st' s',
    CompanyStore.saveCompany fuel fetchWorkbook c (st, s) = (Return tt, (st', s'))
    /\ CompanyStore.companies st'
       = replace_or_append (fun c' => strict_eq (Company.id c') (Company.id c)) c
           (companies_of rows)
    /\ ExcelService.getCompanies fuel fetchWorkbook s'
       = (Return (CompanyStore.companies st'), s').
Proof.
  intros Hfuel Hlisted Hholds Hsheet Htext Hwf.
  destruct (saveCompany_then_list fetchWorkbook fuel c s wb rows
              Hfuel Hlisted Hholds Hsheet Htext Hwf) as (s' & Hsave & _ & Hget).
  destruct (loadCompanies_run fuel fetchWorkbook (CompanyStore.start st) s' _ Hget)
    as (st2 & Hload & Hcompanies).
  exists (CompanyStore.finish st2), s'. split; [| split].
  - unfold CompanyStore.saveCompany.
    rewrite (bind_return _ _ (st, s) tt (CompanyStore.start st, s)) by reflexivity.
    apply try_catch_return.
    assert (CompanyStore.service (ExcelService.saveCompany fuel fetchWorkbook c)
              (CompanyStore.start st, s)
            = (Return tt, (CompanyStore.start st, s'))) as Hservice.
    { unfold CompanyStore.service, zoom. cbn [fst snd]. rewrite Hsave. reflexivity. }
    rewrite (bind_return _ _ _ _ _ Hservice).
    rewrite (bind_return _ _ _ _ _ Hload). reflexivity.
  - exact Hcompanies.
  - cbn [CompanyStore.companies CompanyStore.finish]. rewrite Hcompanies. exact Hget.
Qed.

(** X26. The store's [saveCompany(c)] of a company with text fields,
    on a store whose company sheet has the canonical header and text
    ids, succeeds and leaves the store listing what the sheet listed
    with [c] put in place of the first company of its id, or at the
    end; the list of the store is then what [getCompanies] returns,
    whatever the store listed before. *)
Theorem store_saveCompany_lists_the_sheet
    (fuel : nat) (c : Company.t) (st : CompanyStore.CompanyState)
    (s : LocalStorage.t) (wb : WorkBook) (rows : WorkSheet) :
  (1 <= fuel)%nat ->
  listed wb -> holds s wb ->
  Sheets wb !! "公司信息" = Some (company_header :: rows) ->
  text_ids rows = true ->
  company_wf c = true ->
  exists st' s',
    CompanyStore.saveCompany fuel fetchWorkbook c (st, s) = (Return tt, (st', s'))
    /\ CompanyStore.companies st'
       = replace_or_append (fun c' => strict_eq (Company.id c') (Company.id c)) c
           (companies_of rows)
    /\ ExcelService.getCompanies fuel fetchWorkbook s'
       = (Return (CompanyStore.companies st'), s').
Proof. apply store_saveCompany_run. Qed.

Lemma find_customer_text_only (rows : WorkSheet) (customerId : string) :
  Forall (fun row => is_string (at_ row 0) = false) rows ->
  ExcelService.find_customer customer_header rows customerId = None.
Proof.
  induction 1 as [| row rows Hrow _ IH]; [reflexivity |].
  cbn [ExcelService.find_customer]. rewrite customer_id_cell.
  destruct (at_ row 0); try discriminate; exact IH.
Qed.

(** X27. [getCustomerById] compares the id cell without conversion: on
    a customer sheet under the canonical header whose id cells are not
    text (numbers, as a spreadsheet stores numeric ids), it returns
    null for every id. *)
Theorem getCustomerById_finds_text_ids_only
    (fuel : nat) (customerId : string) (s : LocalStorage.t) (wb : WorkBook)
    (rows : WorkSheet) :
  (1 <= fuel)%nat ->
  listed wb -> holds s wb ->
  Sheets wb !! "客户信息" = Some (customer_header :: rows) ->
  Forall (fun row => is_string (at_ row 0) = false) rows ->
  ExcelService.getCustomerById fuel fetchWorkbook customerId s = (Return None, s).
Proof.
  intros Hfuel Hlisted Hholds Hsheet Hrows.
  rewrite (getCustomerById_run fetchWorkbook fuel s wb rows customerId
             Hfuel Hlisted Hholds Hsheet).
  rewrite (find_customer_text_only rows customerId Hrows). reflexivity.
Qed.

End CompanyStoreRuns.

(** Deleting the first of the two sample companies. *)
Lemma deleteCompany_never_removes_sample :
  exists st' s',
    CompanyStore.deleteCompany 1 Reference.no_fetch "c1"
      (loaded two_company_rows, Reference.storage_of two_companies)
    = (Return tt, (st', s'))
    /\ CompanyStore.companies st' = CompanyStore.companies (loaded two_company_rows)
    /\ ExcelService.getCompanies 1 Reference.no_fetch s'
       = (Return (CompanyStore.companies (loaded two_company_rows)), s').
Proof.
  apply (deleteCompany_never_removes (laws := reference_codec_laws) Reference.no_fetch
           1 "c1" (loaded two_company_rows) (Reference.storage_of two_companies)
           two_companies two_company_rows ["c1"; "c2"]).
  - lia.
  - apply two_companies_listed.
  - apply storage_of_holds.
  - reflexivity.
  - reflexivity.
  - apply two_ids_distinct.
  - reflexivity.
Defined.

(** The second sample company saved again through the store, on a
    store that listed nothing. *)
Lemma store_saveCompany_lists_the_sheet_sample :
  exists st' s',
    CompanyStore.saveCompany 1 Reference.no_fetch other_company
      (loaded [], Reference.storage_of two_companies)
    = (Return tt, (st', s'))
    /\ CompanyStore.companies st'
       = replace_or_append
           (fun c' => strict_eq (Company.id c') (Company.id other_company)) other_company
           (companies_of two_company_rows)
    /\ ExcelService.getCompanies 1 Reference.no_fetch s'
       = (Return (CompanyStore.companies st'), s').
Proof.
  apply (store_saveCompany_lists_the_sheet (laws := reference_codec_laws)
           Reference.no_fetch 1 other_company (loaded [])
           (Reference.storage_of two_companies) two_companies two_company_rows).
  - lia.
  - apply two_companies_listed.
  - apply storage_of_holds.
  - reflexivity.
  - reflexivity.
  - reflexivity.
Defined.

Lemma numeric_customers_listed : listed numeric_customers.
Proof. apply assign_listed; [apply initial_listed |]. vm_compute. eauto. Qed.

(** The customer stored under the number 1001 is not found as [1001]. *)
Lemma getCustomerById_finds_text_ids_only_sample :
  ExcelService.getCustomerById 1 Reference.no_fetch "1001"
    (Reference.storage_of numeric_customers)
  = (Return None, Reference.storage_of numeric_customers).
Proof.
  apply (getCustomerById_finds_text_ids_only (laws := reference_codec_laws)
           Reference.no_fetch 1 "1001" (Reference.storage_of numeric_customers)
           numeric_customers numeric_customer_rows).
  - lia.
  - apply numeric_customers_listed.
  - apply storage_of_holds.
  - reflexivity.
  - repeat constructor.
Defined.

(** ** Saving a quotation into a workbook without an item sheet *)

Section ItemSheetMissing.

Context {codec : XLSX.Codec} {laws : XLSX.CodecLaws codec}.
Context {listed_only : XLSX.WritesListed codec}.
Variable fetchWorkbook : string -> option WorkBook.

Lemma not_listed (wb : WorkBook) (name : string) :
  listed wb -> Sheets wb !! name = None -> name ∉ SheetNames wb.
Proof.
  intros [_ Hdom] Hnone Hin.
  apply (elem_of_list_to_set (C := gset string)) in Hin. rewrite <- Hdom in Hin.
  apply elem_of_dom in Hin as [ws Hws]. congruence.
Qed.

Lemma listed_part_assign (wb : WorkBook) (name : string) (ws : WorkSheet) :
  name ∉ SheetNames wb -> listed_part (assign_sheet wb name ws) = listed_part wb.
Proof.
  intros Hout. unfold listed_part, assign_sheet. simpl. f_equal.
  apply map_eq. intros k. apply option_eq. intros v.
  rewrite !map_lookup_filter_Some. simpl.
  destruct (decide (k = name)) as [-> | Hne].
  - split; intros [_ Hin]; contradiction.
  - rewrite lookup_insert_ne by congruence. reflexivity.
Qed.

(** A sheet assigned under a name that is not listed is not written. *)
Lemma write_assign_unlisted (wb : WorkBook) (name : string) (ws : WorkSheet) :
  name ∉ SheetNames wb -> write (assign_sheet wb name ws) = write wb.
Proof.
  intros Hout. rewrite (write_listed (assign_sheet wb name ws)).
  rewrite (listed_part_assign wb name ws Hout). symmetry. apply write_listed.
Qed.

Lemma holds_unlisted (wb : WorkBook) (name : string) (ws : WorkSheet) s :
  name ∉ SheetNames wb -> holds (persisted (assign_sheet wb name ws) s) wb.
Proof.
  intros Hout. unfold holds. rewrite backing_persisted.
  rewrite (write_assign_unlisted wb name ws Hout). reflexivity.
Qed.

(** What the store holds after [saveQuotation] on a workbook without
    an item sheet: a listed workbook that still has no item sheet. *)
Lemma saveQuotation_without_item_sheet
    (fuel : nat) (q : Quotation.t) (s : LocalStorage.t) (wb : WorkBook) :
  (1 <= fuel)%nat ->
  listed wb -> holds s wb ->
  Sheets wb !! "报价单项" = None ->
  exists s' wb',
    ExcelService.saveQuotation fuel fetchWorkbook q s = (Return tt, s')
    /\ listed wb' /\ holds s' wb' /\ Sheets wb' !! "报价单项" = None.
Proof.
  intros Hfuel Hlisted Hholds Hitems.
  pose proof (not_listed wb "报价单项" Hlisted Hitems) as Hout.
  unfold ExcelService.saveQuotation.
  rewrite (bind_return _ _ _ _ _
             (readFromLocalStorage_holds fuel fetchWorkbook Hfuel s wb Hlisted Hholds)).
  unfold ExcelService.sheet_or_new at 1.
  destruct (Sheets wb !! "报价单") as [dataQ |] eqn:HQ.
  - unfold ExcelService.sheet_or_new.
    rewrite lookup_assign_ne by discriminate. rewrite Hitems.
    unfold sheet_to_json, aoa_to_sheet. cbn [app List.filter].
    rewrite assign_assign, saveToLocalStorage_run.
    eexists _, (assign_sheet wb "报价单" _).
    split; [reflexivity |]. split; [| split].
    + apply assign_listed; [exact Hlisted | rewrite HQ; eauto].
    + apply holds_unlisted. exact Hout.
    + rewrite lookup_assign_ne by discriminate. exact Hitems.
  - pose proof (not_listed wb "报价单" Hlisted HQ) as HoutQ.
    unfold ExcelService.sheet_or_new.
    rewrite lookup_assign_ne by discriminate.
    rewrite lookup_assign_ne by discriminate. rewrite Hitems.
    unfold sheet_to_json, aoa_to_sheet. cbn [app List.filter].
    rewrite !assign_assign, saveToLocalStorage_run.
    exists (persisted
              (assign_sheet
                 (assign_sheet wb "报价单"
                    (ExcelService.upsert
                       [ExcelService.header_row ExcelService.getQuotationHeaders]
                       (VString (Quotation.id q)) (ExcelService.quotation_row q)))
                 "报价单项"
                 (ExcelService.header_row ExcelService.getQuotationItemHeaders
                  :: map (ExcelService.quotation_item_row (Quotation.id q))
                         (Quotation.items q))) s), wb.
    split; [reflexivity |]. split; [exact Hlisted |]. split; [| exact Hitems].
    unfold holds. rewrite backing_persisted.
    rewrite write_assign_unlisted by exact Hout.
    rewrite write_assign_unlisted by exact HoutQ. reflexivity.
Qed.

Lemma saveQuotation_items_lost
    (fuel : nat) (q : Quotation.t) (s : LocalStorage.t) (wb : WorkBook) :
  (1 <= fuel)%nat ->
  listed wb -> holds s wb ->
  Sheets wb !! "报价单项" = None ->
  Quotation.items q <> [] ->
  exists s',
    ExcelService.saveQuotation fuel fetchWorkbook q s = (Return tt, s')
    /\ ExcelService.getQuotationItemsByQuotationId fuel fetchWorkbook (Quotation.id q) s'
       = (Return [], s')
    /\ (ExcelService.getQuotationItemsByQuotationId fuel fetchWorkbook
          (Quotation.id q) s').1
       <> Return (Quotation.items q).
Proof.
  intros Hfuel Hlisted Hholds Hitems Hsome.
  destruct (saveQuotation_without_item_sheet fuel q s wb Hfuel Hlisted Hholds Hitems)
    as (s' & wb' & Hsave & Hlisted' & Hholds' & Hitems').
  assert (ExcelService.getQuotationItemsByQuotationId fuel fetchWorkbook
            (Quotation.id q) s' = (Return [], s')) as Hget.
  { unfold ExcelService.getQuotationItemsByQuotationId.
    rewrite (bind_return _ _ _ _ _
               (readFromLocalStorage_holds fuel fetchWorkbook Hfuel s' wb'
                  Hlisted' Hholds')).
    rewrite Hitems'. reflexivity. }
  exists s'. split; [exact Hsave |]. split; [exact Hget |].
  rewrite Hget. simpl. intros [= E]. apply Hsome. symmetry. exact E.
Qed.

(** C3. The items of a quotation are lost when the stored workbook has
    no item sheet, as a workbook has that was imported with the three
    required sheets only: [saveQuotation(Q)] makes the sheet and
    assigns it to [workbook.Sheets] without adding its name to
    [SheetNames], the writer leaves it out, and after the call, which
    succeeds, loading the items for [Q.id] returns the empty list and
    not the items of [Q]. *)
Theorem saveQuotation_loses_items_without_item_sheet
    (fuel : nat) (q : Quotation.t) (s : LocalStorage.t) (wb : WorkBook) :
  (1 <= fuel)%nat ->
  listed wb -> holds s wb ->
  Sheets wb !! "报价单项" = None ->
  Quotation.items q <> [] ->
  exists s',
    ExcelService.saveQuotation fuel fetchWorkbook q s = (Return tt, s')
    /\ ExcelService.getQuotationItemsByQuotationId fuel fetchWorkbook (Quotation.id q) s'
       = (Return [], s')
    /\ (ExcelService.getQuotationItemsByQuotationId fuel fetchWorkbook
          (Quotation.id q) s').1
       <> Return (Quotation.items q).
Proof. apply saveQuotation_items_lost. Qed.

End ItemSheetMissing.

Lemma three_sheets_listed : listed three_sheets.
Proof. apply (bool_decide_unpack _). vm_compute. exact I. Qed.

Lemma three_sheets_accepted s :
  ExcelService.importExcel (ExcelService.Uploaded three_sheets) s
  = (Return tt, persisted three_sheets s).
Proof.
  unfold ExcelService.importExcel.
  replace (ExcelService.missingSheets three_sheets) with (@nil string);
    [apply saveToLocalStorage_run |].
  symmetry. apply missingSheets_none. simpl. tauto.
Qed.

(** The sample quotation, with its one item, saved into the store that
    the import of the three required sheets leaves. *)
Lemma saveQuotation_loses_items_without_item_sheet_sample :
  ExcelService.importExcel (ExcelService.Uploaded three_sheets) Reference.empty_storage
  = (Return tt, persisted three_sheets Reference.empty_storage)
  /\ exists s',
       ExcelService.saveQuotation 1 Reference.no_fetch sample_quotation
         (persisted three_sheets Reference.empty_storage) = (Return tt, s')
       /\ ExcelService.getQuotationItemsByQuotationId 1 Reference.no_fetch
            (Quotation.id sample_quotation) s'
          = (Return [], s')
       /\ (ExcelService.getQuotationItemsByQuotationId 1 Reference.no_fetch
             (Quotation.id sample_quotation) s').1
          <> Return (Quotation.items sample_quotation).
Proof.
  split; [apply three_sheets_accepted |].
  apply (saveQuotation_loses_items_without_item_sheet (laws := reference_codec_laws)
           (listed_only := reference_writes_listed) Reference.no_fetch 1 sample_quotation
           (persisted three_sheets Reference.empty_storage) three_sheets).
  - lia.
  - apply three_sheets_listed.
  - apply holds_persisted.
  - reflexivity.
  - discriminate.
Defined.

End Facts.
